(** * HMM attack-phase labeler: a shallow embedding of [scripts/hmm]

    The development follows the package layout of the Python sources:

    - [Config]            -- [hmm/config.py]
    - [Pandas]            -- the few DataFrame operations the code relies on
    - [SessionBuilderPy]  -- [hmm/data/session_builder.py]
    - [Extractor]         -- [hmm/features/extractor.py]
    - [Analyzer]          -- [hmm/interpretation/state_analyzer.py]
    - [MitreMapper]       -- [hmm/interpretation/mitre_mapper.py]
    - [HMM]               -- [hmm/model/hmm.py]
    - [Label]             -- [hmm/cli/label.py]

    The second half states and proves the properties, one module per
    component: [SessionSpec], [ExtractorSpec], [MapperSpec], [HMMSpec]
    and [LabelSpec].

    Python [int] is [Z]; Python [float] / numpy [float64] is the kernel's
    binary64 [float], so every sum of weights below rounds exactly as it
    does in the interpreter.  A [dict] is a [gmap].  A function that can
    raise returns an [outcome]. *)

From Stdlib Require Import ZArith List Bool Floats Lia Sorted.
From stdpp Require Import gmap strings list fin_maps pretty.

Set Warnings "-inexact-float".

(** ** Exceptions *)

Inductive exn : Type :=
| RuntimeError (msg : string)
| ValueError (msg : string)
| KeyError (key : string)
| FileNotFoundError (path : string)
| NotFittedError (msg : string).

Inductive outcome (A : Type) : Type :=
| Returned (a : A)
| Raised (e : exn).

Arguments Returned {A} a.
Arguments Raised {A} e.

Definition obind {A B : Type} (o : outcome A) (k : A -> outcome B) : outcome B :=
  match o with
  | Returned a => k a
  | Raised e => Raised e
  end.

Notation "'do' x <- o ; k" := (obind o (fun x => k))
  (at level 10, x name, o at level 100, k at level 200).

Definition raises {A : Type} (o : outcome A) : Prop :=
  match o with
  | Returned _ => False
  | Raised _ => True
  end.

(** ** [hmm/config.py] *)

Module Config.

Definition SESSION_GAP_MS : Z := 30 * 60 * 1000.
Definition MIN_SESSION_LENGTH : Z := 3.

Definition PROTO_TCP : Z := 6.
Definition PROTO_UDP : Z := 17.
Definition PROTO_ICMP : Z := 1.

Definition DEFAULT_N_STATES : Z := 10.
Definition N_ITER : Z := 100.
Definition RANDOM_STATE : Z := 42.

End Config.

(** ** Flow records (the input schema of section 6 of the specification) *)

Record Flow : Type := mkFlow {
  IPV4_SRC_ADDR : string;
  IPV4_DST_ADDR : string;
  L4_SRC_PORT : Z;
  L4_DST_PORT : Z;
  PROTOCOL : Z;
  IN_BYTES : Z;
  OUT_BYTES : Z;
  IN_PKTS : Z;
  OUT_PKTS : Z;
  FLOW_START_MILLISECONDS : Z;
  FLOW_DURATION_MILLISECONDS : Z
}.

(** The integer columns are [int64] arrays: numpy's arithmetic on them
    wraps around at 64 bits. *)
Definition int64 (z : Z) : Z := ((z + 2 ^ 63) mod 2 ^ 64 - 2 ^ 63)%Z.

(** ** The DataFrame operations used by the sources *)

Module Pandas.

Section Sorting.
Context {A K : Type} (leb : K -> K -> bool) (key : A -> K).

(** [sort_values]: ascending by [key].  pandas does not promise an order
    among rows with equal keys; here they keep their relative order. *)
Fixpoint insert_sorted (x : A) (l : list A) : list A :=
  match l with
  | [] => [x]
  | y :: l' => if leb (key x) (key y) then x :: l else y :: insert_sorted x l'
  end.

Fixpoint sort_values (l : list A) : list A :=
  match l with
  | [] => []
  | x :: l' => insert_sorted x (sort_values l')
  end.

End Sorting.

Section Grouping.
Context {A K : Type} (eqb leb : K -> K -> bool) (key : A -> K).

Fixpoint unique (ks : list K) : list K :=
  match ks with
  | [] => []
  | k :: ks' => k :: List.filter (fun k' => negb (eqb k k')) (unique ks')
  end.

(** [groupby(key)]: one group per distinct key, groups in ascending key
    order, the rows of a group in their original order. *)
Definition groupby (rows : list A) : list (K * list A) :=
  List.map (fun k => (k, List.filter (fun r => eqb (key r) k) rows))
           (sort_values leb (fun k => k) (unique (List.map key rows))).

End Grouping.

(** [values[1:] - values[:-1]] on an [int64] array. *)
Definition diff (values : list Z) : list Z :=
  zip_with (fun later earlier => int64 (later - earlier))
           (tail values) (removelast values).

(** [mask.nonzero()[0]]: the positions at which the mask is true. *)
Fixpoint nonzero_from (i : nat) (mask : list bool) : list nat :=
  match mask with
  | [] => []
  | b :: mask' => (if b then [i] else []) ++ nonzero_from (S i) mask'
  end.

Definition nonzero (mask : list bool) : list nat := nonzero_from 0 mask.

(** [df.iloc[start:stop]] and [df.iloc[start:]] for [0 <= start <= stop]. *)
Definition iloc {A : Type} (l : list A) (start stop : nat) : list A :=
  firstn (stop - start) (skipn start l).

Definition iloc_from {A : Type} (l : list A) (start : nat) : list A :=
  skipn start l.

(** [series.min()]; the minimum of an empty series is NaN. *)
Definition series_min (values : list Z) : option Z :=
  match values with
  | [] => None
  | v :: vs => Some (fold_left Z.min vs v)
  end.

End Pandas.

(** ** [hmm/data/session_builder.py] *)

Module SessionBuilderPy.
Import Pandas.

Record SessionBuilder : Type := mkSessionBuilder {
  gap_ms : Z;
  min_length : Z
}.

Definition __init__ (gap_ms min_length : option Z) : SessionBuilder :=
  {| gap_ms := default Config.SESSION_GAP_MS gap_ms;
     min_length := default Config.MIN_SESSION_LENGTH min_length |}.

(** A session: the rows of the slice, verbatim, and the added
    [session_id] column (one value for the whole frame). *)
Record Session : Type := mkSession {
  session_id : string;
  session_rows : list Flow
}.

Definition format_start_time (t : option Z) : string :=
  match t with
  | Some z => pretty z
  | None => "nan"
  end.

Definition _create_session (self : SessionBuilder) (flows : list Flow)
    (src_ip : string) : option Session :=
  if (Z.of_nat (length flows) <? min_length self)%Z then None
  else
    let start_time := series_min (List.map FLOW_START_MILLISECONDS flows) in
    let session_id := src_ip +:+ "_" +:+ format_start_time start_time in
    Some {| session_id := session_id; session_rows := flows |}.

Definition append_session (sessions : list Session) (session : option Session)
    : list Session :=
  match session with
  | Some s => sessions ++ [s]
  | None => sessions
  end.

(** [(gaps > self.gap_ms).nonzero()[0] + 1] *)
Definition split_indices (self : SessionBuilder) (group : list Flow) : list nat :=
  let times := List.map FLOW_START_MILLISECONDS group in
  let gaps := diff times in
  List.map (fun i => (i + 1)%nat)
           (nonzero (List.map (fun g => (gap_ms self <? g)%Z) gaps)).

(** The inner [for split_idx in split_indices] loop followed by the
    "last session" step; [sessions] is the list being appended to. *)
Fixpoint split_loop (self : SessionBuilder) (group : list Flow) (src_ip : string)
    (indices : list nat) (start_idx : nat) (sessions : list Session)
    : list Session :=
  match indices with
  | [] =>
      append_session sessions
        (_create_session self (iloc_from group start_idx) src_ip)
  | split_idx :: indices' =>
      let sessions :=
        append_session sessions
          (_create_session self (iloc group start_idx split_idx) src_ip) in
      split_loop self group src_ip indices' split_idx sessions
  end.

Definition sorted_group (group : list Flow) : list Flow :=
  sort_values Z.leb FLOW_START_MILLISECONDS group.

(** The body of the outer loop for one [(src_ip, group)]. *)
Definition group_sessions (self : SessionBuilder) (sessions : list Session)
    (g : string * list Flow) : list Session :=
  let group := sorted_group (snd g) in
  split_loop self group (fst g) (split_indices self group) 0 sessions.

Definition build_sessions (self : SessionBuilder) (flows : list Flow)
    : list Session :=
  match flows with
  | [] => []
  | _ =>
      fold_left (group_sessions self)
                (groupby String.eqb String.leb IPV4_SRC_ADDR flows) []
  end.

End SessionBuilderPy.


(** ** [hmm/features/extractor.py] *)

(** numpy's transcendental functions and pandas' [mean] are library code:
    the embedding takes them as an interface. *)
Class NumLib : Type := {
  log1p : float -> float;
  np_log : float -> float;
  series_mean : list float -> float
}.

Abbreviation matrix := (list (list float)).

(** [int64 -> float64] conversion (round to nearest), for the integers
    of the [int64] range. *)
Definition float_of_Z (z : Z) : float :=
  if (z <? 0)%Z then
    if (z =? - 2 ^ 63)%Z then PrimFloat.opp 9223372036854775808%float
    else PrimFloat.opp (PrimFloat.of_uint63 (Uint63.of_Z (- z)))
  else PrimFloat.of_uint63 (Uint63.of_Z z).

Definition float_of_bool (b : bool) : float :=
  if b then 1%float else 0%float.

(** [arr[mask] = v] *)
Definition mask_assign (mask : list bool) (v : float) (arr : list float)
    : list float :=
  zip_with (fun (m : bool) a => if m then v else a) mask arr.

(** [np.clip(x, lo, hi)] on one element: [minimum(maximum(x, lo), hi)]. *)
Definition clip (x lo hi : float) : float :=
  let y := if PrimFloat.ltb x lo then lo else x in
  if PrimFloat.ltb hi y then hi else y.

Definition column (j : nat) (X : matrix) : list float :=
  List.map (fun row => nth j row 0%float) X.

(** The [n x 12] array whose column [j] is [cols[j]]. *)
Definition rows_of_columns (n : nat) (cols : list (list float)) : matrix :=
  List.map (fun i => List.map (fun c => nth i c 0%float) cols) (seq 0 n).

(** sklearn's [StandardScaler]: the fitted attributes [mean_] and
    [scale_], one entry per feature column. *)
Record ScalerParams : Type := mkScalerParams {
  mean_ : list float;
  scale_ : list float
}.

(** [StandardScaler.fit] is library code. *)
Class SkLearn : Type := {
  scaler_fit : matrix -> outcome ScalerParams
}.

Module Extractor.

Definition standardize_row (p : ScalerParams) (row : list float) : list float :=
  zip_with PrimFloat.div (zip_with PrimFloat.sub row (mean_ p)) (scale_ p).

(** An entry of the matrix is [inf] or [-inf]. *)
Definition has_infinity (X : matrix) : bool :=
  existsb (existsb PrimFloat.is_infinity) X.

(** [StandardScaler.transform].  The input is validated first, in this
    order: no entry may be infinite (NaN is let through), there must be
    at least one row and one column, and as many columns as the scaler
    was fitted on.  Then [X -= mean_; X /= scale_], every column. *)
Definition scaler_transform (scaler : option ScalerParams) (X : matrix)
    : outcome matrix :=
  match scaler with
  | None => Raised (NotFittedError "This StandardScaler instance is not fitted yet.")
  | Some p =>
      if has_infinity X
      then Raised (ValueError "Input X contains infinity or a value too large for dtype('float64').")
      else if Nat.eqb (length X) 0
      then Raised (ValueError "Found array with 0 sample(s) while a minimum of 1 is required by StandardScaler.")
      else if Nat.eqb (length (hd [] X)) 0
      then Raised (ValueError "Found array with 0 feature(s) while a minimum of 1 is required by StandardScaler.")
      else if forallb (fun row => Nat.eqb (length row) (length (mean_ p))) X
      then Returned (List.map (standardize_row p) X)
      else Raised (ValueError "X has a different number of features than the fitted scaler")
  end.

Record FlowFeatureExtractor : Type := mkExtractor {
  scaler : option ScalerParams;
  _is_fitted : bool
}.

Definition __init__ : FlowFeatureExtractor :=
  {| scaler := None; _is_fitted := false |}.

Definition _port_category (ports : list Z) : list float :=
  let categories := repeat 0%float (length ports) in
  let categories :=
    mask_assign (List.map (fun p => (1024 <=? p)%Z && (p <=? 49151)%Z) ports)
                1%float categories in
  let categories :=
    mask_assign (List.map (fun p => (49152 <=? p)%Z) ports) 2%float categories in
  categories.

Section WithNumLib.
Context {nl : NumLib}.

Definition _extract_features (flows : list Flow) : matrix :=
  let n := length flows in
  let int_col (f : Flow -> Z) := List.map (fun r => float_of_Z (f r)) flows in
  let c0 := List.map log1p (int_col IN_BYTES) in
  let c1 := List.map log1p (int_col OUT_BYTES) in
  let c2 := List.map log1p (int_col IN_PKTS) in
  let c3 := List.map log1p (int_col OUT_PKTS) in
  let c4 := List.map log1p (int_col FLOW_DURATION_MILLISECONDS) in
  let times := int_col FLOW_START_MILLISECONDS in
  let iat :=
    if (1 <? n)%nat
    then 0%float :: zip_with PrimFloat.sub (tail times) (removelast times)
    else repeat 0%float n in
  let iat := List.map (fun x => clip x 0%float 10000000000%float) iat in
  let c5 := List.map log1p iat in
  let c6 :=
    List.map (fun r => PrimFloat.div (float_of_Z (IN_BYTES r))
                                     (float_of_Z (int64 (OUT_BYTES r + 1))))
             flows in
  let c7 :=
    List.map (fun r =>
      let total_pkts := int64 (IN_PKTS r + OUT_PKTS r) in
      let duration_s :=
        PrimFloat.div (float_of_Z (Z.max (FLOW_DURATION_MILLISECONDS r) 1))
                      1000%float in
      PrimFloat.div (float_of_Z total_pkts) duration_s) flows in
  let protocol := List.map PROTOCOL flows in
  let c8 := List.map (fun p => float_of_bool (p =? Config.PROTO_TCP)%Z) protocol in
  let c9 := List.map (fun p => float_of_bool (p =? Config.PROTO_UDP)%Z) protocol in
  let c10 := List.map (fun p => float_of_bool (p =? Config.PROTO_ICMP)%Z) protocol in
  let ports := List.map L4_DST_PORT flows in
  let c11 := _port_category ports in
  rows_of_columns n [c0; c1; c2; c3; c4; c5; c6; c7; c8; c9; c10; c11].

Definition transform (self : FlowFeatureExtractor) (flows : list Flow)
    (normalize : bool) : outcome matrix :=
  let raw_features := _extract_features flows in
  if normalize && _is_fitted self
  then scaler_transform (scaler self) raw_features
  else Returned raw_features.

Definition fit_transform {sk : SkLearn} (self : FlowFeatureExtractor)
    (flows : list Flow) : outcome matrix * FlowFeatureExtractor :=
  let raw_features := _extract_features flows in
  match scaler_fit raw_features with
  | Raised e => (Raised e, self)
  | Returned p =>
      (scaler_transform (Some p) raw_features,
       {| scaler := Some p; _is_fitted := true |})
  end.

End WithNumLib.

End Extractor.

(** ** [hmm/interpretation/state_analyzer.py] *)

(** A flow with the [HMM_STATE] column added. *)
Record LabeledFlow : Type := mkLabeledFlow {
  lf_flow : Flow;
  HMM_STATE : Z
}.

Record StateSignature : Type := mkStateSignature {
  state_id : Z;
  avg_in_bytes : float;
  avg_out_bytes : float;
  bytes_ratio : float;
  avg_duration_ms : float;
  avg_pkts_per_sec : float;
  protocol_dist : gmap string float;
  port_category_dist : gmap Z float;
  flow_count : Z
}.

Module Analyzer.
Import Pandas.

Definition count_where {A : Type} (f : A -> bool) (l : list A) : Z :=
  Z.of_nat (length (List.filter f l)).

Definition _compute_protocol_dist (protocols : list Z) : gmap string float :=
  let n := Z.of_nat (length protocols) in
  if (n =? 0)%Z
  then <["tcp" := 0%float]> (<["udp" := 0%float]> (<["icmp" := 0%float]> ∅))
  else
    let tcp_count := count_where (fun p => (p =? Config.PROTO_TCP)%Z) protocols in
    let udp_count := count_where (fun p => (p =? Config.PROTO_UDP)%Z) protocols in
    let icmp_count := count_where (fun p => (p =? Config.PROTO_ICMP)%Z) protocols in
    <["tcp" := PrimFloat.div (float_of_Z tcp_count) (float_of_Z n)]>
      (<["udp" := PrimFloat.div (float_of_Z udp_count) (float_of_Z n)]>
        (<["icmp" := PrimFloat.div (float_of_Z icmp_count) (float_of_Z n)]> ∅)).

Definition _compute_port_category_dist (ports : list Z) : gmap Z float :=
  let n := Z.of_nat (length ports) in
  if (n =? 0)%Z
  then <[0%Z := 0%float]> (<[1%Z := 0%float]> (<[2%Z := 0%float]> ∅))
  else
    let well_known := count_where (fun p => (0 <=? p)%Z && (p <=? 1023)%Z) ports in
    let registered := count_where (fun p => (1024 <=? p)%Z && (p <=? 49151)%Z) ports in
    let ephemeral := count_where (fun p => (49152 <=? p)%Z) ports in
    <[0%Z := PrimFloat.div (float_of_Z well_known) (float_of_Z n)]>
      (<[1%Z := PrimFloat.div (float_of_Z registered) (float_of_Z n)]>
        (<[2%Z := PrimFloat.div (float_of_Z ephemeral) (float_of_Z n)]> ∅)).

Section WithNumLib.
Context {nl : NumLib}.

Definition _compute_signature (state_id : Z) (flows : list LabeledFlow)
    : StateSignature :=
  let n := Z.of_nat (length flows) in
  let col (f : Flow -> Z) := List.map (fun r => float_of_Z (f (lf_flow r))) flows in
  let avg_in_bytes := series_mean (col IN_BYTES) in
  let avg_out_bytes := series_mean (col OUT_BYTES) in
  let bytes_ratio := PrimFloat.div avg_in_bytes (PrimFloat.add avg_out_bytes 1%float) in
  let avg_duration_ms := series_mean (col FLOW_DURATION_MILLISECONDS) in
  let pkts_per_sec :=
    List.map (fun r =>
      let total_pkts := (IN_PKTS (lf_flow r) + OUT_PKTS (lf_flow r))%Z in
      let duration_s :=
        PrimFloat.div
          (float_of_Z (Z.max (FLOW_DURATION_MILLISECONDS (lf_flow r)) 1))
          1000%float in
      PrimFloat.div (float_of_Z total_pkts) duration_s) flows in
  let avg_pkts_per_sec := series_mean pkts_per_sec in
  let protocol_dist :=
    _compute_protocol_dist (List.map (fun r => PROTOCOL (lf_flow r)) flows) in
  let port_category_dist :=
    _compute_port_category_dist (List.map (fun r => L4_DST_PORT (lf_flow r)) flows) in
  {| state_id := state_id;
     avg_in_bytes := avg_in_bytes;
     avg_out_bytes := avg_out_bytes;
     bytes_ratio := bytes_ratio;
     avg_duration_ms := avg_duration_ms;
     avg_pkts_per_sec := avg_pkts_per_sec;
     protocol_dist := protocol_dist;
     port_category_dist := port_category_dist;
     flow_count := n |}.

Definition analyze (flows : list LabeledFlow) : list StateSignature :=
  let signatures :=
    List.map (fun g => _compute_signature (fst g) (snd g))
             (groupby Z.eqb Z.leb HMM_STATE flows) in
  sort_values Z.leb state_id signatures.

End WithNumLib.

End Analyzer.

(** ** [hmm/interpretation/mitre_mapper.py] *)

Module MitreMapper.

Local Open Scope float_scope.

Record TacticProfile : Type := mkTacticProfile {
  tactic : string;
  score_fn : StateSignature -> float
}.

(** The builtins [min(a, b)] and [max(a, b)] on two arguments: the first
    argument is kept unless the second is strictly smaller (larger). *)
Definition pymin (a b : float) : float := if b <? a then b else a.
Definition pymax (a b : float) : float := if a <? b then b else a.

Definition _clamp (value min_val max_val : float) : float :=
  pymax min_val (pymin max_val value).

(** [d.get(k, 0)] *)
Definition dict_get {K : Type} `{Countable K} (d : gmap K float) (k : K) : float :=
  default 0 (d !! k).

Definition _reconnaissance_score (sig : StateSignature) : float :=
  let score := 0 in
  let score :=
    if (avg_in_bytes sig <? 500) && (avg_out_bytes sig <? 500)
    then score + 0.3 else score in
  let score := if avg_duration_ms sig <? 1000 then score + 0.2 else score in
  let score := if 10 <? avg_pkts_per_sec sig then score + 0.2 else score in
  let score :=
    if 0.5 <? dict_get (port_category_dist sig) 0%Z
    then score + 0.3 else score in
  _clamp score 0 1.

Definition _exfiltration_score (sig : StateSignature) : float :=
  let score := 0 in
  let score := if 10000 <? avg_out_bytes sig then score + 0.3 else score in
  let score := if bytes_ratio sig <? 0.1 then score + 0.3 else score in
  let score := if 10000 <? avg_duration_ms sig then score + 0.2 else score in
  let score :=
    if 0.5 <? dict_get (port_category_dist sig) 2%Z
    then score + 0.2 else score in
  _clamp score 0 1.

Definition _c2_score (sig : StateSignature) : float :=
  let score := 0 in
  let score := if 30000 <? avg_duration_ms sig then score + 0.3 else score in
  let score := if avg_pkts_per_sec sig <? 2 then score + 0.2 else score in
  let score :=
    if (0.5 <? bytes_ratio sig) && (bytes_ratio sig <? 2)
    then score + 0.1 else score in
  let score :=
    if 0.5 <? dict_get (port_category_dist sig) 2%Z
    then score + 0.2 else score in
  let score :=
    if 0.8 <? dict_get (protocol_dist sig) "tcp"
    then score + 0.2 else score in
  _clamp score 0 1.

Definition _lateral_movement_score (sig : StateSignature) : float :=
  let score := 0 in
  let score :=
    if (1000 <? avg_in_bytes sig) && (avg_in_bytes sig <? 100000)
    then score + 0.2 else score in
  let dist := port_category_dist sig in
  let score :=
    if (0.2 <? dict_get dist 0%Z) && (0.2 <? dict_get dist 1%Z)
    then score + 0.3 else score in
  let score :=
    if (1000 <? avg_duration_ms sig) && (avg_duration_ms sig <? 30000)
    then score + 0.2 else score in
  let score :=
    if 0.7 <? dict_get (protocol_dist sig) "tcp"
    then score + 0.3 else score in
  _clamp score 0 1.

Definition _benign_score (sig : StateSignature) : float :=
  let score := 0 in
  let score :=
    if (0.5 <? bytes_ratio sig) && (bytes_ratio sig <? 2)
    then score + 0.3 else score in
  let score :=
    if (dict_get (protocol_dist sig) "tcp" <? 0.9)
       && (0.1 <? dict_get (protocol_dist sig) "udp")
    then score + 0.2 else score in
  let score := if (1000 <? flow_count sig)%Z then score + 0.2 else score in
  let dist := port_category_dist sig in
  let score :=
    if (0.2 <? dict_get dist 0%Z) && (0.2 <? dict_get dist 1%Z)
    then score + 0.3 else score in
  _clamp score 0 1.

Definition _credential_access_score (sig : StateSignature) : float :=
  let score := 0 in
  let score :=
    if (avg_in_bytes sig <? 1000) && (avg_out_bytes sig <? 1000)
    then score + 0.3 else score in
  let score :=
    if 0.6 <? dict_get (port_category_dist sig) 0%Z
    then score + 0.3 else score in
  let score := if avg_duration_ms sig <? 5000 then score + 0.2 else score in
  let score :=
    if 0.9 <? dict_get (protocol_dist sig) "tcp"
    then score + 0.2 else score in
  _clamp score 0 1.

(** [MitreMapper.__init__]: the profile list, in declaration order. *)
Definition profiles : list TacticProfile :=
  [ mkTacticProfile "Reconnaissance" _reconnaissance_score;
    mkTacticProfile "Discovery" _reconnaissance_score;
    mkTacticProfile "Credential Access" _credential_access_score;
    mkTacticProfile "Lateral Movement" _lateral_movement_score;
    mkTacticProfile "Command and Control" _c2_score;
    mkTacticProfile "Exfiltration" _exfiltration_score;
    mkTacticProfile "Benign" _benign_score ].

(** One iteration of the [for profile in self.profiles] loop. *)
Definition map_step (signature : StateSignature) (best : string * float)
    (profile : TacticProfile) : string * float :=
  let score := score_fn profile signature in
  if snd best <? score then (tactic profile, score) else best.

Definition map_over (ps : list TacticProfile) (signature : StateSignature)
    : string * float :=
  fold_left (map_step signature) ps ("Unknown"%string, 0).

Definition map (signature : StateSignature) : string * float :=
  map_over profiles signature.

Definition map_all (signatures : list StateSignature) : gmap Z (string * float) :=
  fold_left (fun d sig => <[state_id sig := map sig]> d) signatures ∅.

End MitreMapper.

(** ** [hmm/model/hmm.py] *)

(** [hmmlearn.hmm.GaussianHMM] is library code: the embedding keeps the
    fitted estimator abstract and takes its methods as an interface.
    [hmm_fit] mutates the estimator, so it returns the estimator's state
    after the call together with the outcome. *)
Class HmmLearn : Type := {
  GaussianHMM : Type;
  hmm_new : Z -> Z -> Z -> GaussianHMM;
  hmm_fit : GaussianHMM -> matrix -> list Z -> outcome unit * GaussianHMM;
  hmm_predict : GaussianHMM -> matrix -> list Z -> outcome (list Z);
  hmm_score : GaussianHMM -> matrix -> list Z -> outcome float;
  transmat_ : GaussianHMM -> outcome matrix;
  means_ : GaussianHMM -> outcome matrix;
  covars_ : GaussianHMM -> outcome matrix
}.

Module HMM.

Section WithLibraries.
Context {nl : NumLib} {hl : HmmLearn}.

Record AttackPhaseHMM : Type := mkAttackPhaseHMM {
  n_states : Z;
  n_iter : Z;
  random_state : Z;
  model : option GaussianHMM
}.

Definition __init__ (n_states n_iter : Z) (random_state : option Z)
    : AttackPhaseHMM :=
  {| n_states := n_states;
     n_iter := n_iter;
     random_state := default Config.RANDOM_STATE random_state;
     model := None |}.

Definition set_model (self : AttackPhaseHMM) (m : option GaussianHMM)
    : AttackPhaseHMM :=
  {| n_states := n_states self;
     n_iter := n_iter self;
     random_state := random_state self;
     model := m |}.

Definition not_fitted : exn := RuntimeError "Model not fitted. Call fit() first.".

(** Every method returns its outcome and the state of [self] after the
    call. *)
Definition fit (self : AttackPhaseHMM) (X : matrix) (lengths : list Z)
    : outcome unit * AttackPhaseHMM :=
  let g := hmm_new (n_states self) (n_iter self) (random_state self) in
  let self := set_model self (Some g) in
  let (r, g') := hmm_fit g X lengths in
  (r, set_model self (Some g')).

Definition predict_states (self : AttackPhaseHMM) (X : matrix) (lengths : list Z)
    : outcome (list Z) * AttackPhaseHMM :=
  match model self with
  | None => (Raised not_fitted, self)
  | Some g => (hmm_predict g X lengths, self)
  end.

Definition score (self : AttackPhaseHMM) (X : matrix) (lengths : list Z)
    : outcome float * AttackPhaseHMM :=
  match model self with
  | None => (Raised not_fitted, self)
  | Some g => (hmm_score g X lengths, self)
  end.

Definition get_transition_matrix (self : AttackPhaseHMM)
    : outcome matrix * AttackPhaseHMM :=
  match model self with
  | None => (Raised not_fitted, self)
  | Some g => (transmat_ g, self)
  end.

Definition get_emission_means (self : AttackPhaseHMM)
    : outcome matrix * AttackPhaseHMM :=
  match model self with
  | None => (Raised not_fitted, self)
  | Some g => (means_ g, self)
  end.

Definition get_emission_covariances (self : AttackPhaseHMM)
    : outcome matrix * AttackPhaseHMM :=
  match model self with
  | None => (Raised not_fitted, self)
  | Some g => (covars_ g, self)
  end.

(** [X.shape] of a two-dimensional array held as a list of rows. *)
Definition shape (X : matrix) : Z * Z :=
  (Z.of_nat (length X), Z.of_nat (length (hd [] X))).

Definition compute_bic (self : AttackPhaseHMM) (X : matrix) (lengths : list Z)
    : outcome float * AttackPhaseHMM :=
  match model self with
  | None => (Raised not_fitted, self)
  | Some g =>
      let (n_samples, n_features) := shape X in
      let r :=
        do log_likelihood <- hmm_score g X lengths;
        let n_params :=
          ((n_states self - 1)
           + n_states self * (n_states self - 1)
           + n_states self * n_features * 2)%Z in
        let bic :=
          PrimFloat.add
            (PrimFloat.mul (float_of_Z (-2)) log_likelihood)
            (PrimFloat.mul (float_of_Z n_params) (np_log (float_of_Z n_samples))) in
        Returned bic in
      (r, self)
  end.

(** *** Persistence.  [joblib.dump] / [joblib.load] store and return a
    Python object under a path; the stored object here is the [data]
    dictionary of [save]. *)
Inductive pyval : Type :=
| PyInt (z : Z)
| PyNone
| PyModel (g : GaussianHMM).

Abbreviation pickles := (gmap string (gmap string pyval)).

Definition joblib_dump (data : gmap string pyval) (path : string) (fs : pickles)
    : pickles :=
  <[path := data]> fs.

Definition joblib_load (path : string) (fs : pickles)
    : outcome (gmap string pyval) :=
  match fs !! path with
  | Some data => Returned data
  | None => Raised (FileNotFoundError path)
  end.

Definition dict_item (data : gmap string pyval) (key : string) : outcome pyval :=
  match data !! key with
  | Some v => Returned v
  | None => Raised (KeyError key)
  end.

Definition save (self : AttackPhaseHMM) (path : string) (fs : pickles) : pickles :=
  let data : gmap string pyval :=
    <["n_states" := PyInt (n_states self)]>
      (<["n_iter" := PyInt (n_iter self)]>
        (<["random_state" := PyInt (random_state self)]>
          (<["model" := match model self with
                        | Some g => PyModel g
                        | None => PyNone
                        end]> ∅))) in
  joblib_dump data path fs.

(** The record holds [n_states] and [n_iter] as integers; an entry that
    is not an integer is one [save] never writes. *)
Definition as_int (v : pyval) : outcome Z :=
  match v with
  | PyInt z => Returned z
  | _ => Raised (ValueError "not an int")
  end.

Definition load (path : string) (fs : pickles) : outcome AttackPhaseHMM :=
  do data <- joblib_load path fs;
  do ns <- dict_item data "n_states";
  do ni <- dict_item data "n_iter";
  do rs <- dict_item data "random_state";
  do ns <- as_int ns;
  do ni <- as_int ni;
  let rs := match rs with PyInt z => Some z | _ => None end in
  let instance := __init__ ns ni rs in
  do m <- dict_item data "model";
  Returned (set_model instance (match m with PyModel g => Some g | _ => None end)).

(** *** Model-order selection *)

(** [range(lo, hi)] *)
Definition pyrange (lo hi : Z) : list Z :=
  List.map (fun i => (lo + Z.of_nat i)%Z) (seq 0 (Z.to_nat (hi - lo))).

(** The body of the [try] block for one candidate [k]. *)
Definition candidate_bic (X : matrix) (lengths : list Z) (n_iter random_state k : Z)
    : outcome float :=
  let model := __init__ k n_iter (Some random_state) in
  let (fitted, model) := fit model X lengths in
  do _ <- fitted;
  fst (compute_bic model X lengths).

(** One iteration of [for k in range(...)]: [except Exception: continue]
    leaves [(best_bic, best_k)] as it was. *)
Definition select_step (X : matrix) (lengths : list Z) (n_iter random_state : Z)
    (best : float * Z) (k : Z) : float * Z :=
  match candidate_bic X lengths n_iter random_state k with
  | Returned bic => if PrimFloat.ltb bic (fst best) then (bic, k) else best
  | Raised _ => best
  end.

Definition select_loop (X : matrix) (lengths : list Z) (n_iter random_state : Z)
    (candidates : list Z) (best : float * Z) : float * Z :=
  fold_left (select_step X lengths n_iter random_state) candidates best.

Definition select_n_states (X : matrix) (lengths : list Z)
    (min_states max_states n_iter random_state : Z) : outcome Z :=
  let best_bic := PrimFloat.infinity in
  let best_k := min_states in
  let best :=
    select_loop X lengths n_iter random_state
                (pyrange min_states (max_states + 1)) (best_bic, best_k) in
  Returned (snd best).

End WithLibraries.

End HMM.

(** ** [hmm/cli/label.py] *)

(** A row of the table written by [label_flows]: the flow's own columns
    and the three added ones. *)
Record OutputRow : Type := mkOutputRow {
  out_flow : Flow;
  out_HMM_STATE : Z;
  out_HMM_TACTIC : string;
  out_HMM_CONFIDENCE : float
}.

Module Label.

Section WithLibraries.
Context {nl : NumLib} {hl : HmmLearn}.

(** The body of [for session in sessions]. *)
Definition label_session (model : HMM.AttackPhaseHMM)
    (extractor : Extractor.FlowFeatureExtractor)
    (session : SessionBuilderPy.Session) : outcome (list LabeledFlow) :=
  let rows := SessionBuilderPy.session_rows session in
  do features <- Extractor.transform extractor rows (Extractor._is_fitted extractor);
  do states <- fst (HMM.predict_states model features [Z.of_nat (length features)]);
  if Nat.eqb (length states) (length rows)
  then Returned (zip_with mkLabeledFlow rows states)
  else Raised (ValueError "Length of values does not match length of index").

Fixpoint label_sessions (model : HMM.AttackPhaseHMM)
    (extractor : Extractor.FlowFeatureExtractor)
    (sessions : list SessionBuilderPy.Session)
    (all_labeled : list (list LabeledFlow)) : outcome (list (list LabeledFlow)) :=
  match sessions with
  | [] => Returned all_labeled
  | session :: rest =>
      do labeled <- label_session model extractor session;
      label_sessions model extractor rest (all_labeled ++ [labeled])
  end.

(** [label_flows] once the model, the extractor and the flow table are
    loaded; the result is the table handed to [to_parquet]. *)
Definition label_flows (model : HMM.AttackPhaseHMM)
    (extractor : Extractor.FlowFeatureExtractor) (flows : list Flow)
    : outcome (list OutputRow) :=
  let builder := SessionBuilderPy.__init__ None None in
  let sessions := SessionBuilderPy.build_sessions builder flows in
  match sessions with
  | [] =>
      Returned (List.map (fun f => mkOutputRow f (-1) "Unknown" 0%float) flows)
  | _ =>
      do all_labeled <- label_sessions model extractor sessions [];
      let labeled_df := concat all_labeled in
      let signatures := Analyzer.analyze labeled_df in
      let mappings := MitreMapper.map_all signatures in
      let lookup (s : Z) : string * float :=
        default ("Unknown"%string, 0%float) (mappings !! s) in
      Returned
        (List.map (fun r =>
           mkOutputRow (lf_flow r) (HMM_STATE r)
                       (fst (lookup (HMM_STATE r)))
                       (snd (lookup (HMM_STATE r)))) labeled_df)
  end.

End WithLibraries.

End Label.

(** ** [hmm/cli/train.py] *)

Module Train.

(** [str.replace(old, new)] for a non-empty [old]: every occurrence of
    [old] is replaced, left to right and without overlap.  [skip] counts
    the characters of a replaced occurrence that are still to be passed
    over. *)
Fixpoint replace_from (old new : string) (skip : nat) (s : string) : string :=
  match s with
  | EmptyString => EmptyString
  | String c rest =>
      match skip with
      | S k => replace_from old new k rest
      | O =>
          if String.prefix old s
          then new +:+ replace_from old new (String.length old - 1) rest
          else String c (replace_from old new 0 rest)
      end
  end.

Definition str_replace (s old new : string) : string :=
  replace_from old new 0 s.

(** [DataFrame.head(n)]: the first [n] rows, and for a negative [n] all
    rows but the last [-n]. *)
Definition head {A : Type} (rows : list A) (n : Z) : list A :=
  if (0 <=? n)%Z then firstn (Z.to_nat n) rows
  else firstn (length rows - Z.to_nat (- n)) rows.

(** [sum(lengths)] *)
Definition pysum (values : list Z) : Z := fold_left Z.add values 0%Z.

(** The summary dictionary [train_model] returns. *)
Record Summary : Type := mkSummary {
  n_states : Z;
  n_sessions : Z;
  n_flows : Z;
  log_likelihood : float
}.

Section WithLibraries.
Context {nl : NumLib} {sk : SkLearn} {hl : HmmLearn}.

(** What [joblib.dump] has stored under a path: the dictionary written by
    [AttackPhaseHMM.save] or a [FlowFeatureExtractor]. *)
Inductive pyobj : Type :=
| PyDict (data : gmap string HMM.pyval)
| PyExtractor (extractor : Extractor.FlowFeatureExtractor).

Abbreviation files := (gmap string pyobj).

(** The body of [for session in sessions], up to [extractor.transform]. *)
Definition session_features (extractor : Extractor.FlowFeatureExtractor)
    (max_session_size : Z) (session : SessionBuilderPy.Session) : outcome matrix :=
  let rows := SessionBuilderPy.session_rows session in
  let rows :=
    if (max_session_size <? Z.of_nat (length rows))%Z
    then head rows max_session_size
    else rows in
  Extractor.transform extractor rows false.

Fixpoint extract_sessions (extractor : Extractor.FlowFeatureExtractor)
    (max_session_size : Z) (sessions : list SessionBuilderPy.Session)
    (all_features : list matrix) (lengths : list Z)
    : outcome (list matrix * list Z) :=
  match sessions with
  | [] => Returned (all_features, lengths)
  | session :: rest =>
      do features <- session_features extractor max_session_size session;
      extract_sessions extractor max_session_size rest
                       (all_features ++ [features])
                       (lengths ++ [Z.of_nat (length features)])
  end.

(** [train_model] once the flow table is loaded.  It returns its outcome
    and the files after the call. *)
Definition train_model (flows : list Flow) (output_path : string)
    (n_states : Z) (select_k : bool) (min_states max_states : Z)
    (max_session_size : Z) (fs : files) : outcome Summary * files :=
  let builder := SessionBuilderPy.__init__ None None in
  let sessions := SessionBuilderPy.build_sessions builder flows in
  match sessions with
  | [] => (Raised (ValueError "No valid sessions found in data"), fs)
  | _ =>
      let extractor := Extractor.__init__ in
      match extract_sessions extractor max_session_size sessions [] [] with
      | Raised e => (Raised e, fs)
      | Returned (all_features, lengths) =>
          let X := concat all_features in
          match (do p <- scaler_fit X;
                 do X_normalized <- Extractor.scaler_transform (Some p) X;
                 Returned (p, X_normalized)) with
          | Raised e => (Raised e, fs)
          | Returned (p, X_normalized) =>
              let extractor :=
                {| Extractor.scaler := Some p; Extractor._is_fitted := true |} in
              match (if select_k
                     then HMM.select_n_states X_normalized lengths
                                              min_states max_states
                                              50 Config.RANDOM_STATE
                     else Returned n_states) with
              | Raised e => (Raised e, fs)
              | Returned n_states =>
                  let model := HMM.__init__ n_states Config.N_ITER None in
                  let (fitted, model) := HMM.fit model X_normalized lengths in
                  match fitted with
                  | Raised e => (Raised e, fs)
                  | Returned _ =>
                      let fs := (PyDict <$> HMM.save model output_path ∅) ∪ fs in
                      let extractor_path :=
                        str_replace output_path ".pkl" "_extractor.pkl" in
                      let fs := <[extractor_path := PyExtractor extractor]> fs in
                      match fst (HMM.score model X_normalized lengths) with
                      | Raised e => (Raised e, fs)
                      | Returned log_likelihood =>
                          (Returned
                             {| n_states := n_states;
                                n_sessions := Z.of_nat (length sessions);
                                n_flows := pysum lengths;
                                log_likelihood := log_likelihood |},
                           fs)
                      end
                  end
              end
          end
      end
  end.

End WithLibraries.

End Train.

(** ** [hmm/cli/evaluate.py] *)

Module Evaluate.

(** An entry of [tactic_mappings]: the dictionary with the keys
    ['tactic'] and ['confidence']. *)
Record TacticEntry : Type := mkTacticEntry {
  tactic : string;
  confidence : float
}.

(** The values of the metrics dictionary. *)
Inductive metric : Type :=
| MStr (s : string)
| MInt (z : Z)
| MFloat (x : float)
| MCounts (counts : gmap Z Z)
| MTactics (entries : gmap Z TacticEntry)
| MMatrix (m : matrix).

(** [Series.value_counts().to_dict()]: the number of occurrences of each
    value of the column. *)
Definition value_counts (values : list Z) : gmap Z Z :=
  fold_left (fun counts v => <[v := (default 0 (counts !! v) + 1)%Z]> counts)
            values ∅.

Section WithLibraries.
Context {nl : NumLib} {hl : HmmLearn}.

(** The body of [for session in sessions]: the features and the labeled
    copy of one session. *)
Definition evaluate_session (model : HMM.AttackPhaseHMM)
    (extractor : Extractor.FlowFeatureExtractor)
    (session : SessionBuilderPy.Session)
    : outcome (matrix * list LabeledFlow) :=
  let rows := SessionBuilderPy.session_rows session in
  do features <- Extractor.transform extractor rows (Extractor._is_fitted extractor);
  do states <- fst (HMM.predict_states model features [Z.of_nat (length features)]);
  if Nat.eqb (length states) (length rows)
  then Returned (features, zip_with mkLabeledFlow rows states)
  else Raised (ValueError "Length of values does not match length of index").

Fixpoint evaluate_sessions (model : HMM.AttackPhaseHMM)
    (extractor : Extractor.FlowFeatureExtractor)
    (sessions : list SessionBuilderPy.Session)
    (all_features : list matrix) (lengths : list Z)
    (all_labeled : list (list LabeledFlow))
    : outcome (list matrix * list Z * list (list LabeledFlow)) :=
  match sessions with
  | [] => Returned (all_features, lengths, all_labeled)
  | session :: rest =>
      do r <- evaluate_session model extractor session;
      evaluate_sessions model extractor rest
                        (all_features ++ [fst r])
                        (lengths ++ [Z.of_nat (length (fst r))])
                        (all_labeled ++ [snd r])
  end.

(** [evaluate_model] once the model, the extractor and the flow table are
    loaded. *)
Definition evaluate_model (model : HMM.AttackPhaseHMM)
    (extractor : Extractor.FlowFeatureExtractor) (flows : list Flow)
    : outcome (gmap string metric) :=
  let builder := SessionBuilderPy.__init__ None None in
  let sessions := SessionBuilderPy.build_sessions builder flows in
  match sessions with
  | [] =>
      Returned
        (<["error" := MStr "No valid sessions found"]>
           (<["n_flows" := MInt (Z.of_nat (length flows))]>
              (<["n_sessions" := MInt 0]> ∅)))
  | _ =>
      do r <- evaluate_sessions model extractor sessions [] [] [];
      let '(all_features, lengths, all_labeled) := r in
      let X := concat all_features in
      let labeled_df := concat all_labeled in
      let state_counts := value_counts (List.map HMM_STATE labeled_df) in
      let state_distribution := state_counts in
      let signatures := Analyzer.analyze labeled_df in
      let mappings := MitreMapper.map_all signatures in
      let tactic_mappings :=
        (fun m : string * float => mkTacticEntry (fst m) (snd m)) <$> mappings in
      do transition_matrix <- fst (HMM.get_transition_matrix model);
      do log_likelihood <- fst (HMM.score model X lengths);
      Returned
        (<["n_states" := MInt (HMM.n_states model)]>
           (<["n_sessions" := MInt (Z.of_nat (length sessions))]>
              (<["n_flows" := MInt (Train.pysum lengths)]>
                 (<["log_likelihood" := MFloat log_likelihood]>
                    (<["state_distribution" := MCounts state_distribution]>
                       (<["tactic_mappings" := MTactics tactic_mappings]>
                          (<["transition_matrix" := MMatrix transition_matrix]>
                             ∅)))))))
  end.

End WithLibraries.

End Evaluate.

(** ** Sample libraries *)

(** Two instances of the library interfaces, used to run the embedding
    on concrete inputs.  Every theorem below holds for all instances. *)

(** The mean is the left-to-right sum over the count; the logarithms
    are stand-ins (no statement depends on their values). *)
Definition sample_numlib : NumLib :=
  {| log1p := fun x => x;
     np_log := fun x => x;
     series_mean := fun l =>
       PrimFloat.div (fold_left PrimFloat.add l 0%float)
                     (float_of_Z (Z.of_nat (length l))) |}.

(** An estimator whose [fit] fails for every number of components. *)
Definition diverging_hmmlearn : HmmLearn :=
  {| GaussianHMM := unit;
     hmm_new := fun _ _ _ => tt;
     hmm_fit := fun g _ _ => (Raised (ValueError "fit did not converge"), g);
     hmm_predict := fun _ _ _ => Raised (NotFittedError "not fitted");
     hmm_score := fun _ _ _ => Raised (NotFittedError "not fitted");
     transmat_ := fun _ => Raised (NotFittedError "not fitted");
     means_ := fun _ => Raised (NotFittedError "not fitted");
     covars_ := fun _ => Raised (NotFittedError "not fitted") |}.

(** An estimator whose [fit] fails for five components and whose
    log-likelihood is [-(K - 6)^2] otherwise. *)
Definition peaked_hmmlearn : HmmLearn :=
  {| GaussianHMM := Z;
     hmm_new := fun n _ _ => n;
     hmm_fit := fun g _ _ =>
       if (g =? 5)%Z then (Raised (ValueError "fit did not converge"), g)
       else (Returned tt, g);
     hmm_predict := fun _ X _ => Returned (List.map (fun _ => 0%Z) X);
     hmm_score := fun g _ _ => Returned (float_of_Z (- ((g - 6) * (g - 6))));
     transmat_ := fun _ => Returned [];
     means_ := fun _ => Returned [];
     covars_ := fun _ => Returned [] |}.

(** An estimator that fits at once and decodes every observation to
    state 0. *)
Definition constant_hmmlearn : HmmLearn :=
  {| GaussianHMM := Z;
     hmm_new := fun n _ _ => n;
     hmm_fit := fun g _ _ => (Returned tt, g);
     hmm_predict := fun _ X _ => Returned (List.map (fun _ => 0%Z) X);
     hmm_score := fun _ _ _ => Returned 0%float;
     transmat_ := fun _ => Returned [];
     means_ := fun _ => Returned [];
     covars_ := fun _ => Returned [] |}.

(** * Specifications and proofs *)

(** ** Session segmentation *)

Module SessionSpec.
Import Pandas SessionBuilderPy.

Definition gap_between (a b : Flow) : Z :=
  (FLOW_START_MILLISECONDS b - FLOW_START_MILLISECONDS a)%Z.

(** The gap as [build_sessions] computes it: an [int64] difference. *)
Definition int64_gap (a b : Flow) : Z := int64 (gap_between a b).

(** Every consecutive pair of the run is at most [thr] apart. *)
Fixpoint within_gap (thr : Z) (run : list Flow) : Prop :=
  match run with
  | a :: (b :: _) as rest => (gap_between a b <= thr)%Z /\ within_gap thr rest
  | _ => True
  end.

Definition time_le (a b : Flow) : Prop :=
  (FLOW_START_MILLISECONDS a <= FLOW_START_MILLISECONDS b)%Z.

(** A start time whose distance to any other such start time fits in 64
    bits. *)
Definition plausible (f : Flow) : Prop :=
  (- 2 ^ 62 <= FLOW_START_MILLISECONDS f < 2 ^ 62)%Z.

(** The slices cut out of [l] by the loop of [build_sessions], before
    the minimum-length test. *)
Fixpoint slices {A : Type} (l : list A) (indices : list nat) (start : nat)
    : list (list A) :=
  match indices with
  | [] => [iloc_from l start]
  | i :: indices' => iloc l start i :: slices l indices' i
  end.

(** The same slices by a walk over the flows: a new run starts where
    the computed gap to the next flow exceeds [thr]. *)
Fixpoint split_on_gaps (thr : Z) (l : list Flow) : list (list Flow) :=
  match l with
  | [] => [[]]
  | a :: l' =>
      match l' with
      | [] => [[a]]
      | b :: _ =>
          if (thr <? int64_gap a b)%Z then [a] :: split_on_gaps thr l'
          else
            match split_on_gaps thr l' with
            | r :: rs => (a :: r) :: rs
            | [] => [[a]]
            end
      end
  end.

(** The sessions contributed by one [(src_ip, group)] of the [groupby]. *)
Definition sessions_of_group (self : SessionBuilder) (g : string * list Flow)
    : list Session :=
  omap (fun run => _create_session self run (fst g))
       (split_on_gaps (gap_ms self) (sorted_group (snd g))).

(** *** The segmentation as the specification words it, on start times *)

Definition session_times (s : Session) : list Z :=
  List.map FLOW_START_MILLISECONDS (session_rows s).

(** The start times in ascending order. *)
Definition sorted_times (times : list Z) : list Z :=
  sort_values Z.leb (fun t => t) times.

(** Walk the ascending start times and start a new run exactly where the
    gap to the next one is strictly greater than [thr]. *)
Fixpoint split_times (thr : Z) (times : list Z) : list (list Z) :=
  match times with
  | [] => [[]]
  | a :: times' =>
      match times' with
      | [] => [[a]]
      | b :: _ =>
          if (thr <? b - a)%Z then [a] :: split_times thr times'
          else
            match split_times thr times' with
            | r :: rs => (a :: r) :: rs
            | [] => [[a]]
            end
      end
  end.

(** No gap inside the run exceeds [thr]. *)
Fixpoint times_within (thr : Z) (run : list Z) : Prop :=
  match run with
  | a :: (b :: _) as rest => (b - a <= thr)%Z /\ times_within thr rest
  | _ => True
  end.

(** Each run ends more than [thr] before the next one starts. *)
Fixpoint times_separated (thr : Z) (runs : list (list Z)) : Prop :=
  match runs with
  | r1 :: (r2 :: _) as rest =>
      (exists a b, last r1 = Some a /\ head r2 = Some b /\ (thr < b - a)%Z)
      /\ times_separated thr rest
  | _ => True
  end.

(** The sessions of a table as the specification describes them: per
    source, the ascending start times cut at every gap above the
    threshold, short runs discarded. *)
Definition specified_times (self : SessionBuilder) (flows : list Flow)
    : list (list Z) :=
  concat
    (List.map
       (fun g =>
          List.filter
            (fun run => (min_length self <=? Z.of_nat (length run))%Z)
            (split_times (gap_ms self)
               (sorted_times (List.map FLOW_START_MILLISECONDS (snd g)))))
       (groupby String.eqb String.leb IPV4_SRC_ADDR flows)).

(** The claim without a bound on the start times: any two flows of one
    source whose gap exceeds the threshold end up in two sessions. *)
Definition splits_on_every_strict_gap : Prop :=
  forall (self : SessionBuilder) (a b : Flow),
    IPV4_SRC_ADDR a = IPV4_SRC_ADDR b ->
    (0 <= gap_ms self)%Z -> (min_length self <= 1)%Z ->
    (gap_ms self < gap_between a b)%Z ->
    List.map session_rows (build_sessions self [a; b]) = [[a]; [b]].

(** A builder with the default gap and minimum length 1, and flows of
    one source that differ in their start time only. *)
Definition boundary_builder : SessionBuilder := __init__ None (Some 1%Z).

Definition boundary_flow (t : Z) : Flow :=
  mkFlow "192.168.1.1" "10.0.0.1" 50000 80 6 100 200 1 2 t 10.

Lemma int64_small (z : Z) : (- 2 ^ 63 <= z < 2 ^ 63)%Z -> int64 z = z.
Proof.
  intros H. unfold int64. rewrite Z.mod_small by lia. lia.
Qed.

Lemma plausible_gap (a b : Flow) :
  plausible a -> plausible b -> int64_gap a b = gap_between a b.
Proof.
  unfold plausible, int64_gap, gap_between. intros Ha Hb.
  apply int64_small. lia.
Qed.

Lemma nonzero_from_S (i : nat) (mask : list bool) :
  nonzero_from (S i) mask = List.map S (nonzero_from i mask).
Proof.
  revert i; induction mask as [|b mask IH]; intros i; simpl; [reflexivity|].
  rewrite map_app, IH. destruct b; reflexivity.
Qed.

Lemma split_indices_cons2 (self : SessionBuilder) (a b : Flow) (l : list Flow) :
  split_indices self (a :: b :: l)
  = (if (gap_ms self <? int64_gap a b)%Z then [1%nat] else [])
    ++ List.map S (split_indices self (b :: l)).
Proof.
  unfold split_indices, diff, nonzero, int64_gap, gap_between. simpl.
  rewrite nonzero_from_S, !map_app, !List.map_map.
  f_equal.
  destruct (gap_ms self <? _)%Z; reflexivity.
Qed.

Lemma slices_shift {A : Type} (a : A) (l : list A) (indices : list nat) (start : nat) :
  slices (a :: l) (List.map S indices) (S start) = slices l indices start.
Proof.
  revert start; induction indices as [|i indices IH]; intros start; simpl.
  - reflexivity.
  - rewrite IH. reflexivity.
Qed.

Lemma slices_cons {A : Type} (a : A) (l : list A) (indices : list nat) :
  slices (a :: l) (List.map S indices) 0
  = match slices l indices 0 with
    | r :: rs => (a :: r) :: rs
    | [] => [[a]]
    end.
Proof.
  destruct indices as [|i indices]; simpl.
  - reflexivity.
  - rewrite slices_shift. unfold iloc. simpl. rewrite Nat.sub_0_r. reflexivity.
Qed.

Lemma split_on_gaps_cons2 (thr : Z) (a b : Flow) (l : list Flow) :
  split_on_gaps thr (a :: b :: l)
  = if (thr <? int64_gap a b)%Z
    then [a] :: split_on_gaps thr (b :: l)
    else match split_on_gaps thr (b :: l) with
         | r :: rs => (a :: r) :: rs
         | [] => [[a]]
         end.
Proof. reflexivity. Qed.

Lemma split_times_cons2 (thr a b : Z) (l : list Z) :
  split_times thr (a :: b :: l)
  = if (thr <? b - a)%Z
    then [a] :: split_times thr (b :: l)
    else match split_times thr (b :: l) with
         | r :: rs => (a :: r) :: rs
         | [] => [[a]]
         end.
Proof. reflexivity. Qed.

Lemma slices_split_on_gaps (self : SessionBuilder) (group : list Flow) :
  slices group (split_indices self group) 0 = split_on_gaps (gap_ms self) group.
Proof.
  induction group as [|a l IH]; [reflexivity|].
  destruct l as [|b l]; [reflexivity|].
  rewrite split_indices_cons2, split_on_gaps_cons2.
  destruct (gap_ms self <? int64_gap a b)%Z.
  - change ([1%nat] ++ List.map S (split_indices self (b :: l)))
      with (List.map S (0%nat :: split_indices self (b :: l))).
    rewrite slices_cons. simpl slices at 1.
    unfold iloc at 1. simpl firstn. rewrite <- IH.
    destruct (split_indices self (b :: l)); reflexivity.
  - simpl app. rewrite slices_cons, IH. reflexivity.
Qed.

Lemma split_loop_slices (self : SessionBuilder) (group : list Flow) (ip : string)
    (indices : list nat) (start : nat) (sessions : list Session) :
  split_loop self group ip indices start sessions
  = sessions ++ omap (fun run => _create_session self run ip)
                     (slices group indices start).
Proof.
  revert start sessions; induction indices as [|i indices IH];
    intros start sessions; simpl.
  - destruct (_create_session _ _ _); simpl; [reflexivity|].
    symmetry; apply app_nil_r.
  - rewrite IH. destruct (_create_session _ _ _); simpl; [|reflexivity].
    rewrite <- app_assoc. reflexivity.
Qed.

Lemma group_sessions_spec (self : SessionBuilder) (sessions : list Session)
    (g : string * list Flow) :
  group_sessions self sessions g = sessions ++ sessions_of_group self g.
Proof.
  unfold group_sessions, sessions_of_group.
  rewrite split_loop_slices, slices_split_on_gaps. reflexivity.
Qed.

Lemma fold_group_sessions (self : SessionBuilder) (gs : list (string * list Flow))
    (sessions : list Session) :
  fold_left (group_sessions self) gs sessions
  = sessions ++ concat (List.map (sessions_of_group self) gs).
Proof.
  revert sessions; induction gs as [|g gs IH]; intros sessions; simpl.
  - symmetry; apply app_nil_r.
  - rewrite IH, group_sessions_spec, <- app_assoc. reflexivity.
Qed.

Lemma build_sessions_spec (self : SessionBuilder) (flows : list Flow) :
  build_sessions self flows
  = concat (List.map (sessions_of_group self)
                     (groupby String.eqb String.leb IPV4_SRC_ADDR flows)).
Proof.
  destruct flows as [|f flows]; [reflexivity|].
  unfold build_sessions. apply fold_group_sessions.
Qed.

(** The runs of [split_on_gaps]: their shape, and that they partition
    the list into non-empty pieces. *)
Lemma split_on_gaps_shape (thr : Z) (a : Flow) (l : list Flow) :
  exists r rs, split_on_gaps thr (a :: l) = (a :: r) :: rs.
Proof.
  revert a; induction l as [|b l IH]; intros a.
  - exists [], []; reflexivity.
  - destruct (IH b) as (r & rs & E).
    rewrite split_on_gaps_cons2.
    destruct (thr <? int64_gap a b)%Z.
    + exists [], (split_on_gaps thr (b :: l)); reflexivity.
    + rewrite E. exists (b :: r), rs; reflexivity.
Qed.

Lemma split_on_gaps_props (thr : Z) (l : list Flow) :
  concat (split_on_gaps thr l) = l
  /\ (l <> [] -> Forall (fun run => run <> []) (split_on_gaps thr l)).
Proof.
  induction l as [|a l IH].
  - simpl. split; [reflexivity | congruence].
  - destruct l as [|b l].
    + simpl. split; [reflexivity|]. intros _. repeat constructor. congruence.
    + destruct IH as (Hcat & Hne).
      destruct (split_on_gaps_shape thr b l) as (r & rs & E).
      rewrite split_on_gaps_cons2.
      destruct (thr <? int64_gap a b)%Z.
      * split; [rewrite concat_cons, Hcat; reflexivity|].
        intros _; constructor; [congruence | apply Hne; congruence].
      * rewrite E in Hcat, Hne |- *.
        split; [simpl in Hcat |- *; rewrite Hcat; reflexivity|].
        intros _. specialize (Hne ltac:(congruence)).
        inversion Hne; subst. constructor; [congruence | assumption].
Qed.

(** For plausible start times the computed gap is the gap, so no run
    holds a gap above the threshold. *)
Lemma split_on_gaps_within (thr : Z) (l : list Flow) :
  Forall plausible l -> Forall (within_gap thr) (split_on_gaps thr l).
Proof.
  induction l as [|a l IH]; intros Hl.
  - repeat constructor.
  - destruct l as [|b l]; [repeat constructor|].
    apply Forall_cons in Hl as [Ha Hl]. specialize (IH Hl).
    pose proof Hl as Hb. apply Forall_cons in Hb as [Hb _].
    destruct (split_on_gaps_shape thr b l) as (r & rs & E).
    rewrite split_on_gaps_cons2, (plausible_gap a b Ha Hb).
    destruct (thr <? gap_between a b)%Z eqn:Hgap.
    + constructor; [exact I | exact IH].
    + apply Z.ltb_ge in Hgap. rewrite E in IH |- *.
      inversion IH; subst. constructor; [|assumption].
      split; assumption.
Qed.

(** On plausible start times the walk over the flows is the specified
    walk over their start times. *)
Lemma split_on_gaps_times (thr : Z) (l : list Flow) :
  Forall plausible l ->
  List.map (List.map FLOW_START_MILLISECONDS) (split_on_gaps thr l)
  = split_times thr (List.map FLOW_START_MILLISECONDS l).
Proof.
  induction l as [|a l IH]; intros Hl; [reflexivity|].
  destruct l as [|b l]; [reflexivity|].
  apply Forall_cons in Hl as [Ha Hl]. specialize (IH Hl).
  pose proof Hl as Hb. apply Forall_cons in Hb as [Hb _].
  cbn [List.map] in IH |- *.
  rewrite split_on_gaps_cons2, split_times_cons2, (plausible_gap a b Ha Hb).
  unfold gap_between at 1.
  destruct (thr <? FLOW_START_MILLISECONDS b - FLOW_START_MILLISECONDS a)%Z.
  - cbn [List.map]. rewrite IH. reflexivity.
  - rewrite <- IH.
    destruct (split_on_gaps thr (b :: l)) as [|r rs]; reflexivity.
Qed.

Lemma split_times_shape (thr a : Z) (l : list Z) :
  exists r rs, split_times thr (a :: l) = (a :: r) :: rs.
Proof.
  revert a; induction l as [|b l IH]; intros a.
  - exists [], []; reflexivity.
  - destruct (IH b) as (r & rs & E).
    rewrite split_times_cons2.
    destruct (thr <? b - a)%Z.
    + exists [], (split_times thr (b :: l)); reflexivity.
    + rewrite E. exists (b :: r), rs; reflexivity.
Qed.

(** The four properties that pin the specified segmentation down. *)
Lemma split_times_props (thr : Z) (l : list Z) :
  concat (split_times thr l) = l
  /\ (l <> [] -> Forall (fun run => run <> []) (split_times thr l))
  /\ Forall (times_within thr) (split_times thr l)
  /\ times_separated thr (split_times thr l).
Proof.
  induction l as [|a l IH].
  - simpl. repeat split; [congruence | repeat constructor].
  - destruct l as [|b l].
    + simpl. repeat split; [intros _ | ]; repeat constructor; congruence.
    + destruct IH as (Hcat & Hne & Hin & Hsep).
      destruct (split_times_shape thr b l) as (r & rs & E).
      rewrite split_times_cons2.
      destruct (thr <? b - a)%Z eqn:Hgap.
      * apply Z.ltb_lt in Hgap.
        split; [rewrite concat_cons, Hcat; reflexivity|].
        split; [intros _; constructor; [congruence | apply Hne; congruence]|].
        split; [constructor; [exact I | exact Hin]|].
        rewrite E in Hsep |- *. split; [|exact Hsep].
        exists a, b. repeat split; assumption.
      * apply Z.ltb_ge in Hgap.
        rewrite E in Hcat, Hne, Hin, Hsep |- *.
        split; [simpl in Hcat |- *; rewrite Hcat; reflexivity|].
        split.
        { intros _. specialize (Hne ltac:(congruence)).
          inversion Hne; subst. constructor; [congruence | assumption]. }
        split.
        { inversion Hin; subst. constructor; [|assumption].
          split; assumption. }
        destruct rs as [|r2 rs]; [exact I|].
        destruct Hsep as [(x & y & Hx & Hy & Hxy) Hrest].
        split; [|exact Hrest].
        exists x, y. repeat split; assumption.
Qed.

Lemma insert_sorted_perm (x : Flow) (l : list Flow) :
  Permutation (insert_sorted Z.leb FLOW_START_MILLISECONDS x l) (x :: l).
Proof.
  induction l as [|y l IH]; simpl; [reflexivity|].
  destruct (Z.leb _ _); [reflexivity|].
  rewrite IH. apply perm_swap.
Qed.

Lemma sorted_group_perm (group : list Flow) :
  Permutation (sorted_group group) group.
Proof.
  induction group as [|x l IH]; simpl; [reflexivity|].
  unfold sorted_group in *. simpl. rewrite insert_sorted_perm, IH. reflexivity.
Qed.

Lemma insert_sorted_hd (x y : Flow) (l : list Flow) :
  time_le y x -> HdRel time_le y l ->
  HdRel time_le y (insert_sorted Z.leb FLOW_START_MILLISECONDS x l).
Proof.
  intros Hyx Hl. destruct l as [|z l]; simpl.
  - constructor; exact Hyx.
  - destruct (Z.leb _ _); constructor; [exact Hyx|].
    inversion Hl; assumption.
Qed.

Lemma insert_sorted_sorted (x : Flow) (l : list Flow) :
  Sorted time_le l ->
  Sorted time_le (insert_sorted Z.leb FLOW_START_MILLISECONDS x l).
Proof.
  induction 1 as [|y l Hl IH Hhd]; simpl.
  - repeat constructor.
  - destruct (Z.leb _ _) eqn:Hle.
    + apply Z.leb_le in Hle. repeat constructor; assumption.
    + apply Z.leb_gt in Hle. constructor; [exact IH|].
      apply insert_sorted_hd; [unfold time_le; lia | exact Hhd].
Qed.

Lemma sorted_group_sorted (group : list Flow) :
  Sorted time_le (sorted_group group).
Proof.
  induction group as [|x l IH]; [constructor|].
  unfold sorted_group in *. simpl. apply insert_sorted_sorted, IH.
Qed.

(** The start times of the sorted group are the sorted start times. *)
Lemma insert_sorted_times (x : Flow) (l : list Flow) :
  List.map FLOW_START_MILLISECONDS
           (insert_sorted Z.leb FLOW_START_MILLISECONDS x l)
  = insert_sorted Z.leb (fun t => t) (FLOW_START_MILLISECONDS x)
                  (List.map FLOW_START_MILLISECONDS l).
Proof.
  induction l as [|y l IH]; [reflexivity|].
  cbn [insert_sorted List.map].
  destruct (Z.leb _ _); [reflexivity|].
  cbn [List.map]. rewrite IH. reflexivity.
Qed.

Lemma sorted_group_times (group : list Flow) :
  List.map FLOW_START_MILLISECONDS (sorted_group group)
  = sorted_times (List.map FLOW_START_MILLISECONDS group).
Proof.
  unfold sorted_group, sorted_times.
  induction group as [|x l IH]; [reflexivity|].
  cbn [sort_values List.map]. rewrite insert_sorted_times, IH. reflexivity.
Qed.

Lemma sorted_times_perm (times : list Z) : Permutation (sorted_times times) times.
Proof.
  unfold sorted_times. induction times as [|t l IH]; [reflexivity|].
  cbn [sort_values]. rewrite <- IH at 2. clear IH.
  induction (sort_values Z.leb (fun t => t) l) as [|y l' IH];
    cbn [insert_sorted]; [reflexivity|].
  destruct (Z.leb _ _); [reflexivity|].
  rewrite IH. apply perm_swap.
Qed.

Lemma sorted_times_sorted (times : list Z) : Sorted Z.le (sorted_times times).
Proof.
  unfold sorted_times. induction times as [|t l IH]; [constructor|].
  cbn [sort_values].
  induction IH as [|y l' Hl IH' Hhd]; cbn [insert_sorted].
  - repeat constructor.
  - destruct (Z.leb_spec t y) as [Hle|Hgt].
    + repeat constructor; assumption.
    + constructor; [exact IH'|].
      destruct l' as [|z l'']; cbn [insert_sorted].
      * constructor. lia.
      * inversion Hhd; subst.
        destruct (Z.leb t z); constructor; lia.
Qed.

(** What [_create_session] keeps: the runs of at least [min_length]
    flows, their rows untouched. *)
Lemma create_session_rows (self : SessionBuilder) (ip : string)
    (runs : list (list Flow)) :
  List.map session_rows (omap (fun run => _create_session self run ip) runs)
  = List.filter (fun run => (min_length self <=? Z.of_nat (length run))%Z) runs.
Proof.
  induction runs as [|run runs IH]; [reflexivity|].
  simpl. unfold _create_session at 1.
  rewrite (Z.leb_antisym (Z.of_nat (length run)) (min_length self)).
  destruct (Z.of_nat (length run) <? min_length self)%Z; simpl;
    [exact IH | f_equal; exact IH].
Qed.

Lemma groupby_pair (a b : Flow) :
  IPV4_SRC_ADDR a = IPV4_SRC_ADDR b ->
  groupby String.eqb String.leb IPV4_SRC_ADDR [a; b]
  = [(IPV4_SRC_ADDR a, [a; b])].
Proof.
  intros E. unfold groupby. simpl. rewrite <- E.
  rewrite !String.eqb_refl. simpl. rewrite !String.eqb_refl. reflexivity.
Qed.

Lemma build_sessions_rows (self : SessionBuilder) (flows : list Flow) :
  List.map session_rows (build_sessions self flows)
  = concat
      (List.map
         (fun g =>
            List.filter
              (fun run => (min_length self <=? Z.of_nat (length run))%Z)
              (split_on_gaps (gap_ms self) (sorted_group (snd g))))
         (groupby String.eqb String.leb IPV4_SRC_ADDR flows)).
Proof.
  rewrite build_sessions_spec, concat_map, List.map_map.
  f_equal. apply map_ext. intros g. apply create_session_rows.
Qed.

Lemma filter_length_map {A B : Type} (f : A -> B) (keep : nat -> bool)
    (runs : list (list A)) :
  List.map (List.map f) (List.filter (fun run => keep (length run)) runs)
  = List.filter (fun run => keep (length run)) (List.map (List.map f) runs).
Proof.
  induction runs as [|run runs IH]; [reflexivity|].
  cbn [List.filter List.map]. rewrite length_map.
  destruct (keep (length run)); cbn [List.map]; rewrite IH; reflexivity.
Qed.

Lemma build_sessions_times (self : SessionBuilder) (flows : list Flow) :
  Forall plausible flows ->
  List.map session_times (build_sessions self flows)
  = specified_times self flows.
Proof.
  intros Hflows. unfold specified_times.
  change (List.map session_times (build_sessions self flows))
    with (List.map (fun s => List.map FLOW_START_MILLISECONDS (session_rows s))
                   (build_sessions self flows)).
  rewrite <- (List.map_map session_rows (List.map FLOW_START_MILLISECONDS)).
  rewrite build_sessions_rows, concat_map, List.map_map.
  f_equal. apply map_ext_in. intros g Hg.
  rewrite (filter_length_map FLOW_START_MILLISECONDS
             (fun n => (min_length self <=? Z.of_nat n)%Z)).
  f_equal. rewrite split_on_gaps_times, sorted_group_times; [reflexivity|].
  apply Forall_forall. intros r Hr. apply list_elem_of_In in Hr.
  apply (Permutation_in _ (sorted_group_perm (snd g))) in Hr.
  unfold groupby in Hg. apply in_map_iff in Hg as (k & <- & _).
  cbn [snd] in Hr. apply filter_In in Hr as [Hr _].
  rewrite Forall_forall in Hflows. apply Hflows, list_elem_of_In, Hr.
Qed.

Lemma sorted_pair (a b : Flow) :
  (0 <= gap_between a b)%Z -> sorted_group [a; b] = [a; b].
Proof.
  intros H. unfold sorted_group, gap_between in *. simpl.
  destruct (Z.leb_spec (FLOW_START_MILLISECONDS a) (FLOW_START_MILLISECONDS b));
    [reflexivity | lia].
Qed.

(** C3 as stated fails for start times more than [2^63] milliseconds
    apart: the computed gap wraps around to a negative number, and the
    two flows stay in one session. *)
Lemma wrapped_gap_keeps_one_session : ~ splits_on_every_strict_gap.
Proof.
  intros H.
  specialize (H boundary_builder
                (boundary_flow (-5000000000000000000))
                (boundary_flow 5000000000000000000) eq_refl).
  assert (Hone :
    List.map session_rows
      (build_sessions boundary_builder
         [boundary_flow (-5000000000000000000);
          boundary_flow 5000000000000000000])
    = [[boundary_flow (-5000000000000000000);
        boundary_flow 5000000000000000000]])
    by (vm_compute; reflexivity).
  rewrite Hone in H.
  assert (Hsplit :
    [[boundary_flow (-5000000000000000000); boundary_flow 5000000000000000000]]
    = [[boundary_flow (-5000000000000000000)];
       [boundary_flow 5000000000000000000]]).
  { apply H; vm_compute; first [discriminate | reflexivity]. }
  apply (f_equal (@length (list Flow))) in Hsplit. discriminate Hsplit.
Qed.

(** C3, amended.  For start times between [-2^62] and [2^62],
    [build_sessions] cuts the ascending start times of one source between
    two consecutive flows exactly when their gap is strictly greater than
    [gap_ms]: the start times of the sessions are the specified runs of
    at least [min_length] flows; the runs concatenate back to the sorted
    start times, no gap inside a run exceeds [gap_ms] and every gap
    between two runs does.  Two flows exactly [gap_ms] apart share a
    session; one millisecond more and they are two sessions. *)
Theorem build_sessions_splits_on_strict_gap (self : SessionBuilder)
    (flows : list Flow) :
  Forall plausible flows ->
  List.map session_times (build_sessions self flows)
  = specified_times self flows
  /\ Forall
       (fun g => snd g
                 = List.filter (fun r => String.eqb (IPV4_SRC_ADDR r) (fst g)) flows)
       (groupby String.eqb String.leb IPV4_SRC_ADDR flows)
  /\ (forall times : list Z,
        let runs := split_times (gap_ms self) (sorted_times times) in
        Permutation (sorted_times times) times
        /\ Sorted Z.le (sorted_times times)
        /\ concat runs = sorted_times times
        /\ (times <> [] -> Forall (fun run => run <> []) runs)
        /\ Forall (times_within (gap_ms self)) runs
        /\ times_separated (gap_ms self) runs)
  /\ (forall a b : Flow,
        IPV4_SRC_ADDR a = IPV4_SRC_ADDR b ->
        plausible a -> plausible b ->
        (0 <= gap_ms self)%Z -> (min_length self <= 1)%Z ->
        (gap_between a b = gap_ms self ->
         exists rows,
           List.map session_rows (build_sessions self [a; b]) = [rows]
           /\ Permutation rows [a; b])
        /\ (gap_between a b = (gap_ms self + 1)%Z ->
            List.map session_rows (build_sessions self [a; b]) = [[a]; [b]])).
Proof.
  intros Hflows.
  split; [apply build_sessions_times, Hflows|].
  split.
  { unfold groupby. rewrite Forall_map. apply Forall_forall.
    intros k _. reflexivity. }
  split.
  { intros times runs.
    destruct (split_times_props (gap_ms self) (sorted_times times))
      as (Hcat & Hne & Hin & Hsep).
    repeat split; try assumption.
    - apply sorted_times_perm.
    - apply sorted_times_sorted.
    - intros Htimes. apply Hne. intros E.
      pose proof (sorted_times_perm times) as Hp. rewrite E in Hp.
      apply Permutation_nil in Hp. contradiction. }
  intros a b Hsrc Ha Hb Hthr Hmin.
  assert (Hlen1 : (min_length self <=? Z.of_nat 1)%Z = true)
    by (apply Z.leb_le; lia).
  assert (Hlen2 : (min_length self <=? Z.of_nat 2)%Z = true)
    by (apply Z.leb_le; lia).
  split; intros Hgap; rewrite build_sessions_rows, groupby_pair by assumption;
    cbn [List.map concat snd]; rewrite sorted_pair by lia;
    rewrite split_on_gaps_cons2, (plausible_gap a b Ha Hb), Hgap.
  - rewrite Z.ltb_irrefl. cbn [split_on_gaps List.filter length].
    rewrite Hlen2. exists [a; b]. split; reflexivity.
  - replace (gap_ms self <? gap_ms self + 1)%Z with true
      by (symmetry; apply Z.ltb_lt; lia).
    cbn [split_on_gaps List.filter length]. rewrite Hlen1. reflexivity.
Qed.

(** The boundary scenario at the default threshold of thirty minutes. *)
Lemma session_boundary_witness :
  List.map session_times
    (build_sessions boundary_builder [boundary_flow 0; boundary_flow 1800000])
  = specified_times boundary_builder [boundary_flow 0; boundary_flow 1800000]
  /\ (exists rows,
        List.map session_rows
          (build_sessions boundary_builder
             [boundary_flow 0; boundary_flow 1800000])
        = [rows]
        /\ Permutation rows [boundary_flow 0; boundary_flow 1800000])
  /\ List.map session_rows
       (build_sessions boundary_builder [boundary_flow 0; boundary_flow 1800001])
     = [[boundary_flow 0]; [boundary_flow 1800001]].
Proof.
  assert (Hplausible : forall t : Z,
            (- 2 ^ 62 <= t < 2 ^ 62)%Z -> plausible (boundary_flow t))
    by (intros t Ht; exact Ht).
  destruct (build_sessions_splits_on_strict_gap boundary_builder
              [boundary_flow 0; boundary_flow 1800000])
    as (Htimes & _ & _ & Hpair).
  { apply List.Forall_cons; [apply Hplausible; lia|].
    apply List.Forall_cons; [apply Hplausible; lia|].
    apply List.Forall_nil. }
  split; [exact Htimes|]. split.
  - apply (Hpair (boundary_flow 0) (boundary_flow 1800000));
      [reflexivity | apply Hplausible; lia | apply Hplausible; lia
      | vm_compute; discriminate | vm_compute; discriminate | reflexivity].
  - apply (Hpair (boundary_flow 0) (boundary_flow 1800001));
      [reflexivity | apply Hplausible; lia | apply Hplausible; lia
      | vm_compute; discriminate | vm_compute; discriminate | reflexivity].
Defined.

End SessionSpec.

(** ** Feature extraction and normalization *)

Module ExtractorSpec.
Import Extractor.

Definition port_category_of (p : Z) : float :=
  if (p <? 1024)%Z then 0%float
  else if (p <=? 49151)%Z then 1%float else 2%float.

(** A normalizer as [StandardScaler.fit] leaves it on a corpus in which
    half of the flows are TCP and half UDP (population mean and standard
    deviation of those two indicator columns are both one half); the
    other columns are centred at zero with unit scale. *)
Definition half_tcp_params : ScalerParams :=
  {| mean_ := [0; 0; 0; 0; 0; 0; 0; 0; 0.5; 0.5; 0; 0]%float;
     scale_ := [1; 1; 1; 1; 1; 1; 1; 1; 0.5; 0.5; 1; 1]%float |}.

Definition fitted_extractor : FlowFeatureExtractor :=
  {| scaler := Some half_tcp_params; _is_fitted := true |}.

Definition udp_flow : Flow :=
  mkFlow "10.0.0.1" "10.0.0.2" 40000 53 17 100 200 1 2 1000 10.

(** The normalization contract as the specification words it: with a
    fitted normalizer the eight continuous features are standardized and
    the protocol indicators and the port category come out as extracted;
    without one the raw features are returned. *)
Definition normalizes_continuous_only {nl : NumLib}
    (self : FlowFeatureExtractor) (flows : list Flow) : Prop :=
  (_is_fitted self = true ->
   exists p out,
     scaler self = Some p
     /\ transform self flows true = Returned out
     /\ forall i raw_row out_row,
          _extract_features flows !! i = Some raw_row ->
          out !! i = Some out_row ->
          forall j : nat,
            ((j < 8)%nat ->
             forall x m s,
               raw_row !! j = Some x -> mean_ p !! j = Some m ->
               scale_ p !! j = Some s ->
               out_row !! j = Some (PrimFloat.div (PrimFloat.sub x m) s))
            /\ ((8 <= j < 12)%nat -> out_row !! j = raw_row !! j))
  /\ (_is_fitted self = false ->
      transform self flows true = Returned (_extract_features flows)).

Lemma lookup_map {A B : Type} (f : A -> B) (l : list A) (i : nat) :
  List.map f l !! i = f <$> (l !! i).
Proof.
  revert i; induction l as [|x l IH]; intros [|i]; simpl; auto.
Qed.

Lemma port_category_map (ports : list Z) :
  _port_category ports = List.map port_category_of ports.
Proof.
  unfold _port_category, mask_assign.
  induction ports as [|p ports IH]; [reflexivity|].
  cbn [length repeat List.map zip_with]. rewrite IH. f_equal.
  unfold port_category_of.
  destruct (Z.ltb_spec p 1024), (Z.leb_spec 1024 p), (Z.leb_spec p 49151),
    (Z.leb_spec 49152 p); simpl; try reflexivity; lia.
Qed.

Lemma map_nth_seq_id (l : list float) :
  List.map (fun i => nth i l 0%float) (seq 0 (length l)) = l.
Proof.
  apply nth_ext with (d := 0%float) (d' := 0%float).
  - rewrite length_map, length_seq. reflexivity.
  - intros n Hn. rewrite length_map, length_seq in Hn.
    rewrite (nth_indep _ _ (nth 0 l 0%float)) by (rewrite length_map, length_seq; exact Hn).
    rewrite (map_nth (fun i => nth i l 0%float)), seq_nth by exact Hn.
    reflexivity.
Qed.

Lemma column_rows_of_columns (j : nat) (cols : list (list float)) (c : list float) :
  nth_error cols j = Some c ->
  column j (rows_of_columns (length c) cols) = c.
Proof.
  intros Hc. unfold column, rows_of_columns. rewrite List.map_map.
  rewrite <- (map_nth_seq_id c) at 2. apply map_ext. intros i.
  rewrite (nth_indep _ _ (nth i [] 0%float)).
  - rewrite (map_nth (fun col => nth i col 0%float)).
    rewrite (nth_error_nth _ _ _ Hc). reflexivity.
  - rewrite length_map. apply nth_error_Some. congruence.
Qed.

Lemma extract_row_length {nl : NumLib} (flows : list Flow) :
  Forall (fun row => length row = 12%nat) (_extract_features flows).
Proof.
  unfold _extract_features, rows_of_columns. rewrite Forall_map.
  apply Forall_forall. intros i _. reflexivity.
Qed.

Lemma scaler_transform_fitted (p : ScalerParams) (X : matrix) :
  has_infinity X = false -> X <> [] -> length (mean_ p) <> 0%nat ->
  Forall (fun row => length row = length (mean_ p)) X ->
  scaler_transform (Some p) X = Returned (List.map (standardize_row p) X).
Proof.
  intros Hfinite Hne Hwidth H. unfold scaler_transform. rewrite Hfinite.
  destruct X as [|row0 X]; [contradiction|].
  cbn [length Nat.eqb hd].
  replace (length row0) with (length (mean_ p))
    by (symmetry; apply (Forall_inv H)).
  destruct (Nat.eqb_spec (length (mean_ p)) 0) as [E|_]; [contradiction|].
  replace (forallb _ (row0 :: X)) with true; [reflexivity|].
  symmetry. apply forallb_forall. intros row Hrow.
  rewrite Forall_forall in H. apply Nat.eqb_eq, H.
  apply list_elem_of_In, Hrow.
Qed.

Lemma scaler_transform_returned (p : ScalerParams) (X Xn : matrix) :
  scaler_transform (Some p) X = Returned Xn ->
  Xn = List.map (standardize_row p) X
  /\ Forall (fun row => length row = length (mean_ p)) X
  /\ has_infinity X = false
  /\ X <> [].
Proof.
  unfold scaler_transform.
  destruct (has_infinity X); [discriminate|].
  destruct X as [|row0 X]; [discriminate|].
  cbn [length Nat.eqb hd].
  destruct (length row0 =? 0)%nat; [discriminate|].
  destruct (forallb _ (row0 :: X)) eqn:Hall; [|discriminate].
  intros [= <-]. split; [reflexivity|].
  split; [|split; [reflexivity | discriminate]].
  apply Forall_forall. intros row Hrow. apply list_elem_of_In in Hrow.
  rewrite forallb_forall in Hall. apply Nat.eqb_eq, Hall, Hrow.
Qed.

Lemma scaler_transform_rejects (p : ScalerParams) (X : matrix) :
  X = [] \/ has_infinity X = true ->
  exists msg, scaler_transform (Some p) X = Raised (ValueError msg).
Proof.
  intros H. unfold scaler_transform.
  destruct (has_infinity X) eqn:Hinf; [eexists; reflexivity|].
  destruct H as [-> | H]; [eexists; reflexivity | discriminate].
Qed.

Lemma standardize_row_lookup (p : ScalerParams) (row : list float) (j : nat)
    (x m s : float) :
  row !! j = Some x -> mean_ p !! j = Some m -> scale_ p !! j = Some s ->
  standardize_row p row !! j = Some (PrimFloat.div (PrimFloat.sub x m) s).
Proof.
  intros Hx Hm Hs. unfold standardize_row.
  rewrite !lookup_zip_with, Hx, Hm, Hs. reflexivity.
Qed.

(** C10. The port category is decided by two thresholds only: every
    integer below 1024, negative ones included, is category 0; 1024 to
    49151 is category 1; everything from 49152 upwards, beyond 65535 too,
    is category 2.  No port is rejected, and feature 12 of the extracted
    matrix is this category of the destination port. *)
Theorem port_category_covers_every_integer {nl : NumLib} (ports : list Z)
    (flows : list Flow) :
  length (_port_category ports) = length ports
  /\ (forall (i : nat) (p : Z),
        ports !! i = Some p ->
        ((p < 1024)%Z -> _port_category ports !! i = Some 0%float)
        /\ ((1024 <= p <= 49151)%Z -> _port_category ports !! i = Some 1%float)
        /\ ((49152 <= p)%Z -> _port_category ports !! i = Some 2%float))
  /\ column 11 (_extract_features flows)
     = _port_category (List.map L4_DST_PORT flows).
Proof.
  split; [rewrite port_category_map; apply length_map|].
  split.
  - intros i p Hp. rewrite port_category_map, lookup_map, Hp.
    unfold port_category_of. cbn [fmap option_fmap option_map].
    repeat split; intros H.
    + destruct (Z.ltb_spec p 1024); [reflexivity | lia].
    + destruct (Z.ltb_spec p 1024); [lia|].
      destruct (Z.leb_spec p 49151); [reflexivity | lia].
    + destruct (Z.ltb_spec p 1024); [lia|].
      destruct (Z.leb_spec p 49151); [lia | reflexivity].
  - unfold _extract_features.
    set (c11 := _port_category (List.map L4_DST_PORT flows)).
    assert (Hlen : length flows = length c11).
    { unfold c11. rewrite port_category_map, !length_map. reflexivity. }
    rewrite Hlen. apply column_rows_of_columns. reflexivity.
Qed.

(** C2 as stated fails: with a fitted normalizer the TCP indicator of a
    UDP flow leaves [transform] as -1, not as the 0 that was extracted. *)
Lemma indicator_column_is_standardized :
  ~ exists nl : NumLib, @normalizes_continuous_only nl fitted_extractor [udp_flow].
Proof.
  intros [nl [H _]].
  destruct (H eq_refl) as (p & out & _ & Hout & Hrows).
  change (scaler_transform (Some half_tcp_params) (_extract_features [udp_flow])
          = Returned out) in Hout.
  apply scaler_transform_returned in Hout as [-> _].
  destruct (Hrows 0%nat _ _ eq_refl eq_refl 8%nat) as [_ H8].
  specialize (H8 ltac:(lia)). vm_compute in H8.
  apply (f_equal (fun o => match o with
                            | Some x => PrimFloat.ltb x 0%float
                            | None => false
                            end)) in H8.
  vm_compute in H8. discriminate H8.
Qed.

(** C2, amended.  With a fitted normalizer [transform] hands the whole
    matrix to the scaler, which refuses an empty table and a matrix with
    an infinite entry ([ValueError]) and otherwise standardizes every one
    of the twelve columns, the protocol indicators and the port category
    included: entry [j] of each row becomes [(x - mean_[j]) / scale_[j]].
    Without a fitted normalizer, or with [normalize] off, the extracted
    features are returned as they are. *)
Theorem transform_standardizes_every_column {nl : NumLib}
    (self : FlowFeatureExtractor) (flows : list Flow) :
  (forall p : ScalerParams,
     _is_fitted self = true -> scaler self = Some p ->
     length (mean_ p) = 12%nat -> length (scale_ p) = 12%nat ->
     (flows = [] \/ has_infinity (_extract_features flows) = true ->
      exists msg, transform self flows true = Raised (ValueError msg))
     /\ (flows <> [] -> has_infinity (_extract_features flows) = false ->
         exists out,
           transform self flows true = Returned out
           /\ length out = length flows
           /\ forall i raw_row,
                _extract_features flows !! i = Some raw_row ->
                exists out_row,
                  out !! i = Some out_row
                  /\ forall (j : nat) (x m s : float),
                       raw_row !! j = Some x -> mean_ p !! j = Some m ->
                       scale_ p !! j = Some s ->
                       out_row !! j
                       = Some (PrimFloat.div (PrimFloat.sub x m) s)))
  /\ (_is_fitted self = false ->
      forall normalize : bool,
        transform self flows normalize = Returned (_extract_features flows))
  /\ transform self flows false = Returned (_extract_features flows).
Proof.
  split; [|split].
  - intros p Hfit Hsc Hmean Hscale.
    assert (Hrows : length (_extract_features flows) = length flows).
    { unfold _extract_features, rows_of_columns.
      rewrite length_map, length_seq. reflexivity. }
    split.
    { intros Hbad. unfold transform. rewrite Hfit, Hsc. cbn [andb].
      apply scaler_transform_rejects.
      destruct Hbad as [-> | Hinf]; [left; reflexivity | right; exact Hinf]. }
    intros Hne Hfinite.
    exists (List.map (standardize_row p) (_extract_features flows)).
    split; [|split].
    + unfold transform. rewrite Hfit, Hsc. cbn [andb].
      apply scaler_transform_fitted.
      * exact Hfinite.
      * intros E. rewrite E in Hrows. destruct flows; [contradiction|].
        discriminate Hrows.
      * rewrite Hmean. discriminate.
      * apply (Forall_impl _ _ _ (extract_row_length flows)).
        intros row Hrow. cbn beta in Hrow. congruence.
    + rewrite length_map. exact Hrows.
    + intros i raw_row Hraw. exists (standardize_row p raw_row).
      split; [rewrite lookup_map, Hraw; reflexivity|].
      intros j x m s. apply standardize_row_lookup.
  - intros Hfit normalize. unfold transform. rewrite Hfit, andb_false_r.
    reflexivity.
  - reflexivity.
Qed.

Lemma transform_standardizes_witness :
  exists out,
    @transform sample_numlib fitted_extractor [udp_flow] true = Returned out
    /\ length out = 1%nat.
Proof.
  destruct (@transform_standardizes_every_column sample_numlib
              fitted_extractor [udp_flow]) as [Hfitted _].
  destruct (Hfitted half_tcp_params eq_refl eq_refl eq_refl eq_refl)
    as [_ Hreturns].
  destruct (Hreturns ltac:(discriminate) ltac:(vm_compute; reflexivity))
    as (out & Hout & Hlen & _).
  exists out. split; assumption.
Defined.

End ExtractorSpec.

(** ** Tactic mapping *)

Module MapperSpec.
Import MitreMapper.

(** Every value a score function can return, in ascending order.  The
    weights are binary64 numbers, so sums that agree on paper can differ
    in the last place ([0.1 + 0.2] is not [0.3]). *)
Definition score_values : list float :=
  [ 0; 0.1; 0.2; 0.3; 0.30000000000000004; 0.4; 0.5; 0.6;
    0.6000000000000001; 0.7; 0.8; 0.8999999999999999; 1 ]%float.

(** [x] is the [i]-th smallest achievable score. *)
Definition ranked (x : float) (i : nat) : Prop :=
  (i < length score_values)%nat /\ nth i score_values 0%float = x.

Definition has_rank (x : float) : Prop := exists i, ranked x i.

(** The float comparisons agree with the positions in [score_values]. *)
Definition order_check : bool :=
  forallb
    (fun i =>
       forallb
         (fun j =>
            Bool.eqb (PrimFloat.ltb (nth i score_values 0%float)
                                    (nth j score_values 0%float))
                     (i <? j)%nat
            && Bool.eqb (PrimFloat.leb (nth i score_values 0%float)
                                       (nth j score_values 0%float))
                        (i <=? j)%nat)
         (seq 0 (length score_values)))
    (seq 0 (length score_values)).

Definition tactic_names : list string :=
  [ "Reconnaissance"; "Discovery"; "Credential Access"; "Lateral Movement";
    "Command and Control"; "Exfiltration"; "Benign" ]%string.

(** The signature of the specification's exfiltration scenario; the
    fields the scenario leaves open are set to zero. *)
Definition exfiltration_signature : StateSignature :=
  {| state_id := 0;
     avg_in_bytes := 0%float;
     avg_out_bytes := 100000%float;
     bytes_ratio := 0.001%float;
     avg_duration_ms := 30000%float;
     avg_pkts_per_sec := 0%float;
     protocol_dist := ∅;
     port_category_dist := <[2%Z := 0.7%float]> ∅;
     flow_count := 0 |}.

Lemma order_check_ok : order_check = true.
Proof. vm_compute. reflexivity. Qed.

Lemma ranked_order (x y : float) (i j : nat) :
  ranked x i -> ranked y j ->
  PrimFloat.ltb x y = (i <? j)%nat /\ PrimFloat.leb x y = (i <=? j)%nat.
Proof.
  intros [Hi <-] [Hj <-].
  pose proof order_check_ok as H. unfold order_check in H.
  rewrite forallb_forall in H.
  specialize (H i ltac:(apply in_seq; lia)).
  rewrite forallb_forall in H.
  specialize (H j ltac:(apply in_seq; lia)).
  apply andb_true_iff in H as [H1 H2].
  apply Bool.eqb_prop in H1, H2. auto.
Qed.

Lemma ranked_ltb (x y : float) (i j : nat) :
  ranked x i -> ranked y j -> PrimFloat.ltb x y = true <-> (i < j)%nat.
Proof.
  intros Hx Hy. destruct (ranked_order x y i j Hx Hy) as [-> _].
  apply Nat.ltb_lt.
Qed.

Lemma ranked_ltb_false (x y : float) (i j : nat) :
  ranked x i -> ranked y j -> PrimFloat.ltb x y = false <-> (j <= i)%nat.
Proof.
  intros Hx Hy. destruct (ranked_order x y i j Hx Hy) as [-> _].
  apply Nat.ltb_ge.
Qed.

Lemma ranked_leb (x y : float) (i j : nat) :
  ranked x i -> ranked y j -> PrimFloat.leb x y = true <-> (i <= j)%nat.
Proof.
  intros Hx Hy. destruct (ranked_order x y i j Hx Hy) as [_ ->].
  apply Nat.leb_le.
Qed.

Lemma ranked_zero : ranked 0%float 0.
Proof. split; [simpl; lia | reflexivity]. Qed.

Lemma ranked_one : ranked 1%float 12.
Proof. split; [simpl; lia | reflexivity]. Qed.

Lemma ranked_fun (x y : float) (i : nat) : ranked x i -> ranked y i -> x = y.
Proof. intros [_ <-] [_ <-]. reflexivity. Qed.

Lemma ranked_unit_interval (x : float) :
  has_rank x -> PrimFloat.leb 0%float x = true /\ PrimFloat.leb x 1%float = true.
Proof.
  intros [i Hi]. split.
  - apply (ranked_leb _ _ 0 i ranked_zero Hi). lia.
  - apply (ranked_leb _ _ i 12 Hi ranked_one). destruct Hi as [Hi _].
    simpl in Hi. lia.
Qed.

(** Case analysis on the checks of a score function, then a search for
    the position of the resulting sum. *)
Ltac split_checks :=
  cbv zeta;
  repeat match goal with
         | |- context [if ?c then _ else _] => destruct c
         end.

Ltac find_rank_from k :=
  first
    [ exists k; split; [simpl; lia | vm_compute; reflexivity]
    | lazymatch k with
      | 13%nat => fail 1 "value outside score_values"
      | _ => find_rank_from (S k)
      end ].

Ltac score_cases := split_checks; find_rank_from 0%nat.

Lemma reconnaissance_score_ranked (sig : StateSignature) :
  has_rank (_reconnaissance_score sig).
Proof. unfold has_rank, _reconnaissance_score. score_cases. Qed.

Lemma exfiltration_score_ranked (sig : StateSignature) :
  has_rank (_exfiltration_score sig).
Proof. unfold has_rank, _exfiltration_score. score_cases. Qed.

Lemma c2_score_ranked (sig : StateSignature) :
  has_rank (_c2_score sig).
Proof. unfold has_rank, _c2_score. score_cases. Qed.

Lemma lateral_movement_score_ranked (sig : StateSignature) :
  has_rank (_lateral_movement_score sig).
Proof. unfold has_rank, _lateral_movement_score. score_cases. Qed.

Lemma benign_score_ranked (sig : StateSignature) :
  has_rank (_benign_score sig).
Proof. unfold has_rank, _benign_score. score_cases. Qed.

Lemma credential_access_score_ranked (sig : StateSignature) :
  has_rank (_credential_access_score sig).
Proof. unfold has_rank, _credential_access_score. score_cases. Qed.

Lemma profiles_ranked (sig : StateSignature) :
  Forall (fun p => has_rank (score_fn p sig)) profiles.
Proof.
  unfold profiles. repeat constructor; cbn [score_fn].
  - apply reconnaissance_score_ranked.
  - apply reconnaissance_score_ranked.
  - apply credential_access_score_ranked.
  - apply lateral_movement_score_ranked.
  - apply c2_score_ranked.
  - apply exfiltration_score_ranked.
  - apply benign_score_ranked.
Qed.

(** The loop of [map] over any profile list whose scores are achievable
    values: the result is either the initial pair, no profile having
    beaten it, or the first profile whose score is strictly above both the
    initial score and every earlier profile, and at least every score. *)
Lemma map_loop_spec (sig : StateSignature) (ps : list TacticProfile) :
  Forall (fun p => has_rank (score_fn p sig)) ps ->
  forall best : string * float,
    has_rank (snd best) ->
    let r := fold_left (map_step sig) ps best in
    has_rank (snd r)
    /\ Forall (fun p => PrimFloat.leb (score_fn p sig) (snd r) = true) ps
    /\ ((r = best
         /\ Forall (fun p => PrimFloat.leb (score_fn p sig) (snd best) = true) ps)
        \/ (exists (k : nat) (p : TacticProfile),
              ps !! k = Some p
              /\ r = (tactic p, score_fn p sig)
              /\ PrimFloat.ltb (snd best) (snd r) = true
              /\ forall (j : nat) (q : TacticProfile),
                   (j < k)%nat -> ps !! j = Some q ->
                   PrimFloat.ltb (score_fn q sig) (snd r) = true)).
Proof.
  induction 1 as [|p ps [ip Hp] Hps IH]; intros best [ib Hb]; cbn zeta.
  - cbn [fold_left]. split; [exists ib; exact Hb|].
    split; [constructor|]. left. split; [reflexivity | constructor].
  - cbn [fold_left].
    assert (Hstep :
      (map_step sig best p = (tactic p, score_fn p sig) /\ (ib < ip)%nat)
      \/ (map_step sig best p = best /\ (ip <= ib)%nat)).
    { unfold map_step.
      destruct (PrimFloat.ltb (snd best) (score_fn p sig)) eqn:Hlt;
        [left | right]; (split; [reflexivity|]).
      - apply (ranked_ltb _ _ ib ip Hb Hp). exact Hlt.
      - apply (ranked_ltb_false _ _ ib ip Hb Hp). exact Hlt. }
    destruct Hstep as [[-> Hlt] | [-> Hlt]].
    +
      destruct (IH (tactic p, score_fn p sig) (ex_intro _ ip Hp))
        as ([ir Hr] & Hall & Hcase).
      cbn [snd] in Hcase.
      split; [exists ir; exact Hr|].
      destruct Hcase as [[Er Hle] | (k & q & Hk & Er & Hkr & Hearlier)].
      * rewrite Er in Hr |- *. cbn [snd] in Hr |- *.
        split; [constructor; [apply (ranked_leb _ _ ip ip Hp Hp); lia | exact Hle]|].
        right. exists 0%nat, p. repeat split.
        -- apply (ranked_ltb _ _ ib ip Hb Hp). exact Hlt.
        -- intros j q' Hj. lia.
      * apply (ranked_ltb _ _ ip ir Hp Hr) in Hkr.
        split.
        { constructor; [|exact Hall].
          apply (ranked_leb _ _ ip ir Hp Hr). lia. }
        right. exists (S k), q. repeat split; try assumption.
        -- apply (ranked_ltb _ _ ib ir Hb Hr). lia.
        -- intros [|j] q' Hj Hq'.
           ++ cbn in Hq'. injection Hq' as <-.
              apply (ranked_ltb _ _ ip ir Hp Hr). exact Hkr.
           ++ apply (Hearlier j q'); [lia | exact Hq'].
    + destruct (IH best (ex_intro _ ib Hb)) as ([ir Hr] & Hall & Hcase).
      split; [exists ir; exact Hr|].
      destruct Hcase as [[Er Hle] | (k & q & Hk & Er & Hkr & Hearlier)].
      * assert (Hpb : PrimFloat.leb (score_fn p sig) (snd best) = true)
          by (apply (ranked_leb _ _ ip ib Hp Hb); exact Hlt).
        split; [constructor; [rewrite Er; exact Hpb | exact Hall]|].
        left. split; [exact Er | constructor; [exact Hpb | exact Hle]].
      * apply (ranked_ltb _ _ ib ir Hb Hr) in Hkr.
        split.
        { constructor; [|exact Hall].
          apply (ranked_leb _ _ ip ir Hp Hr). lia. }
        right. exists (S k), q. repeat split; try assumption.
        -- apply (ranked_ltb _ _ ib ir Hb Hr). exact Hkr.
        -- intros [|j] q' Hj Hq'.
           ++ cbn in Hq'. injection Hq' as <-.
              apply (ranked_ltb _ _ ip ir Hp Hr). lia.
           ++ apply (Hearlier j q'); [lia | exact Hq'].
Qed.

(** [map] on the fixed profile list. *)
Lemma map_spec (sig : StateSignature) :
  has_rank (snd (map sig))
  /\ ((map sig = ("Unknown"%string, 0%float)
       /\ forall q, In q profiles -> score_fn q sig = 0%float)
      \/ (exists (k : nat) (p : TacticProfile),
            profiles !! k = Some p
            /\ map sig = (tactic p, score_fn p sig)
            /\ PrimFloat.ltb 0%float (score_fn p sig) = true
            /\ (forall q, In q profiles ->
                 PrimFloat.leb (score_fn q sig) (score_fn p sig) = true)
            /\ forall (j : nat) (q : TacticProfile),
                 (j < k)%nat -> profiles !! j = Some q ->
                 PrimFloat.ltb (score_fn q sig) (score_fn p sig) = true)).
Proof.
  pose proof (profiles_ranked sig) as Hranked.
  destruct (map_loop_spec sig profiles Hranked ("Unknown"%string, 0%float)
              (ex_intro _ 0%nat ranked_zero)) as (Hr & Hall & Hcase).
  fold (map_over profiles sig) in Hr, Hall, Hcase.
  fold (map sig) in Hr, Hall, Hcase.
  split; [exact Hr|].
  destruct Hcase as [[Er Hle] | (k & p & Hk & Er & Hlt & Hearlier)].
  - left. split; [exact Er|].
    intros q Hq. rewrite Forall_forall in Hle, Hranked.
    apply list_elem_of_In in Hq.
    destruct (Hranked q Hq) as [iq Hiq].
    specialize (Hle q Hq). cbn [snd] in Hle.
    apply (ranked_leb _ _ iq 0 Hiq ranked_zero) in Hle.
    assert (iq = 0%nat) as -> by lia.
    apply (ranked_fun _ _ 0 Hiq ranked_zero).
  - right. exists k, p. rewrite Er in Hall, Hlt, Hearlier.
    cbn [snd] in Hall, Hlt, Hearlier.
    repeat split; try assumption.
    intros q Hq. rewrite Forall_forall in Hall.
    apply Hall, list_elem_of_In, Hq.
Qed.

(** C4. [map] walks the seven profiles in their declaration order and
    returns the earliest profile whose score is strictly above every
    earlier one and at least every later one; when every profile scores
    0 it returns [("Unknown", 0)]; the confidence is always in [0, 1]. *)
Theorem map_returns_first_strict_maximum (sig : StateSignature) :
  List.map tactic profiles = tactic_names
  /\ (PrimFloat.leb 0%float (snd (map sig)) = true
      /\ PrimFloat.leb (snd (map sig)) 1%float = true)
  /\ ((forall q, In q profiles -> score_fn q sig = 0%float) ->
      map sig = ("Unknown"%string, 0%float))
  /\ ((map sig = ("Unknown"%string, 0%float)
       /\ forall q, In q profiles -> score_fn q sig = 0%float)
      \/ (exists (k : nat) (p : TacticProfile),
            profiles !! k = Some p
            /\ map sig = (tactic p, score_fn p sig)
            /\ PrimFloat.ltb 0%float (score_fn p sig) = true
            /\ (forall q, In q profiles ->
                 PrimFloat.leb (score_fn q sig) (score_fn p sig) = true)
            /\ forall (j : nat) (q : TacticProfile),
                 (j < k)%nat -> profiles !! j = Some q ->
                 PrimFloat.ltb (score_fn q sig) (score_fn p sig) = true)).
Proof.
  destruct (map_spec sig) as [Hrank Hcase].
  split; [reflexivity|].
  split; [apply ranked_unit_interval, Hrank|].
  split; [|exact Hcase].
  intros Hzero.
  destruct Hcase as [[E _] | (k & p & Hk & _ & Hpos & _)]; [exact E|].
  assert (Hin : In p profiles).
  { apply list_elem_of_In, list_elem_of_lookup. exists k. exact Hk. }
  rewrite (Hzero p Hin) in Hpos. vm_compute in Hpos. discriminate Hpos.
Qed.

(** In the exfiltration scenario every profile declared before
    [Exfiltration] stays strictly below 1. *)
Section ExfiltrationScenario.
Variable sig : StateSignature.
Hypothesis Hout : avg_out_bytes sig = 100000%float.
Hypothesis Hratio : bytes_ratio sig = 0.001%float.
Hypothesis Hduration : avg_duration_ms sig = 30000%float.
Hypothesis Hephemeral : port_category_dist sig !! 2%Z = Some 0.7%float.

Ltac scenario_fields :=
  rewrite ?Hout, ?Hratio, ?Hduration;
  unfold dict_get; rewrite ?Hephemeral; cbn [default];
  generalize (avg_in_bytes sig) (avg_pkts_per_sec sig) (flow_count sig)
             (port_category_dist sig !! 0%Z) (port_category_dist sig !! 1%Z)
             (protocol_dist sig !! "tcp"%string)
             (protocol_dist sig !! "udp"%string);
  intros in_bytes pps count port0 port1 tcp udp.

Ltac scenario_checks :=
  repeat match goal with
         | |- context [PrimFloat.ltb ?a ?b] =>
             first [is_var a | is_var b
                   | match a with default _ _ => idtac end
                   | match b with default _ _ => idtac end];
             destruct (PrimFloat.ltb a b)
         | |- context [Z.ltb ?a ?b] => is_var b; destruct (Z.ltb a b)
         end;
  vm_compute; reflexivity.

Lemma scenario_reconnaissance :
  PrimFloat.ltb (_reconnaissance_score sig) 1%float = true.
Proof. unfold _reconnaissance_score. scenario_fields. scenario_checks. Qed.

Lemma scenario_credential_access :
  PrimFloat.ltb (_credential_access_score sig) 1%float = true.
Proof. unfold _credential_access_score. scenario_fields. scenario_checks. Qed.

Lemma scenario_lateral_movement :
  PrimFloat.ltb (_lateral_movement_score sig) 1%float = true.
Proof. unfold _lateral_movement_score. scenario_fields. scenario_checks. Qed.

Lemma scenario_c2 :
  PrimFloat.ltb (_c2_score sig) 1%float = true.
Proof. unfold _c2_score. scenario_fields. scenario_checks. Qed.

Lemma scenario_exfiltration : _exfiltration_score sig = 1%float.
Proof.
  unfold _exfiltration_score. rewrite ?Hout, ?Hratio, ?Hduration.
  unfold dict_get. rewrite Hephemeral. vm_compute. reflexivity.
Qed.

End ExfiltrationScenario.

(** C5. A signature with [avg_out_bytes = 100000], [bytes_ratio = 0.001],
    [avg_duration_ms = 30000] and an ephemeral-port fraction of 0.7 maps
    to "Exfiltration", whatever its other fields, with confidence 1, which
    is above 0.3. *)
Theorem exfiltration_scenario_maps_to_exfiltration (sig : StateSignature) :
  avg_out_bytes sig = 100000%float ->
  bytes_ratio sig = 0.001%float ->
  avg_duration_ms sig = 30000%float ->
  port_category_dist sig !! 2%Z = Some 0.7%float ->
  fst (map sig) = "Exfiltration"%string
  /\ PrimFloat.ltb 0.3%float (snd (map sig)) = true
  /\ snd (map sig) = 1%float.
Proof.
  intros Hout Hratio Hduration Hephemeral.
  pose proof (scenario_exfiltration sig Hout Hratio Hduration Hephemeral) as Hexf.
  assert (Hin : In (mkTacticProfile "Exfiltration" _exfiltration_score) profiles)
    by (unfold profiles; simpl; tauto).
  destruct (map_spec sig) as [_ [[_ Hzero] | (k & p & Hk & E & _ & Hmax & Hearlier)]].
  { specialize (Hzero _ Hin). cbn [score_fn] in Hzero.
    rewrite Hexf in Hzero.
    apply (f_equal (fun x => PrimFloat.ltb 0%float x)) in Hzero.
    vm_compute in Hzero. discriminate Hzero. }
  assert (Hp : score_fn p sig = 1%float).
  { pose proof (profiles_ranked sig) as Hranked.
    rewrite Forall_forall in Hranked.
    destruct (Hranked p) as [ip Hip].
    { apply list_elem_of_lookup. exists k. exact Hk. }
    specialize (Hmax _ Hin). cbn [score_fn] in Hmax. rewrite Hexf in Hmax.
    apply (ranked_leb _ _ 12 ip ranked_one Hip) in Hmax.
    assert (ip = 12%nat) as -> by (destruct Hip as [Hlt _]; simpl in Hlt; lia).
    apply (ranked_fun _ _ 12 Hip ranked_one). }
  rewrite Hp in Hearlier.
  destruct k as [|[|[|[|[|[|k]]]]]]; cbn in Hk.
  1-5: injection Hk as <-; exfalso; cbn [score_fn] in Hp;
       first
         [ pose proof (scenario_reconnaissance sig Hout Hduration) as Hlt;
           rewrite Hp in Hlt
         | pose proof (scenario_credential_access sig Hout Hduration) as Hlt;
           rewrite Hp in Hlt
         | pose proof (scenario_lateral_movement sig Hduration) as Hlt;
           rewrite Hp in Hlt
         | pose proof (scenario_c2 sig Hratio Hduration Hephemeral) as Hlt;
           rewrite Hp in Hlt ];
       vm_compute in Hlt; discriminate Hlt.
  - injection Hk as <-. rewrite E. cbn [fst snd tactic score_fn].
    rewrite Hexf. repeat split; vm_compute; reflexivity.
  - exfalso.
    specialize (Hearlier 5%nat _ ltac:(lia) eq_refl). cbn [score_fn] in Hearlier.
    rewrite Hexf in Hearlier. vm_compute in Hearlier. discriminate Hearlier.
Qed.

Lemma exfiltration_scenario_witness :
  fst (map exfiltration_signature) = "Exfiltration"%string
  /\ PrimFloat.ltb 0.3%float (snd (map exfiltration_signature)) = true
  /\ snd (map exfiltration_signature) = 1%float.
Proof.
  apply (exfiltration_scenario_maps_to_exfiltration exfiltration_signature);
    reflexivity.
Defined.

End MapperSpec.

(** ** The model wrapper *)

Module HMMSpec.
Import HMM.

(** C8 as the specification words it: when every candidate of the range
    fails, selection itself fails. *)
Definition total_failure_is_fatal {nl : NumLib} {hl : HmmLearn}
    (X : matrix) (lengths : list Z) (min_states max_states n_iter random_state : Z)
    : Prop :=
  (forall k : Z, (min_states <= k <= max_states)%Z ->
     raises (candidate_bic X lengths n_iter random_state k)) ->
  raises (select_n_states X lengths min_states max_states n_iter random_state).

Section WithLibraries.
Context {nl : NumLib} {hl : HmmLearn}.

Lemma in_pyrange (lo hi k : Z) : In k (pyrange lo hi) <-> (lo <= k < hi)%Z.
Proof.
  unfold pyrange. rewrite in_map_iff. split.
  - intros (i & <- & Hi). apply in_seq in Hi. lia.
  - intros H. exists (Z.to_nat (k - lo)). split; [lia|].
    apply in_seq. lia.
Qed.

Lemma select_loop_choice (X : matrix) (lengths : list Z) (n_iter random_state : Z)
    (candidates : list Z) (best : float * Z) :
  snd (select_loop X lengths n_iter random_state candidates best) = snd best
  \/ In (snd (select_loop X lengths n_iter random_state candidates best)) candidates.
Proof.
  unfold select_loop. revert best.
  induction candidates as [|k ks IH]; intros best; cbn [fold_left].
  - left. reflexivity.
  - destruct (IH (select_step X lengths n_iter random_state best k)) as [E | Hin].
    + rewrite E. unfold select_step.
      destruct (candidate_bic _ _ _ _ _) as [bic|e]; [|left; reflexivity].
      destruct (PrimFloat.ltb bic (fst best));
        [right; left; reflexivity | left; reflexivity].
    + right. right. exact Hin.
Qed.

Lemma select_step_raised (X : matrix) (lengths : list Z) (n_iter random_state : Z)
    (best : float * Z) (k : Z) :
  raises (candidate_bic X lengths n_iter random_state k) ->
  select_step X lengths n_iter random_state best k = best.
Proof.
  unfold select_step, raises.
  destruct (candidate_bic _ _ _ _ _); [contradiction | reflexivity].
Qed.

Lemma select_loop_all_raised (X : matrix) (lengths : list Z)
    (n_iter random_state : Z) (candidates : list Z) (best : float * Z) :
  (forall k, In k candidates ->
     raises (candidate_bic X lengths n_iter random_state k)) ->
  select_loop X lengths n_iter random_state candidates best = best.
Proof.
  unfold select_loop. revert best.
  induction candidates as [|k ks IH]; intros best Hall; cbn [fold_left].
  - reflexivity.
  - rewrite select_step_raised by (apply Hall; left; reflexivity).
    apply IH. intros k' Hk'. apply Hall. right. exact Hk'.
Qed.

Lemma select_all_fail (X : matrix) (lengths : list Z)
    (min_states max_states n_iter random_state : Z) :
  (forall k : Z, (min_states <= k <= max_states)%Z ->
     raises (candidate_bic X lengths n_iter random_state k)) ->
  select_n_states X lengths min_states max_states n_iter random_state
  = Returned min_states.
Proof.
  intros Hall. unfold select_n_states. cbn zeta.
  rewrite select_loop_all_raised; [reflexivity|].
  intros k Hk. apply in_pyrange in Hk. apply Hall. lia.
Qed.

(** C6. On a model whose [fit] was never called ([model] is [None], as
    [__init__] leaves it) each of the six operations raises
    [RuntimeError("Model not fitted. Call fit() first.")] and leaves the
    object as it was. *)
Theorem untrained_model_operations_raise (self : AttackPhaseHMM)
    (X : matrix) (lengths : list Z) :
  model self = None ->
  not_fitted = RuntimeError "Model not fitted. Call fit() first."
  /\ predict_states self X lengths = (Raised not_fitted, self)
  /\ score self X lengths = (Raised not_fitted, self)
  /\ get_transition_matrix self = (Raised not_fitted, self)
  /\ get_emission_means self = (Raised not_fitted, self)
  /\ get_emission_covariances self = (Raised not_fitted, self)
  /\ compute_bic self X lengths = (Raised not_fitted, self).
Proof.
  intros Hnone.
  unfold predict_states, score, get_transition_matrix, get_emission_means,
    get_emission_covariances, compute_bic.
  rewrite Hnone. repeat split; reflexivity.
Qed.

(** C7. For [min_states <= max_states] the selected number of states
    lies in the inclusive range, and when every candidate fails to fit
    the lowest candidate is returned. *)
Theorem select_n_states_within_range (X : matrix) (lengths : list Z)
    (min_states max_states n_iter random_state : Z) :
  (min_states <= max_states)%Z ->
  (exists k : Z,
     select_n_states X lengths min_states max_states n_iter random_state
     = Returned k
     /\ (min_states <= k <= max_states)%Z)
  /\ ((forall k : Z, (min_states <= k <= max_states)%Z ->
         raises (candidate_bic X lengths n_iter random_state k)) ->
      select_n_states X lengths min_states max_states n_iter random_state
      = Returned min_states).
Proof.
  intros Hrange. split; [|apply select_all_fail].
  unfold select_n_states. cbn zeta. eexists. split; [reflexivity|].
  destruct (select_loop_choice X lengths n_iter random_state
              (pyrange min_states (max_states + 1))
              (PrimFloat.infinity, min_states)) as [E | Hin].
  - rewrite E. cbn [snd]. lia.
  - apply in_pyrange in Hin. lia.
Qed.

(** C8, amended.  A candidate whose fit raises leaves the running best
    untouched, so selection over a candidate list is the selection over
    the list without it; and when every candidate of the range raises,
    the failures are absorbed all the same: the result is [min_states],
    returned normally. *)
Theorem failed_candidates_are_skipped (X : matrix) (lengths : list Z)
    (n_iter random_state : Z) :
  (forall (before after : list Z) (k : Z) (best : float * Z),
     raises (candidate_bic X lengths n_iter random_state k) ->
     select_loop X lengths n_iter random_state (before ++ k :: after) best
     = select_loop X lengths n_iter random_state (before ++ after) best)
  /\ (forall min_states max_states : Z,
        (forall k : Z, (min_states <= k <= max_states)%Z ->
           raises (candidate_bic X lengths n_iter random_state k)) ->
        select_n_states X lengths min_states max_states n_iter random_state
        = Returned min_states
        /\ ~ raises (select_n_states X lengths min_states max_states
                                     n_iter random_state)).
Proof.
  split.
  - intros before after k best Hk. unfold select_loop.
    rewrite !fold_left_app. cbn [fold_left].
    rewrite select_step_raised by exact Hk. reflexivity.
  - intros min_states max_states Hall.
    rewrite (select_all_fail _ _ _ _ _ _ Hall). split; [reflexivity|].
    intros H. exact H.
Qed.

(** C9. [load] after [save] gives back the model that was saved, field
    for field, the fitted estimator included; decoding and scoring with
    the loaded model are therefore those of the original. *)
Theorem save_load_round_trip (self : AttackPhaseHMM) (path : string)
    (fs : gmap string (gmap string pyval)) :
  load path (save self path fs) = Returned self
  /\ forall loaded : AttackPhaseHMM,
       load path (save self path fs) = Returned loaded ->
       n_states loaded = n_states self
       /\ n_iter loaded = n_iter self
       /\ random_state loaded = random_state self
       /\ model loaded = model self
       /\ forall (X : matrix) (lengths : list Z),
            fst (predict_states loaded X lengths)
            = fst (predict_states self X lengths)
            /\ fst (score loaded X lengths) = fst (score self X lengths).
Proof.
  assert (Hload : load path (save self path fs) = Returned self).
  { unfold load, save, joblib_load, joblib_dump.
    rewrite lookup_insert_eq. cbn [obind].
    unfold dict_item.
    rewrite lookup_insert_eq. cbn [obind].
    rewrite lookup_insert_ne, lookup_insert_eq by discriminate. cbn [obind].
    rewrite !lookup_insert_ne, lookup_insert_eq by discriminate. cbn [obind as_int].
    rewrite !lookup_insert_ne, lookup_insert_eq by discriminate. cbn [obind].
    destruct self as [n i r [g|]]; reflexivity. }
  split; [exact Hload|].
  intros loaded Hloaded. rewrite Hload in Hloaded.
  injection Hloaded as <-. repeat split; reflexivity.
Qed.

End WithLibraries.

Lemma untrained_model_witness :
  @not_fitted = RuntimeError "Model not fitted. Call fit() first."
  /\ @predict_states constant_hmmlearn
       (@__init__ constant_hmmlearn 10 100 None) [] []
     = (Raised not_fitted, @__init__ constant_hmmlearn 10 100 None)
  /\ @score constant_hmmlearn (__init__ 10 100 None) [] []
     = (Raised not_fitted, __init__ 10 100 None)
  /\ @get_transition_matrix constant_hmmlearn (__init__ 10 100 None)
     = (Raised not_fitted, __init__ 10 100 None)
  /\ @get_emission_means constant_hmmlearn (__init__ 10 100 None)
     = (Raised not_fitted, __init__ 10 100 None)
  /\ @get_emission_covariances constant_hmmlearn (__init__ 10 100 None)
     = (Raised not_fitted, __init__ 10 100 None)
  /\ @compute_bic sample_numlib constant_hmmlearn (__init__ 10 100 None) [] []
     = (Raised not_fitted, __init__ 10 100 None).
Proof.
  apply (@untrained_model_operations_raise sample_numlib constant_hmmlearn
           (__init__ 10 100 None) [] []).
  reflexivity.
Defined.

Lemma select_n_states_witness :
  (exists k : Z,
     @select_n_states sample_numlib diverging_hmmlearn [] [] 4 15 50 42
     = Returned k
     /\ (4 <= k <= 15)%Z)
  /\ ((forall k : Z, (4 <= k <= 15)%Z ->
         raises (@candidate_bic sample_numlib diverging_hmmlearn [] [] 50 42 k)) ->
      @select_n_states sample_numlib diverging_hmmlearn [] [] 4 15 50 42
      = Returned 4%Z).
Proof.
  apply (@select_n_states_within_range sample_numlib diverging_hmmlearn
           [] [] 4 15 50 42).
  lia.
Defined.

(** Selection at work: the candidate 5 raises and is skipped, and the
    minimum of the BIC over the others is at 6. *)
Example select_n_states_peaked :
  @select_n_states sample_numlib peaked_hmmlearn [] [] 4 15 50 42 = Returned 6%Z.
Proof. vm_compute. reflexivity. Qed.

(** C8 as stated fails: with an estimator that never converges, every
    candidate of 4..15 raises and [select_n_states] returns 4. *)
Lemma total_failure_returns_min_states :
  ~ @total_failure_is_fatal sample_numlib diverging_hmmlearn [] [] 4 15 50 42.
Proof.
  unfold total_failure_is_fatal. intros H.
  assert (Hall : forall k : Z, (4 <= k <= 15)%Z ->
            raises (@candidate_bic sample_numlib diverging_hmmlearn [] [] 50 42 k)).
  { intros k _. exact I. }
  specialize (H Hall). vm_compute in H. exact H.
Qed.

End HMMSpec.

(** ** The labeling pipeline *)

Module LabelSpec.
Import Label.

Definition session_flow (t : Z) : Flow :=
  mkFlow "10.0.0.1" "10.0.0.100" 40000 443 6 1200 800 10 8 t 250.

(** A flow whose source has no other flow: below the minimum session
    length, so it belongs to no session. *)
Definition lone_flow : Flow :=
  mkFlow "10.0.0.9" "10.0.0.100" 40001 53 17 60 120 1 1 1500 5.

(** Three flows of one source one second apart, and the lone flow. *)
Definition mixed_flows : list Flow :=
  [session_flow 1000; lone_flow; session_flow 2000; session_flow 3000].

(** A fitted model over the constant decoder. *)
Definition decoding_model : @HMM.AttackPhaseHMM constant_hmmlearn :=
  @HMM.set_model constant_hmmlearn (HMM.__init__ 5 100 None) (Some 5%Z).

(** The sentinel row the specification promises for a flow outside
    every session. *)
Definition sentinel_row (f : Flow) : OutputRow :=
  mkOutputRow f (-1) "Unknown" 0%float.

Lemma zip_labeled_flows (rows : list Flow) (states : list Z) :
  length states = length rows ->
  List.map lf_flow (zip_with mkLabeledFlow rows states) = rows.
Proof.
  revert states; induction rows as [|r rows IH]; intros [|s states] Hlen;
    simpl in *; try reflexivity; try discriminate.
  rewrite IH by lia. reflexivity.
Qed.

Section WithLibraries.
Context {nl : NumLib} {hl : HmmLearn}.

Lemma label_session_rows (model : HMM.AttackPhaseHMM)
    (extractor : Extractor.FlowFeatureExtractor)
    (session : SessionBuilderPy.Session) (labeled : list LabeledFlow) :
  label_session model extractor session = Returned labeled ->
  List.map lf_flow labeled = SessionBuilderPy.session_rows session.
Proof.
  unfold label_session.
  destruct (Extractor.transform _ _ _) as [features|e]; cbn [obind]; [|discriminate].
  destruct (fst (HMM.predict_states _ _ _)) as [states|e]; cbn [obind];
    [|discriminate].
  destruct (Nat.eqb_spec (length states)
              (length (SessionBuilderPy.session_rows session))) as [Hlen|];
    [|discriminate].
  intros [= <-]. apply zip_labeled_flows, Hlen.
Qed.

Lemma label_sessions_rows (model : HMM.AttackPhaseHMM)
    (extractor : Extractor.FlowFeatureExtractor)
    (sessions : list SessionBuilderPy.Session)
    (all_labeled out : list (list LabeledFlow)) :
  label_sessions model extractor sessions all_labeled = Returned out ->
  List.map (List.map lf_flow) out
  = List.map (List.map lf_flow) all_labeled
    ++ List.map SessionBuilderPy.session_rows sessions.
Proof.
  revert all_labeled; induction sessions as [|s sessions IH];
    intros all_labeled; cbn [label_sessions].
  - intros [= <-]. symmetry; apply app_nil_r.
  - destruct (label_session model extractor s) as [labeled|e] eqn:Hs;
      cbn [obind]; [|discriminate].
    intros Hout. rewrite (IH _ Hout), map_app, <- app_assoc.
    cbn [List.map app]. rewrite (label_session_rows _ _ _ _ Hs). reflexivity.
Qed.

(** What [label_flows] writes: every flow with the sentinel columns when
    no session exists at all; otherwise the rows of the sessions and
    nothing else. *)
Lemma label_flows_rows (model : HMM.AttackPhaseHMM)
    (extractor : Extractor.FlowFeatureExtractor) (flows : list Flow) :
  match label_flows model extractor flows with
  | Raised _ => True
  | Returned rows =>
      match SessionBuilderPy.build_sessions
              (SessionBuilderPy.__init__ None None) flows with
      | [] => rows = List.map sentinel_row flows
      | sessions =>
          List.map out_flow rows
          = concat (List.map SessionBuilderPy.session_rows sessions)
      end
  end.
Proof.
  unfold label_flows. cbn zeta.
  destruct (SessionBuilderPy.build_sessions _ flows) as [|s sessions];
    [reflexivity|].
  destruct (label_sessions model extractor (s :: sessions) []) as [out|e] eqn:Hout;
    cbn [obind]; [|exact I].
  rewrite List.map_map. cbn [out_flow].
  apply label_sessions_rows in Hout. cbn [List.map app] in Hout.
  transitivity (List.map lf_flow (concat out)); [apply map_ext; reflexivity|].
  rewrite concat_map, Hout. reflexivity.
Qed.

End WithLibraries.

(** C1 at a concrete table: three flows form a session, a fourth one
    belongs to none.  The written table has three rows; the fourth flow
    is not given the sentinel columns, it is absent. *)
Theorem label_flows_drops_flows_outside_sessions :
  exists rows : list OutputRow,
    @label_flows sample_numlib constant_hmmlearn decoding_model
                 Extractor.__init__ mixed_flows
    = Returned rows
    /\ In lone_flow mixed_flows
    /\ List.map out_flow rows
       = [session_flow 1000; session_flow 2000; session_flow 3000]
    /\ ~ In (sentinel_row lone_flow) rows
    /\ ~ In lone_flow (List.map out_flow rows).
Proof.
  eexists. split; [vm_compute; reflexivity|].
  split; [right; left; reflexivity|].
  split; [reflexivity|].
  split.
  - intros [H | [H | [H | []]]]; discriminate H.
  - intros [H | [H | [H | []]]]; discriminate H.
Qed.

End LabelSpec.

(** * Further properties of the code *)

(** ** Grouping and sorting *)

Module PandasFacts.
Import Pandas.

Section Sorting.
Context {A K : Type} (leb : K -> K -> bool) (key : A -> K).

Lemma insert_sorted_permutation (x : A) (l : list A) :
  Permutation (insert_sorted leb key x l) (x :: l).
Proof.
  induction l as [|y l IH]; simpl; [reflexivity|].
  destruct (leb (key x) (key y)); [reflexivity|].
  rewrite IH. apply perm_swap.
Qed.

Lemma sort_values_permutation (l : list A) :
  Permutation (sort_values leb key l) l.
Proof.
  induction l as [|x l IH]; simpl; [reflexivity|].
  rewrite insert_sorted_permutation, IH. reflexivity.
Qed.

End Sorting.

Section Grouping.
Context {A K : Type} (eqb leb : K -> K -> bool) (key : A -> K).
Hypothesis eqb_eq : forall x y : K, eqb x y = true <-> x = y.

Lemma eqb_refl_true (x : K) : eqb x x = true.
Proof. apply eqb_eq. reflexivity. Qed.

Lemma in_unique (k : K) (ks : list K) : In k (unique eqb ks) <-> In k ks.
Proof.
  induction ks as [|k' ks IH]; simpl; [tauto|].
  rewrite filter_In, IH. split.
  - intros [E | [H _]]; auto.
  - intros [E | H]; [left; exact E|].
    destruct (eqb k' k) eqn:Ek.
    + left. apply eqb_eq. exact Ek.
    + right. split; [exact H | reflexivity].
Qed.

Lemma NoDup_unique (ks : list K) : List.NoDup (unique eqb ks).
Proof.
  induction ks as [|k ks IH]; simpl; constructor.
  - rewrite filter_In. intros [_ H]. rewrite eqb_refl_true in H. discriminate H.
  - apply List.NoDup_filter, IH.
Qed.

Definition group_keys (rows : list A) : list K :=
  sort_values leb (fun k => k) (unique eqb (List.map key rows)).

Lemma in_group_keys (rows : list A) (k : K) :
  In k (group_keys rows) <-> exists r, In r rows /\ key r = k.
Proof.
  unfold group_keys.
  rewrite (Permutation_in' (eq_refl k) (sort_values_permutation leb (fun k => k) _)).
  rewrite in_unique, in_map_iff. split; intros (r & H1 & H2); exists r; auto.
Qed.

Lemma NoDup_group_keys (rows : list A) : List.NoDup (group_keys rows).
Proof.
  unfold group_keys.
  apply (Permutation_NoDup (l := unique eqb (List.map key rows))).
  - symmetry. apply sort_values_permutation.
  - apply NoDup_unique.
Qed.

Lemma groupby_keys (rows : list A) :
  List.map fst (groupby eqb leb key rows) = group_keys rows.
Proof.
  unfold groupby, group_keys. rewrite List.map_map. cbn [fst].
  apply List.map_id.
Qed.

Lemma in_groupby (rows : list A) (g : K * list A) :
  In g (groupby eqb leb key rows) ->
  In (fst g) (group_keys rows)
  /\ snd g = List.filter (fun r => eqb (key r) (fst g)) rows.
Proof.
  unfold groupby. fold (group_keys rows). rewrite in_map_iff.
  intros (k & <- & Hk). split; [exact Hk | reflexivity].
Qed.

(** Adding a row to the table adds it to the group of its key. *)
Lemma concat_groups_insert (F : K -> list A) (a : K) (r : A) (keys : list K) :
  List.NoDup keys -> In a keys ->
  Permutation
    (concat (List.map (fun k => if eqb a k then r :: F k else F k) keys))
    (r :: concat (List.map F keys)).
Proof.
  induction keys as [|k keys IH]; intros Hnd Hin; [destruct Hin|].
  inversion Hnd as [|? ? Hk Hnd']; subst. cbn [List.map concat].
  destruct (eqb a k) eqn:Eak.
  - apply eqb_eq in Eak. subst k. cbn [app]. apply perm_skip.
    apply Permutation_app_head.
    replace (List.map (fun k => if eqb a k then r :: F k else F k) keys)
      with (List.map F keys); [reflexivity|].
    apply map_ext_in. intros k Hk'.
    destruct (eqb a k) eqn:E; [|reflexivity].
    apply eqb_eq in E. subst k. contradiction.
  - destruct Hin as [E | Hin].
    + subst k. rewrite eqb_refl_true in Eak. discriminate Eak.
    + rewrite (IH Hnd' Hin). symmetry. apply Permutation_middle.
Qed.

(** The groups partition the rows. *)
Lemma concat_groups_permutation (rows : list A) (keys : list K) :
  List.NoDup keys -> (forall r, In r rows -> In (key r) keys) ->
  Permutation
    (concat (List.map (fun k => List.filter (fun r => eqb (key r) k) rows) keys))
    rows.
Proof.
  intros Hnd. induction rows as [|r rows IH]; intros Hall.
  - cbn [List.filter]. induction keys as [|k keys IHk]; [reflexivity|].
    cbn [List.map concat app].
    apply IHk; [inversion Hnd; assumption | intros r []].
  - cbn [List.filter].
    rewrite (concat_groups_insert
               (fun k => List.filter (fun r => eqb (key r) k) rows)
               (key r) r keys Hnd (Hall r (or_introl eq_refl))).
    apply perm_skip, IH. intros r' Hr'. apply Hall. right. exact Hr'.
Qed.

Lemma groupby_partition (rows : list A) :
  Permutation (concat (List.map snd (groupby eqb leb key rows))) rows.
Proof.
  unfold groupby. fold (group_keys rows). rewrite List.map_map. cbn [snd].
  apply concat_groups_permutation; [apply NoDup_group_keys|].
  intros r Hr. apply in_group_keys. exists r. auto.
Qed.

End Grouping.

End PandasFacts.

(** ** Sessions as data *)

Module SessionFacts.
Import Pandas SessionBuilderPy SessionSpec PandasFacts.

Definition by_source (flows : list Flow) : list (string * list Flow) :=
  groupby String.eqb String.leb IPV4_SRC_ADDR flows.

(** The invariant of a session (section 3 of the specification). *)
Definition well_formed_session (self : SessionBuilder) (flows : list Flow)
    (s : Session) : Prop :=
  session_rows s <> []
  /\ (min_length self <= Z.of_nat (length (session_rows s)))%Z
  /\ (exists ip, Forall (fun r => IPV4_SRC_ADDR r = ip) (session_rows s))
  /\ Sorted time_le (session_rows s)
  /\ within_gap (gap_ms self) (session_rows s)
  /\ Forall (fun r => In r flows) (session_rows s).

Lemma time_le_trans : Relations_1.Transitive time_le.
Proof. intros a b c. unfold time_le. lia. Qed.

Lemma Sorted_app_inv (l1 l2 : list Flow) :
  Sorted time_le (l1 ++ l2) -> Sorted time_le l1 /\ Sorted time_le l2.
Proof.
  induction l1 as [|a l1 IH]; cbn [app]; intros H; [split; [constructor | exact H]|].
  inversion H as [|? ? Hs Hhd]; subst. destruct (IH Hs) as [H1 H2].
  split; [|exact H2]. constructor; [exact H1|].
  destruct l1; [constructor|]. inversion Hhd; subst. constructor. assumption.
Qed.

Lemma Sorted_concat_inv (ls : list (list Flow)) :
  Sorted time_le (concat ls) -> Forall (Sorted time_le) ls.
Proof.
  induction ls as [|l ls IH]; cbn [concat]; intros H; [constructor|].
  apply Sorted_app_inv in H as [H1 H2]. constructor; auto.
Qed.

Lemma in_concat_length {A : Type} (l : list A) (ls : list (list A)) :
  In l ls -> (length l <= length (concat ls))%nat.
Proof.
  induction ls as [|l' ls IH]; [intros []|].
  cbn [concat]. rewrite length_app. intros [-> | H]; [lia|].
  specialize (IH H). lia.
Qed.

Lemma fold_min_head (v : Z) (vs : list Z) :
  Forall (fun x => (v <= x)%Z) vs -> fold_left Z.min vs v = v.
Proof.
  induction 1 as [|x vs Hx _ IH]; cbn [fold_left]; [reflexivity|].
  rewrite Z.min_l by exact Hx. exact IH.
Qed.

Lemma series_min_sorted (r0 : Flow) (rest : list Flow) :
  Sorted time_le (r0 :: rest) ->
  series_min (List.map FLOW_START_MILLISECONDS (r0 :: rest))
  = Some (FLOW_START_MILLISECONDS r0).
Proof.
  intros H. apply (Sorted_StronglySorted time_le_trans) in H.
  apply StronglySorted_inv in H as [_ Hall].
  cbn [List.map series_min]. f_equal. apply fold_min_head.
  rewrite Forall_map. exact Hall.
Qed.

Lemma in_by_source (flows : list Flow) (g : string * list Flow) :
  In g (by_source flows) ->
  snd g = List.filter (fun r => String.eqb (IPV4_SRC_ADDR r) (fst g)) flows
  /\ snd g <> [].
Proof.
  intros Hg.
  destruct (in_groupby String.eqb String.leb IPV4_SRC_ADDR flows g Hg)
    as [Hkey Hrows].
  split; [exact Hrows|].
  apply (in_group_keys String.eqb String.leb IPV4_SRC_ADDR String.eqb_eq) in Hkey.
  destruct Hkey as (r & Hr & Hk). rewrite Hrows. intros Hnil.
  assert (Hin : In r (List.filter
                        (fun r => String.eqb (IPV4_SRC_ADDR r) (fst g)) flows)).
  { apply filter_In. split; [exact Hr|]. apply String.eqb_eq. exact Hk. }
  rewrite Hnil in Hin. destruct Hin.
Qed.

(** Where a session comes from: one run of one source's sorted flows. *)
Lemma session_origin (self : SessionBuilder) (flows : list Flow) (s : Session) :
  In s (build_sessions self flows) ->
  exists g run,
    In g (by_source flows)
    /\ In run (split_on_gaps (gap_ms self) (sorted_group (snd g)))
    /\ _create_session self run (fst g) = Some s.
Proof.
  rewrite build_sessions_spec, in_concat.
  intros (ss & Hss & Hs). apply in_map_iff in Hss as (g & <- & Hg).
  unfold sessions_of_group in Hs.
  apply list_elem_of_In, list_elem_of_omap in Hs as (run & Hrun & Hcreate).
  exists g, run. split; [exact Hg|]. split; [|exact Hcreate].
  apply list_elem_of_In. exact Hrun.
Qed.

Lemma create_session_some (self : SessionBuilder) (run : list Flow)
    (ip : string) (s : Session) :
  _create_session self run ip = Some s ->
  session_rows s = run
  /\ (min_length self <= Z.of_nat (length run))%Z
  /\ session_id s
     = ip +:+ "_" +:+ format_start_time
                        (series_min (List.map FLOW_START_MILLISECONDS run)).
Proof.
  unfold _create_session.
  destruct (Z.ltb_spec (Z.of_nat (length run)) (min_length self));
    [discriminate|].
  intros [= <-]. cbn [session_rows session_id]. auto.
Qed.

(** The facts about the run a session was made from. *)
Lemma run_facts (self : SessionBuilder) (flows : list Flow)
    (g : string * list Flow) (run : list Flow) :
  In g (by_source flows) ->
  In run (split_on_gaps (gap_ms self) (sorted_group (snd g))) ->
  run <> []
  /\ Forall (fun r => IPV4_SRC_ADDR r = fst g /\ In r flows) run
  /\ Sorted time_le run
  /\ (Forall plausible flows -> within_gap (gap_ms self) run)
  /\ (length run <= length (snd g))%nat.
Proof.
  intros Hg Hrun.
  destruct (in_by_source flows g Hg) as [Hrows Hne].
  destruct (split_on_gaps_props (gap_ms self) (sorted_group (snd g)))
    as (Hcat & Hnonempty).
  pose proof (sorted_group_perm (snd g)) as Hperm.
  assert (Hsorted_ne : sorted_group (snd g) <> []).
  { intros E. rewrite E in Hperm. apply Permutation_nil in Hperm. contradiction. }
  specialize (Hnonempty Hsorted_ne). rewrite Forall_forall in Hnonempty.
  setoid_rewrite list_elem_of_In in Hnonempty.
  split; [apply Hnonempty, Hrun|].
  split.
  { apply Forall_forall. intros r Hr. apply list_elem_of_In in Hr.
    assert (Hin : In r (snd g)).
    { apply (Permutation_in _ Hperm). rewrite <- Hcat. apply in_concat.
      exists run. split; assumption. }
    rewrite Hrows in Hin. apply filter_In in Hin as [Hin Hk].
    split; [apply String.eqb_eq, Hk | exact Hin]. }
  split.
  { pose proof (sorted_group_sorted (snd g)) as Hs. rewrite <- Hcat in Hs.
    apply Sorted_concat_inv in Hs. rewrite Forall_forall in Hs.
    apply Hs, list_elem_of_In, Hrun. }
  split.
  { intros Hflows.
    assert (Hgroup : Forall plausible (sorted_group (snd g))).
    { apply Forall_forall. intros r Hr. apply list_elem_of_In in Hr.
      apply (Permutation_in _ Hperm) in Hr. rewrite Hrows in Hr.
      apply filter_In in Hr as [Hr _].
      rewrite Forall_forall in Hflows. apply Hflows, list_elem_of_In, Hr. }
    pose proof (split_on_gaps_within (gap_ms self) _ Hgroup) as Hwithin.
    rewrite Forall_forall in Hwithin. apply Hwithin, list_elem_of_In, Hrun. }
  rewrite <- (Permutation_length Hperm), <- Hcat.
  apply in_concat_length, Hrun.
Qed.

(** X1. For start times between [-2^62] and [2^62], every session
    returned by [build_sessions] satisfies the session invariant: it is
    non-empty, has at least [min_length] flows, all from one source address
    and all taken from the input, in ascending order of start time, with
    consecutive flows at most [gap_ms] apart. *)
Theorem sessions_are_well_formed (self : SessionBuilder) (flows : list Flow) :
  Forall plausible flows ->
  Forall (well_formed_session self flows) (build_sessions self flows).
Proof.
  intros Hflows.
  apply Forall_forall. intros s Hs. apply list_elem_of_In in Hs.
  destruct (session_origin self flows s Hs) as (g & run & Hg & Hrun & Hcreate).
  destruct (create_session_some self run (fst g) s Hcreate) as (Hrows & Hlen & _).
  destruct (run_facts self flows g run Hg Hrun)
    as (Hne & Hall & Hsorted & Hwithin & _).
  unfold well_formed_session. rewrite Hrows.
  repeat split; try assumption.
  - exists (fst g). eapply Forall_impl; [exact Hall|]. intros r [H _]. exact H.
  - apply Hwithin, Hflows.
  - eapply Forall_impl; [exact Hall|]. intros r [_ H]. exact H.
Qed.

Lemma sessions_are_well_formed_witness :
  Forall (well_formed_session (__init__ None None) LabelSpec.mixed_flows)
         (build_sessions (__init__ None None) LabelSpec.mixed_flows).
Proof.
  apply (sessions_are_well_formed (__init__ None None) LabelSpec.mixed_flows).
  unfold LabelSpec.mixed_flows.
  repeat (apply List.Forall_cons; [unfold plausible; simpl; lia|]).
  apply List.Forall_nil.
Defined.

(** X2. The identifier of a session is its source address, an
    underscore, and the decimal start time of its first (earliest) flow. *)
Theorem session_id_names_source_and_earliest_start (self : SessionBuilder)
    (flows : list Flow) :
  Forall
    (fun s =>
       exists r0 rest,
         session_rows s = r0 :: rest
         /\ Forall (fun r => (FLOW_START_MILLISECONDS r0
                              <= FLOW_START_MILLISECONDS r)%Z) rest
         /\ session_id s
            = IPV4_SRC_ADDR r0 +:+ "_" +:+ pretty (FLOW_START_MILLISECONDS r0))
    (build_sessions self flows).
Proof.
  apply Forall_forall. intros s Hs. apply list_elem_of_In in Hs.
  destruct (session_origin self flows s Hs) as (g & run & Hg & Hrun & Hcreate).
  destruct (create_session_some self run (fst g) s Hcreate) as (Hrows & _ & Hid).
  destruct (run_facts self flows g run Hg Hrun)
    as (Hne & Hall & Hsorted & _ & _).
  destruct run as [|r0 rest]; [contradiction|].
  exists r0, rest. split; [exact Hrows|]. split.
  - apply (Sorted_StronglySorted time_le_trans) in Hsorted.
    apply StronglySorted_inv in Hsorted as [_ H]. exact H.
  - rewrite Hid, (series_min_sorted r0 rest Hsorted).
    apply Forall_inv in Hall as [-> _]. reflexivity.
Qed.

Lemma Permutation_eq_concat_map {A B : Type} (F G : A -> list B) (l : list A) :
  (forall a, In a l -> Permutation (F a) (G a)) ->
  Permutation (concat (List.map F l)) (concat (List.map G l)).
Proof.
  induction l as [|a l IH]; intros H; [reflexivity|].
  cbn [List.map concat]. apply Permutation_app.
  - apply H. left. reflexivity.
  - apply IH. intros a' Ha'. apply H. right. exact Ha'.
Qed.

Lemma filter_sublist {A : Type} (f : A -> bool) (l : list A) :
  sublist (List.filter f l) l.
Proof.
  induction l as [|x l IH]; cbn [List.filter]; [constructor|].
  destruct (f x); [apply sublist_skip | apply sublist_cons]; exact IH.
Qed.

Lemma concat_sublist {A : Type} (l1 l2 : list (list A)) :
  sublist l1 l2 -> sublist (concat l1) (concat l2).
Proof.
  induction 1 as [|x l1 l2 _ IH|x l1 l2 _ IH]; cbn [concat].
  - constructor.
  - apply sublist_app; [reflexivity | exact IH].
  - apply sublist_inserts_l. exact IH.
Qed.

Lemma concat_concat_map {A B : Type} (F : A -> list (list B)) (l : list A) :
  concat (concat (List.map F l)) = concat (List.map (fun a => concat (F a)) l).
Proof.
  induction l as [|a l IH]; [reflexivity|].
  cbn [List.map concat]. rewrite concat_app, IH. reflexivity.
Qed.

Lemma concat_map_submseteq {A B : Type} (F G : A -> list B) (l : list A) :
  (forall a, In a l -> F a ⊆+ G a) ->
  concat (List.map F l) ⊆+ concat (List.map G l).
Proof.
  induction l as [|a l IH]; intros H; [reflexivity|].
  cbn [List.map concat]. apply submseteq_app.
  - apply H. left. reflexivity.
  - apply IH. intros a' Ha'. apply H. right. exact Ha'.
Qed.

(** The flows of the sessions, session after session. *)
Definition session_flows (self : SessionBuilder) (flows : list Flow) : list Flow :=
  concat (List.map session_rows (build_sessions self flows)).

Lemma session_flows_by_group (self : SessionBuilder) (flows : list Flow) :
  session_flows self flows
  = concat
      (List.map
         (fun g =>
            concat
              (List.filter
                 (fun run => (min_length self <=? Z.of_nat (length run))%Z)
                 (split_on_gaps (gap_ms self) (sorted_group (snd g)))))
         (by_source flows)).
Proof.
  unfold session_flows, by_source.
  rewrite build_sessions_rows. apply concat_concat_map.
Qed.

Lemma session_flows_submseteq (self : SessionBuilder) (flows : list Flow) :
  session_flows self flows ⊆+ flows.
Proof.
  pose proof (groupby_partition String.eqb String.leb IPV4_SRC_ADDR
                String.eqb_eq flows) as Hpart.
  fold (by_source flows) in Hpart.
  rewrite session_flows_by_group. rewrite <- Hpart at 2.
  apply concat_map_submseteq. intros g _.
  destruct (split_on_gaps_props (gap_ms self) (sorted_group (snd g)))
    as (Hcat & _).
  transitivity (concat (split_on_gaps (gap_ms self) (sorted_group (snd g)))).
  - apply sublist_submseteq, concat_sublist, filter_sublist.
  - rewrite Hcat. apply Permutation_submseteq, sorted_group_perm.
Qed.

(** X3. No flow is invented or used twice: the flows of all sessions
    together form a sub-multiset of the input table.  When the minimum
    length is at most 1 nothing is discarded and the sessions hold every
    input flow exactly once. *)
Theorem sessions_use_each_flow_at_most_once (self : SessionBuilder)
    (flows : list Flow) :
  session_flows self flows ⊆+ flows
  /\ ((min_length self <= 1)%Z -> Permutation (session_flows self flows) flows).
Proof.
  split; [apply session_flows_submseteq|].
  pose proof (groupby_partition String.eqb String.leb IPV4_SRC_ADDR
                String.eqb_eq flows) as Hpart.
  fold (by_source flows) in Hpart.
  rewrite session_flows_by_group.
  - intros Hmin. rewrite <- Hpart at 2.
    apply Permutation_eq_concat_map. intros g Hg.
    destruct (in_by_source flows g Hg) as [_ Hne].
    destruct (split_on_gaps_props (gap_ms self) (sorted_group (snd g)))
      as (Hcat & Hnonempty).
    pose proof (sorted_group_perm (snd g)) as Hperm.
    assert (Hsorted_ne : sorted_group (snd g) <> []).
    { intros E. rewrite E in Hperm. apply Permutation_nil in Hperm.
      contradiction. }
    specialize (Hnonempty Hsorted_ne).
    assert (Hkeep :
      List.filter (fun run => (min_length self <=? Z.of_nat (length run))%Z)
                  (split_on_gaps (gap_ms self) (sorted_group (snd g)))
      = split_on_gaps (gap_ms self) (sorted_group (snd g))).
    { clear Hcat.
      induction Hnonempty as [|run runs Hrun _ IH]; [reflexivity|].
      cbn [List.filter].
      replace (min_length self <=? Z.of_nat (length run))%Z with true.
      - rewrite IH. reflexivity.
      - symmetry. apply Z.leb_le. destruct run; [contradiction|].
        cbn [length]. lia. }
    rewrite Hkeep, Hcat. exact Hperm.
Qed.

(** X4. A source address with fewer than [min_length] flows in the table
    contributes to no session. *)
Theorem short_sources_form_no_session (self : SessionBuilder)
    (flows : list Flow) (ip : string) :
  (Z.of_nat (length (List.filter (fun r => String.eqb (IPV4_SRC_ADDR r) ip) flows))
   < min_length self)%Z ->
  Forall (fun s => Forall (fun r => IPV4_SRC_ADDR r <> ip) (session_rows s))
         (build_sessions self flows).
Proof.
  intros Hfew. apply Forall_forall. intros s Hs. apply list_elem_of_In in Hs.
  destruct (session_origin self flows s Hs) as (g & run & Hg & Hrun & Hcreate).
  destruct (create_session_some self run (fst g) s Hcreate) as (Hrows & Hlen & _).
  destruct (run_facts self flows g run Hg Hrun) as (_ & Hall & _ & _ & Hle).
  destruct (in_by_source flows g Hg) as [Hgroup _].
  rewrite Hrows. eapply Forall_impl; [exact Hall|].
  intros r [Hsrc _] Hip. cbn beta in Hsrc. rewrite Hsrc in Hip.
  rewrite Hgroup, Hip in Hle. lia.
Qed.

Lemma short_sources_witness :
  Forall (fun s => Forall (fun r => IPV4_SRC_ADDR r <> "10.0.0.9"%string)
                          (session_rows s))
         (build_sessions (__init__ None None) LabelSpec.mixed_flows).
Proof.
  apply (short_sources_form_no_session (__init__ None None)
           LabelSpec.mixed_flows "10.0.0.9").
  vm_compute. reflexivity.
Defined.

End SessionFacts.

(** ** The feature matrix *)

(** A [StandardScaler] whose fit centres nothing and scales by one. *)
Definition identity_sklearn : SkLearn :=
  {| scaler_fit := fun _ =>
       Returned {| mean_ := repeat 0%float 12; scale_ := repeat 1%float 12 |} |}.

Module ExtractorFacts.
Import Extractor ExtractorSpec.

(** The three protocol indicators of a flow, as a triple. *)
Definition protocol_indicators (protocol : Z) : float * float * float :=
  if (protocol =? 6)%Z then (1, 0, 0)%float
  else if (protocol =? 17)%Z then (0, 1, 0)%float
  else if (protocol =? 1)%Z then (0, 0, 1)%float
  else (0, 0, 0)%float.

Definition start_time (f : Flow) : float :=
  float_of_Z (FLOW_START_MILLISECONDS f).

Lemma rows_of_columns_lookup (n : nat) (cols : list (list float)) (i : nat) :
  (i < n)%nat ->
  rows_of_columns n cols !! i = Some (List.map (fun c => nth i c 0%float) cols).
Proof.
  intros Hi. unfold rows_of_columns.
  rewrite lookup_map, lookup_seq_lt by exact Hi. reflexivity.
Qed.

Lemma nth_map_lookup {A : Type} (g : A -> float) (l : list A) (i : nat) (x : A) :
  l !! i = Some x -> nth i (List.map g l) 0%float = g x.
Proof.
  revert i; induction l as [|y l IH]; intros [|i] H; try discriminate H.
  - injection H as ->. reflexivity.
  - cbn [List.map nth]. apply IH. exact H.
Qed.

Lemma lookup_removelast {A : Type} (l : list A) (i : nat) :
  (S i < length l)%nat -> removelast l !! i = l !! i.
Proof.
  revert i; induction l as [|x l IH]; intros i Hi; [cbn in Hi; lia|].
  destruct l as [|y l]; [cbn in Hi; lia|].
  change (removelast (x :: y :: l)) with (x :: removelast (y :: l)).
  destruct i as [|i]; [reflexivity|].
  cbn [lookup list_lookup]. apply IH. cbn in Hi |- *. lia.
Qed.

Lemma clip_zero : clip 0%float 0%float 10000000000%float = 0%float.
Proof. vm_compute. reflexivity. Qed.

Lemma clip_negative (x : float) :
  PrimFloat.ltb x 0%float = true ->
  clip x 0%float 10000000000%float = 0%float.
Proof. intros H. unfold clip. rewrite H. vm_compute. reflexivity. Qed.

Section WithNumLib.
Context {nl : NumLib}.

Lemma extract_length (flows : list Flow) :
  length (_extract_features flows) = length flows.
Proof.
  unfold _extract_features, rows_of_columns.
  rewrite length_map, length_seq. reflexivity.
Qed.

(** X5. The extracted matrix has one row of twelve features per flow, and
    in every row exactly the indicator of the flow's protocol is 1 (TCP 6,
    UDP 17, ICMP 1); for any other protocol number all three are 0. *)
Theorem protocol_indicators_are_one_hot (flows : list Flow) :
  Forall2
    (fun f row =>
       length row = 12%nat
       /\ exists tcp udp icmp,
            row !! 8%nat = Some tcp /\ row !! 9%nat = Some udp
            /\ row !! 10%nat = Some icmp
            /\ (tcp, udp, icmp) = protocol_indicators (PROTOCOL f))
    flows (_extract_features flows).
Proof.
  apply Forall2_same_length_lookup. split; [symmetry; apply extract_length|].
  intros i f row Hf Hrow.
  assert (Hi : (i < length flows)%nat) by (apply lookup_lt_is_Some; eauto).
  unfold _extract_features in Hrow. cbn zeta in Hrow.
  rewrite rows_of_columns_lookup in Hrow by exact Hi.
  injection Hrow as <-. split; [reflexivity|].
  cbn [List.map lookup list_lookup].
  do 3 eexists. repeat (split; [reflexivity|]).
  rewrite !List.map_map, !(nth_map_lookup _ flows i f Hf).
  unfold protocol_indicators, float_of_bool, Config.PROTO_TCP, Config.PROTO_UDP,
    Config.PROTO_ICMP.
  destruct (Z.eqb_spec (PROTOCOL f) 6) as [E|]; [rewrite E; reflexivity|].
  destruct (Z.eqb_spec (PROTOCOL f) 17) as [E|]; [rewrite E; reflexivity|].
  destruct (Z.eqb_spec (PROTOCOL f) 1) as [E|]; reflexivity.
Qed.

(** X6. Feature 6 (inter-arrival time) of the first flow of a table is
    [log1p(0)]; for every later flow it is [log1p] of the difference
    between its start time and that of the flow just before it, clipped
    to [0, 1e10], so a negative difference (unsorted input) also gives
    [log1p(0)]. *)
Theorem inter_arrival_feature (before after : list Flow) (a b : Flow) :
  (exists row,
     _extract_features (a :: after) !! 0%nat = Some row
     /\ row !! 5%nat = Some (log1p 0%float))
  /\ exists row,
       _extract_features (before ++ a :: b :: after) !! S (length before)
       = Some row
       /\ row !! 5%nat
          = Some (log1p (clip (PrimFloat.sub (start_time b) (start_time a))
                              0%float 10000000000%float))
       /\ (PrimFloat.ltb (PrimFloat.sub (start_time b) (start_time a)) 0%float
           = true ->
           row !! 5%nat = Some (log1p 0%float)).
Proof.
  split.
  - eexists. split.
    + unfold _extract_features. cbn zeta.
      apply rows_of_columns_lookup. cbn [length]. lia.
    + cbn [List.map lookup list_lookup]. f_equal.
      destruct after as [|c after]; cbn; reflexivity.
  - set (flows := before ++ a :: b :: after).
    assert (Hlen : length flows = (length before + S (S (length after)))%nat).
    { unfold flows. rewrite length_app. reflexivity. }
    assert (Ha : flows !! length before = Some a).
    { unfold flows. rewrite lookup_app_r by lia. rewrite Nat.sub_diag.
      reflexivity. }
    assert (Hb : flows !! S (length before) = Some b).
    { unfold flows. rewrite lookup_app_r by lia.
      replace (S (length before) - length before)%nat with 1%nat by lia.
      reflexivity. }
    assert (Hfeature :
      exists row,
        _extract_features flows !! S (length before) = Some row
        /\ row !! 5%nat
           = Some (log1p (clip (PrimFloat.sub (start_time b) (start_time a))
                               0%float 10000000000%float))).
    { eexists. split.
      - unfold _extract_features. cbn zeta.
        apply rows_of_columns_lookup. lia.
      - cbn [List.map lookup list_lookup]. f_equal.
        replace (1 <? length flows)%nat with true
          by (symmetry; apply Nat.ltb_lt; lia).
        set (times := List.map (fun r => float_of_Z (FLOW_START_MILLISECONDS r))
                               flows).
        assert (Htb : tail times !! length before = Some (start_time b)).
        { rewrite lookup_tail. unfold times. rewrite lookup_map, Hb.
          reflexivity. }
        assert (Hta : removelast times !! length before = Some (start_time a)).
        { rewrite lookup_removelast.
          - unfold times. rewrite lookup_map, Ha. reflexivity.
          - unfold times. rewrite length_map. lia. }
        rewrite !List.map_map.
        erewrite nth_map_lookup; [reflexivity|].
        change (zip_with PrimFloat.sub (tail times) (removelast times)
                  !! length before
                = Some (PrimFloat.sub (start_time b) (start_time a))).
        rewrite lookup_zip_with, Htb. cbn [mbind option_bind].
        rewrite Hta. reflexivity. }
    destruct Hfeature as (row & Hrow & H5).
    exists row. split; [exact Hrow|]. split; [exact H5|].
    intros Hneg. rewrite H5, (clip_negative _ Hneg). reflexivity.
Qed.

(** X7. After a successful [fit_transform] the extractor is fitted, and
    [transform] of the same flows returns the matrix [fit_transform]
    returned; with [normalize] off it still returns the raw features. *)
Theorem transform_agrees_with_fit_transform {sk : SkLearn}
    (self self' : FlowFeatureExtractor) (flows : list Flow)
    (out : list (list float)) :
  fit_transform self flows = (Returned out, self') ->
  _is_fitted self' = true
  /\ transform self' flows true = Returned out
  /\ forall flows' : list Flow,
       transform self' flows' false = Returned (_extract_features flows').
Proof.
  unfold fit_transform.
  destruct (scaler_fit (_extract_features flows)) as [p|e]; [|discriminate].
  intros [= Hout <-]. split; [reflexivity|].
  split; [|reflexivity].
  unfold transform. cbn [_is_fitted scaler andb]. exact Hout.
Qed.

End WithNumLib.

Lemma transform_agrees_witness :
  exists out,
    @fit_transform sample_numlib identity_sklearn Extractor.__init__ [udp_flow]
    = (Returned out,
       {| scaler := Some {| mean_ := repeat 0%float 12;
                            scale_ := repeat 1%float 12 |};
          _is_fitted := true |})
    /\ @transform sample_numlib
         {| scaler := Some {| mean_ := repeat 0%float 12;
                              scale_ := repeat 1%float 12 |};
            _is_fitted := true |} [udp_flow] true
       = Returned out.
Proof.
  eexists. split; [vm_compute; reflexivity|].
  apply (@transform_agrees_with_fit_transform sample_numlib identity_sklearn
           Extractor.__init__ _ [udp_flow] _).
  vm_compute. reflexivity.
Defined.

End ExtractorFacts.

(** ** State signatures *)

Module AnalyzerFacts.
Import Pandas PandasFacts Analyzer.

Section SortByInteger.
Context {A : Type} (key : A -> Z).

Definition key_le (a b : A) : Prop := (key a <= key b)%Z.

Lemma insert_sorted_key_hd (x y : A) (l : list A) :
  key_le y x -> HdRel key_le y l ->
  HdRel key_le y (insert_sorted Z.leb key x l).
Proof.
  intros Hyx Hl. destruct l as [|z l]; cbn [insert_sorted].
  - constructor; exact Hyx.
  - destruct (Z.leb _ _); constructor; [exact Hyx|].
    inversion Hl; assumption.
Qed.

Lemma insert_sorted_key_sorted (x : A) (l : list A) :
  Sorted key_le l -> Sorted key_le (insert_sorted Z.leb key x l).
Proof.
  induction 1 as [|y l Hl IH Hhd]; cbn [insert_sorted].
  - repeat constructor.
  - destruct (Z.leb_spec (key x) (key y)) as [Hle|Hgt].
    + repeat constructor; assumption.
    + constructor; [exact IH|].
      apply insert_sorted_key_hd; [unfold key_le; lia | exact Hhd].
Qed.

Lemma sort_values_key_sorted (l : list A) :
  Sorted key_le (sort_values Z.leb key l).
Proof.
  induction l as [|x l IH]; [constructor|].
  cbn [sort_values]. apply insert_sorted_key_sorted, IH.
Qed.

(** Sorting a table that is already in order changes nothing. *)
Lemma sort_values_sorted_id (l : list A) :
  Sorted key_le l -> sort_values Z.leb key l = l.
Proof.
  induction 1 as [|x l Hl IH Hhd]; [reflexivity|].
  cbn [sort_values]. rewrite IH.
  destruct Hhd as [|y l' Hxy]; [reflexivity|].
  cbn [insert_sorted]. unfold key_le in Hxy.
  destruct (Z.leb_spec (key x) (key y)); [reflexivity | lia].
Qed.

End SortByInteger.

Definition states_of (flows : list LabeledFlow) : list Z :=
  group_keys Z.eqb Z.leb HMM_STATE flows.

Definition flows_in_state (flows : list LabeledFlow) (state : Z) : list LabeledFlow :=
  List.filter (fun r => (HMM_STATE r =? state)%Z) flows.

Lemma states_of_sorted (flows : list LabeledFlow) :
  StronglySorted Z.lt (states_of flows).
Proof.
  pose proof (NoDup_group_keys Z.eqb Z.leb HMM_STATE Z.eqb_eq flows) as Hnd.
  pose proof (sort_values_key_sorted (fun k : Z => k)
                (unique Z.eqb (List.map HMM_STATE flows))) as Hs.
  fold (group_keys Z.eqb Z.leb HMM_STATE flows) in Hs.
  fold (states_of flows) in Hnd, Hs.
  assert (Htrans : Relations_1.Transitive (key_le (fun k : Z => k))).
  { intros a b c. unfold key_le. lia. }
  apply (Sorted_StronglySorted Htrans) in Hs.
  induction Hs as [|k ks Hks IH Hall]; [constructor|].
  inversion Hnd as [|? ? Hnotin Hnd']; subst.
  constructor; [apply IH, Hnd'|].
  rewrite Forall_forall in Hall |- *. intros k' Hk'.
  specialize (Hall k' Hk'). unfold key_le in Hall.
  assert (k <> k') by (intros ->; apply Hnotin, list_elem_of_In, Hk').
  lia.
Qed.

Section WithNumLib.
Context {nl : NumLib}.

Definition signature_of_group (g : Z * list LabeledFlow) : StateSignature :=
  _compute_signature (fst g) (snd g).

Lemma state_ids_of_groups (flows : list LabeledFlow) :
  List.map state_id
    (List.map signature_of_group (groupby Z.eqb Z.leb HMM_STATE flows))
  = states_of flows.
Proof.
  rewrite List.map_map. cbn [signature_of_group _compute_signature state_id].
  apply (groupby_keys Z.eqb Z.leb HMM_STATE).
Qed.

Lemma analyze_unsorted (flows : list LabeledFlow) :
  analyze flows
  = List.map signature_of_group (groupby Z.eqb Z.leb HMM_STATE flows).
Proof.
  unfold analyze. cbn zeta.
  change (fun g : Z * list LabeledFlow => _compute_signature (fst g) (snd g))
    with signature_of_group.
  apply sort_values_sorted_id.
  pose proof (states_of_sorted flows) as Hs.
  rewrite <- state_ids_of_groups in Hs.
  induction (List.map signature_of_group (groupby Z.eqb Z.leb HMM_STATE flows))
    as [|sig sigs IH]; [constructor|].
  cbn [List.map] in Hs. apply StronglySorted_inv in Hs as [Hrest Hall].
  constructor; [apply IH, Hrest|].
  destruct sigs as [|sig' sigs]; constructor.
  cbn [List.map] in Hall. apply Forall_inv in Hall. unfold key_le. lia.
Qed.

(** X8. [analyze] returns one signature per state that occurs in the
    table, in strictly ascending order of state id, and the [flow_count]
    of each signature is the number of flows carrying its state, which is
    at least 1. *)
Theorem analyze_one_signature_per_state (flows : list LabeledFlow) :
  StronglySorted Z.lt (List.map state_id (analyze flows))
  /\ (forall state : Z,
        In state (List.map state_id (analyze flows))
        <-> exists r, In r flows /\ HMM_STATE r = state)
  /\ Forall
       (fun sig =>
          flow_count sig
          = Z.of_nat (length (flows_in_state flows (state_id sig)))
          /\ (1 <= flow_count sig)%Z)
       (analyze flows).
Proof.
  rewrite analyze_unsorted, state_ids_of_groups.
  split; [apply states_of_sorted|].
  split; [intros state; apply (in_group_keys Z.eqb Z.leb HMM_STATE Z.eqb_eq)|].
  rewrite Forall_map. apply Forall_forall. intros g Hg.
  apply list_elem_of_In in Hg.
  destruct (in_groupby Z.eqb Z.leb HMM_STATE flows g Hg) as [Hkey Hrows].
  cbn [signature_of_group _compute_signature flow_count state_id].
  unfold flows_in_state. rewrite <- Hrows. split; [reflexivity|].
  apply (in_group_keys Z.eqb Z.leb HMM_STATE Z.eqb_eq) in Hkey
    as (r & Hr & Hstate).
  assert (Hin : In r (snd g)).
  { rewrite Hrows. apply filter_In. split; [exact Hr|].
    apply Z.eqb_eq. exact Hstate. }
  destruct (snd g); [destruct Hin | cbn [length]; lia].
Qed.

End WithNumLib.

(** The three counts behind the port-category distribution. *)
Definition port_counts (ports : list Z) : Z * Z * Z :=
  (count_where (fun p => (0 <=? p)%Z && (p <=? 1023)%Z) ports,
   count_where (fun p => (1024 <=? p)%Z && (p <=? 49151)%Z) ports,
   count_where (fun p => (49152 <=? p)%Z) ports).

Lemma port_counts_total (ports : list Z) :
  let '(w, r, e) := port_counts ports in
  (w + r + e)%Z = count_where (fun p => (0 <=? p)%Z) ports.
Proof.
  unfold port_counts, count_where.
  induction ports as [|p ports IH]; [reflexivity|].
  cbn [List.filter].
  destruct (Z.leb_spec 0 p), (Z.leb_spec p 1023), (Z.leb_spec 1024 p),
    (Z.leb_spec p 49151), (Z.leb_spec 49152 p); cbn [andb length]; lia.
Qed.

Lemma count_where_all {A : Type} (f : A -> bool) (l : list A) :
  count_where f l = Z.of_nat (length l) <-> Forall (fun x => f x = true) l.
Proof.
  unfold count_where. induction l as [|x l IH]; cbn [List.filter length].
  - split; [constructor | reflexivity].
  - pose proof (List.filter_length_le f l) as Hle.
    destruct (f x) eqn:Ex; cbn [length].
    + rewrite Forall_cons_iff, <- IH.
      split; [intros H; split; [exact Ex | lia] | intros [_ H]; lia].
    + split; [lia|]. intros H. apply Forall_inv in H. congruence.
Qed.

(** X9. For a non-empty list of destination ports the port-category
    distribution has exactly the keys 0, 1 and 2, each holding its count
    over the number of ports; a negative port is counted in no category,
    so the three counts add up to the number of ports exactly when no port
    is negative. *)
Theorem port_category_dist_counts (ports : list Z) :
  ports <> [] ->
  let '(w, r, e) := port_counts ports in
  let n := float_of_Z (Z.of_nat (length ports)) in
  _compute_port_category_dist ports !! 0%Z = Some (PrimFloat.div (float_of_Z w) n)
  /\ _compute_port_category_dist ports !! 1%Z = Some (PrimFloat.div (float_of_Z r) n)
  /\ _compute_port_category_dist ports !! 2%Z = Some (PrimFloat.div (float_of_Z e) n)
  /\ dom (_compute_port_category_dist ports) = ({[0%Z; 1%Z; 2%Z]} : gset Z)
  /\ ((w + r + e)%Z = Z.of_nat (length ports) <-> Forall (fun p => (0 <= p)%Z) ports).
Proof.
  intros Hne.
  pose proof (port_counts_total ports) as Htotal.
  unfold port_counts in *. cbn zeta.
  unfold _compute_port_category_dist.
  replace (Z.of_nat (length ports) =? 0)%Z with false
    by (symmetry; apply Z.eqb_neq; destruct ports; [contradiction | cbn; lia]).
  cbn zeta.
  split; [apply lookup_insert_eq|].
  split; [rewrite lookup_insert_ne, lookup_insert_eq by discriminate; reflexivity|].
  split; [rewrite !lookup_insert_ne, lookup_insert_eq by discriminate; reflexivity|].
  split; [rewrite !dom_insert_L, dom_empty_L; set_solver|].
  rewrite Htotal, count_where_all.
  split; intros H; (eapply Forall_impl; [exact H|]); intros p Hp;
    apply Z.leb_le; exact Hp.
Qed.

Lemma port_category_dist_witness :
  let '(w, r, e) := port_counts [22; -1; 50000]%Z in
  let n := float_of_Z (Z.of_nat (length [22; -1; 50000]%Z)) in
  _compute_port_category_dist [22; -1; 50000]%Z !! 0%Z
  = Some (PrimFloat.div (float_of_Z w) n)
  /\ _compute_port_category_dist [22; -1; 50000]%Z !! 1%Z
     = Some (PrimFloat.div (float_of_Z r) n)
  /\ _compute_port_category_dist [22; -1; 50000]%Z !! 2%Z
     = Some (PrimFloat.div (float_of_Z e) n)
  /\ dom (_compute_port_category_dist [22; -1; 50000]%Z)
     = ({[0%Z; 1%Z; 2%Z]} : gset Z)
  /\ ((w + r + e)%Z = Z.of_nat (length [22; -1; 50000]%Z)
      <-> Forall (fun p => (0 <= p)%Z) [22; -1; 50000]%Z).
Proof.
  apply (port_category_dist_counts [22; -1; 50000]%Z). discriminate.
Defined.

End AnalyzerFacts.

(** ** The mapping table *)

Module MapperFacts.
Import MitreMapper MapperSpec.

Lemma profile_at (k : nat) (p : TacticProfile) :
  profiles !! k = Some p ->
  (k = 1%nat /\ p = mkTacticProfile "Discovery" _reconnaissance_score)
  \/ (In (tactic p) ["Reconnaissance"; "Credential Access"; "Lateral Movement";
                     "Command and Control"; "Exfiltration"; "Benign"]%string).
Proof.
  destruct k as [|[|[|[|[|[|[|k]]]]]]]; cbn; intros [= <-]; cbn [tactic];
    first [left; split; reflexivity | right; cbn; tauto].
Qed.

Lemma positive_not_zero (x : float) :
  PrimFloat.ltb 0%float x = true -> x <> 0%float.
Proof. intros H E. rewrite E in H. vm_compute in H. discriminate H. Qed.

(** X10. [map] never answers "Discovery": that profile shares its score
    function with "Reconnaissance", which is declared before it and
    therefore wins every tie between the two. *)
Theorem map_never_returns_discovery (sig : StateSignature) :
  fst (map sig) <> "Discovery"%string.
Proof.
  destruct (map_spec sig) as [_ [[E _] | (k & p & Hk & E & _ & _ & Hearlier)]];
    rewrite E; cbn [fst]; [discriminate|].
  destruct (profile_at k p Hk) as [[-> ->] | Hin].
  - exfalso.
    specialize (Hearlier 0%nat (mkTacticProfile "Reconnaissance" _reconnaissance_score)
                  ltac:(lia) eq_refl).
    cbn [score_fn] in Hearlier.
    destruct (reconnaissance_score_ranked sig) as [i Hi].
    apply (ranked_ltb _ _ i i Hi Hi) in Hearlier. lia.
  - intros Ed. rewrite Ed in Hin. cbn in Hin.
    repeat (destruct Hin as [Hin | Hin]; [discriminate Hin|]). exact Hin.
Qed.

(** X11. [map] answers "Unknown" exactly when every profile scores 0,
    which is exactly when the confidence is 0; any other answer carries a
    confidence of at least 0.1. *)
Theorem map_unknown_iff_all_scores_zero (sig : StateSignature) :
  (fst (map sig) = "Unknown"%string
   <-> forall q, In q profiles -> score_fn q sig = 0%float)
  /\ (fst (map sig) = "Unknown"%string <-> snd (map sig) = 0%float)
  /\ (fst (map sig) <> "Unknown"%string ->
      PrimFloat.leb 0.1%float (snd (map sig)) = true).
Proof.
  destruct (map_spec sig) as [Hrank [[E Hzero] | (k & p & Hk & E & Hpos & _ & _)]].
  - rewrite E. cbn [fst snd]. repeat split; auto; intros H; contradiction.
  - assert (Hname : tactic p <> "Unknown"%string).
    { destruct (profile_at k p Hk) as [[_ ->] | Hin]; [discriminate|].
      intros Ed. rewrite Ed in Hin. cbn in Hin.
      repeat (destruct Hin as [Hin | Hin]; [discriminate Hin|]). exact Hin. }
    assert (Hin : In p profiles).
    { apply list_elem_of_In, list_elem_of_lookup. exists k. exact Hk. }
    rewrite E in Hrank |- *. cbn [fst snd] in Hrank |- *.
    split; [|split].
    + split; [contradiction|]. intros Hzero. exfalso.
      apply (positive_not_zero _ Hpos), Hzero, Hin.
    + split; [contradiction|]. intros Hz. exfalso.
      apply (positive_not_zero _ Hpos), Hz.
    + intros _. destruct Hrank as [i Hi].
      apply (ranked_ltb _ _ 0 i ranked_zero Hi) in Hpos.
      assert (H1 : ranked 0.1%float 1) by (split; [cbn; lia | reflexivity]).
      apply (ranked_leb _ _ 1 i H1 Hi). lia.
Qed.

Lemma map_all_snoc (signatures : list StateSignature) (sig : StateSignature) :
  map_all (signatures ++ [sig])
  = <[state_id sig := map sig]> (map_all signatures).
Proof. unfold map_all. rewrite fold_left_app. reflexivity. Qed.

Lemma map_all_distinct (signatures : list StateSignature) :
  List.NoDup (List.map state_id signatures) ->
  forall sig, In sig signatures ->
    map_all signatures !! state_id sig = Some (map sig).
Proof.
  induction signatures as [|sig sigs IH] using rev_ind; intros Hnd x Hx;
    [destruct Hx|].
  rewrite map_all_snoc. rewrite map_app in Hnd.
  apply NoDup_ListNoDup, NoDup_app in Hnd as (Hnd1 & Hdisj & _).
  apply in_app_iff in Hx as [Hx | [<- | []]].
  - rewrite lookup_insert_ne.
    + apply IH; [apply NoDup_ListNoDup, Hnd1 | exact Hx].
    + intros E. apply (Hdisj (state_id x)).
      * apply list_elem_of_In, in_map, Hx.
      * rewrite <- E. cbn. left.
  - apply lookup_insert_eq.
Qed.

Lemma map_all_last (signatures : list StateSignature) (state : Z) :
  map_all signatures !! state
  = map <$> last (List.filter (fun sig => (state_id sig =? state)%Z) signatures).
Proof.
  induction signatures as [|sig sigs IH] using rev_ind; [apply lookup_empty|].
  rewrite map_all_snoc, List.filter_app. cbn [List.filter].
  destruct (Z.eqb_spec (state_id sig) state) as [E|Hne].
  - rewrite E, lookup_insert_eq, last_snoc. reflexivity.
  - rewrite lookup_insert_ne by exact Hne. rewrite app_nil_r. exact IH.
Qed.

(** X12. The table built by [map_all] holds for every state the [map]
    result of the last signature with that id: of signatures sharing an
    id the latest wins, wherever in the list they stand.  So a state
    without signature has no entry, the keys are exactly the ids of the
    signatures, and with pairwise distinct ids every signature's entry is
    its own [map] result. *)
Theorem map_all_lookup (signatures : list StateSignature) :
  (forall state : Z,
     map_all signatures !! state
     = map <$> last (List.filter (fun sig => (state_id sig =? state)%Z)
                                 signatures))
  /\ (forall state : Z,
        ~ In state (List.map state_id signatures) ->
        map_all signatures !! state = None)
  /\ (List.NoDup (List.map state_id signatures) ->
      forall sig, In sig signatures ->
        map_all signatures !! state_id sig = Some (map sig))
  /\ (forall (before between after : list StateSignature)
             (earlier later : StateSignature),
        signatures = before ++ earlier :: between ++ later :: after ->
        state_id earlier = state_id later ->
        Forall (fun sig => state_id sig <> state_id later) after ->
        map_all signatures !! state_id later = Some (map later))
  /\ dom (map_all signatures)
     = (list_to_set (List.map state_id signatures) : gset Z).
Proof.
  split; [apply map_all_last|]. split; [|split; [|split]].
  - induction signatures as [|sig sigs IH] using rev_ind; intros state Hnot.
    + apply lookup_empty.
    + rewrite map_all_snoc. rewrite map_app, in_app_iff in Hnot.
      rewrite lookup_insert_ne.
      * apply IH. tauto.
      * intros E. apply Hnot. right. left. exact E.
  - apply map_all_distinct.
  - intros before between after earlier later -> Hid Hafter.
    rewrite map_all_last.
    replace (before ++ earlier :: between ++ later :: after)
      with ((before ++ earlier :: between) ++ [later] ++ after)
      by (rewrite <- !app_assoc; reflexivity).
    rewrite !List.filter_app. cbn [List.filter].
    rewrite Z.eqb_refl.
    replace (List.filter (fun sig => (state_id sig =? state_id later)%Z) after)
      with (@nil StateSignature).
    + rewrite app_nil_r, last_snoc. reflexivity.
    + symmetry. induction Hafter as [|sig after Hsig _ IH]; [reflexivity|].
      cbn [List.filter]. destruct (Z.eqb_spec (state_id sig) (state_id later));
        [contradiction | exact IH].
  - induction signatures as [|sig sigs IH] using rev_ind.
    + apply dom_empty_L.
    + rewrite map_all_snoc, dom_insert_L, IH, map_app.
      change (List.map state_id sigs ++ List.map state_id [sig])
        with (List.map state_id sigs ++ [state_id sig]).
      rewrite list_to_set_app_L. cbn [list_to_set].
      rewrite (right_id_L ∅ (∪)). apply (comm_L (∪)).
Qed.

End MapperFacts.

(** ** Fitting and selecting *)

(** An estimator that fits at once and whose log-likelihood is NaN. *)
Definition nan_hmmlearn : HmmLearn :=
  {| GaussianHMM := Z;
     hmm_new := fun n _ _ => n;
     hmm_fit := fun g _ _ => (Returned tt, g);
     hmm_predict := fun _ X _ => Returned (List.map (fun _ => 0%Z) X);
     hmm_score := fun _ _ _ => Returned PrimFloat.nan;
     transmat_ := fun _ => Returned [];
     means_ := fun _ => Returned [];
     covars_ := fun _ => Returned [] |}.

Module HMMFacts.
Import HMM HMMSpec.

(** A comparison with NaN on the left is false, and nothing is strictly
    above positive infinity. *)
Lemma nan_ltb (y : float) : PrimFloat.ltb PrimFloat.nan y = false.
Proof. rewrite FloatAxioms.ltb_spec. reflexivity. Qed.

Lemma infinity_ltb (y : float) : PrimFloat.ltb PrimFloat.infinity y = false.
Proof.
  rewrite FloatAxioms.ltb_spec.
  change (Prim2SF PrimFloat.infinity) with (S754_infinity false).
  unfold SFltb. destruct (Prim2SF y) as [s|s| |s m e]; try destruct s; reflexivity.
Qed.

Lemma degenerate_nan (x : float) :
  PrimFloat.is_nan x = true -> Prim2SF x = S754_nan.
Proof.
  unfold PrimFloat.is_nan. rewrite FloatAxioms.eqb_spec. unfold SFeqb.
  destruct (Prim2SF x) as [s|s| |s m e]; [| |reflexivity|].
  - destruct s; discriminate.
  - destruct s; discriminate.
  - cbn [SFcompare]. destruct s; rewrite Z.compare_refl, Pos.compare_cont_refl;
      discriminate.
Qed.

Lemma degenerate_infinity (x : float) :
  PrimFloat.eqb x PrimFloat.infinity = true -> Prim2SF x = S754_infinity false.
Proof.
  rewrite FloatAxioms.eqb_spec.
  change (Prim2SF PrimFloat.infinity) with (S754_infinity false).
  unfold SFeqb.
  destruct (Prim2SF x) as [s|s| |s m e]; try destruct s;
    cbn; try discriminate; reflexivity.
Qed.

Section WithLibraries.
Context {nl : NumLib} {hl : HmmLearn}.

(** X13. [fit] installs an estimator whether or not the library's fit
    succeeds: afterwards [model] is set, the three hyperparameters are
    unchanged, and decoding and scoring go to the estimator instead of
    raising the wrapper's "not fitted" error. *)
Theorem fit_always_installs_an_estimator (self : AttackPhaseHMM)
    (X : list (list float)) (lengths : list Z) :
  exists g : GaussianHMM,
    model (snd (fit self X lengths)) = Some g
    /\ (fst (fit self X lengths), g)
       = hmm_fit (hmm_new (n_states self) (n_iter self) (random_state self))
                 X lengths
    /\ n_states (snd (fit self X lengths)) = n_states self
    /\ n_iter (snd (fit self X lengths)) = n_iter self
    /\ random_state (snd (fit self X lengths)) = random_state self
    /\ forall (X' : list (list float)) (lengths' : list Z),
         predict_states (snd (fit self X lengths)) X' lengths'
         = (hmm_predict g X' lengths', snd (fit self X lengths))
         /\ score (snd (fit self X lengths)) X' lengths'
            = (hmm_score g X' lengths', snd (fit self X lengths)).
Proof.
  unfold fit. cbn zeta. cbn [set_model n_states n_iter random_state].
  destruct (hmm_fit _ X lengths) as [r g'].
  exists g'. cbn [fst snd model n_states n_iter random_state].
  repeat split.
Qed.

Lemma select_loop_origin (X : list (list float)) (lengths : list Z)
    (n_iter random_state : Z) (candidates : list Z) (best : float * Z) :
  select_loop X lengths n_iter random_state candidates best = best
  \/ (In (snd (select_loop X lengths n_iter random_state candidates best))
         candidates
      /\ candidate_bic X lengths n_iter random_state
           (snd (select_loop X lengths n_iter random_state candidates best))
         = Returned
             (fst (select_loop X lengths n_iter random_state candidates best))).
Proof.
  unfold select_loop. revert best.
  induction candidates as [|k ks IH]; intros best; cbn [fold_left];
    [left; reflexivity|].
  destruct (IH (select_step X lengths n_iter random_state best k))
    as [E | [Hin Hbic]].
  - rewrite E. unfold select_step.
    destruct (candidate_bic X lengths n_iter random_state k) as [bic|e] eqn:Hk;
      [|left; reflexivity].
    destruct (PrimFloat.ltb bic (fst best)); [|left; reflexivity].
    right. cbn [fst snd]. split; [left; reflexivity | exact Hk].
  - right. split; [right; exact Hin | exact Hbic].
Qed.

(** X14. [select_n_states] returns either [min_states] or a candidate of
    the range whose fit and BIC computation succeeded; a candidate that
    raised is never the answer unless it is [min_states].  When the range
    is empty ([max_states < min_states]) nothing is fitted and the answer
    is [min_states]. *)
Theorem select_n_states_answer (X : list (list float)) (lengths : list Z)
    (min_states max_states n_iter random_state : Z) :
  (exists k : Z,
     select_n_states X lengths min_states max_states n_iter random_state
     = Returned k
     /\ (k = min_states
         \/ ((min_states <= k <= max_states)%Z
             /\ exists bic,
                  candidate_bic X lengths n_iter random_state k = Returned bic)))
  /\ ((max_states < min_states)%Z ->
      select_n_states X lengths min_states max_states n_iter random_state
      = Returned min_states).
Proof.
  split.
  - unfold select_n_states. cbn zeta. eexists. split; [reflexivity|].
    destruct (select_loop_origin X lengths n_iter random_state
                (pyrange min_states (max_states + 1))
                (PrimFloat.infinity, min_states)) as [E | [Hin Hbic]].
    + left. rewrite E. reflexivity.
    + right. apply in_pyrange in Hin. split; [lia|]. eexists. exact Hbic.
  - intros Hempty. apply select_all_fail. intros k Hk. lia.
Qed.

(** The candidates the loop passes over: the body of the [try] raised,
    or the BIC came out as NaN or as positive infinity. *)
Definition passed_over (X : list (list float)) (lengths : list Z)
    (n_iter random_state k : Z) : bool :=
  match candidate_bic X lengths n_iter random_state k with
  | Raised _ => true
  | Returned bic =>
      PrimFloat.is_nan bic || PrimFloat.eqb bic PrimFloat.infinity
  end.

Lemma select_step_passed_over (X : list (list float)) (lengths : list Z)
    (n_iter random_state : Z) (best : float * Z) (k : Z) :
  passed_over X lengths n_iter random_state k = true ->
  select_step X lengths n_iter random_state best k = best.
Proof.
  unfold passed_over, select_step.
  destruct (candidate_bic X lengths n_iter random_state k) as [bic|e];
    [|reflexivity].
  intros H.
  replace (PrimFloat.ltb bic (fst best)) with false; [reflexivity|].
  symmetry. apply orb_true_iff in H as [H | H].
  - apply degenerate_nan in H. rewrite FloatAxioms.ltb_spec, H. reflexivity.
  - apply degenerate_infinity in H. rewrite FloatAxioms.ltb_spec, H.
    unfold SFltb. destruct (Prim2SF (fst best)) as [s|s| |s m e];
      try destruct s; reflexivity.
Qed.

Lemma select_loop_passed_over (X : list (list float)) (lengths : list Z)
    (n_iter random_state : Z) (candidates : list Z) (best : float * Z) :
  select_loop X lengths n_iter random_state candidates best
  = select_loop X lengths n_iter random_state
      (List.filter (fun k => negb (passed_over X lengths n_iter random_state k))
                   candidates)
      best.
Proof.
  unfold select_loop. revert best.
  induction candidates as [|k ks IH]; intros best; [reflexivity|].
  cbn [fold_left List.filter].
  destruct (passed_over X lengths n_iter random_state k) eqn:Hk; cbn [negb].
  - rewrite (select_step_passed_over _ _ _ _ _ _ Hk). apply IH.
  - cbn [fold_left]. apply IH.
Qed.

(** X15. A candidate whose BIC comes out as NaN or as positive infinity
    is passed over exactly like one that raised: such a step leaves the
    best candidate so far as it was, whatever it is, so the search gives
    the answer it gives on the range without these candidates; if every
    candidate of the range ends in one of these three ways,
    [select_n_states] returns [min_states]. *)
Theorem degenerate_bic_is_never_selected (X : list (list float))
    (lengths : list Z) (min_states max_states n_iter random_state : Z) :
  (forall (best : float * Z) (k : Z),
     passed_over X lengths n_iter random_state k = true ->
     select_step X lengths n_iter random_state best k = best)
  /\ (forall (candidates : list Z) (best : float * Z),
        select_loop X lengths n_iter random_state candidates best
        = select_loop X lengths n_iter random_state
            (List.filter
               (fun k => negb (passed_over X lengths n_iter random_state k))
               candidates)
            best)
  /\ select_n_states X lengths min_states max_states n_iter random_state
     = Returned
         (snd (select_loop X lengths n_iter random_state
                 (List.filter
                    (fun k => negb (passed_over X lengths n_iter random_state k))
                    (pyrange min_states (max_states + 1)))
                 (PrimFloat.infinity, min_states)))
  /\ ((forall k : Z, (min_states <= k <= max_states)%Z ->
         passed_over X lengths n_iter random_state k = true) ->
      select_n_states X lengths min_states max_states n_iter random_state
      = Returned min_states).
Proof.
  split; [intros best k; apply select_step_passed_over|].
  split; [apply select_loop_passed_over|].
  split.
  - unfold select_n_states. cbn zeta. rewrite select_loop_passed_over.
    reflexivity.
  - intros Hall. unfold select_n_states. cbn zeta.
    rewrite select_loop_passed_over.
    replace (List.filter _ (pyrange min_states (max_states + 1)))
      with (@nil Z); [reflexivity|].
    assert (Hrange : forall k, In k (pyrange min_states (max_states + 1)) ->
                     passed_over X lengths n_iter random_state k = true).
    { intros k Hk. apply in_pyrange in Hk. apply Hall. lia. }
    induction (pyrange min_states (max_states + 1)) as [|k ks IH];
      [reflexivity|].
    cbn [List.filter]. rewrite (Hrange k) by (left; reflexivity). cbn [negb].
    apply IH. intros k' Hk'. apply Hrange. right. exact Hk'.
Qed.

End WithLibraries.

Lemma degenerate_bic_witness :
  @select_n_states sample_numlib nan_hmmlearn [[0%float]] [1%Z] 4 6 50 42
  = Returned 4%Z.
Proof.
  destruct (@degenerate_bic_is_never_selected sample_numlib nan_hmmlearn
              [[0%float]] [1%Z] 4 6 50 42) as (_ & _ & _ & Hall).
  apply Hall. intros k Hk.
  assert (Hcases : k = 4%Z \/ k = 5%Z \/ k = 6%Z) by lia.
  destruct Hcases as [-> | [-> | ->]]; vm_compute; reflexivity.
Defined.

End HMMFacts.

(** ** What the labeled table holds *)

Module LabelFacts.
Import Label LabelSpec PandasFacts AnalyzerFacts MapperSpec MapperFacts.

Definition default_sessions (flows : list Flow) : list SessionBuilderPy.Session :=
  SessionBuilderPy.build_sessions (SessionBuilderPy.__init__ None None) flows.

(** An untrained model, as [AttackPhaseHMM(5, 100)] constructs it. *)
Definition untrained_model : @HMM.AttackPhaseHMM constant_hmmlearn :=
  @HMM.__init__ constant_hmmlearn 5 100 None.

Section WithLibraries.
Context {nl : NumLib} {hl : HmmLearn}.

(** [labeled_df] of [label_flows]: the sessions' flows with their decoded
    state, session after session. *)
Definition labeled_table (model : HMM.AttackPhaseHMM)
    (extractor : Extractor.FlowFeatureExtractor) (flows : list Flow)
    : outcome (list LabeledFlow) :=
  do all_labeled <- label_sessions model extractor (default_sessions flows) [];
  Returned (concat all_labeled).

(** The signature of the flows that share the state of [r]. *)
Definition signature_of_state (labeled : list LabeledFlow) (state : Z)
    : StateSignature :=
  Analyzer._compute_signature state (flows_in_state labeled state).


Lemma mapping_of_state (labeled : list LabeledFlow) (r : LabeledFlow) :
  In r labeled ->
  MitreMapper.map_all (Analyzer.analyze labeled) !! HMM_STATE r
  = Some (MitreMapper.map (signature_of_state labeled (HMM_STATE r))).
Proof.
  intros Hr.
  assert (Hnd : List.NoDup (List.map state_id (Analyzer.analyze labeled))).
  { rewrite analyze_unsorted, state_ids_of_groups.
    apply (NoDup_group_keys Z.eqb Z.leb HMM_STATE Z.eqb_eq). }
  apply (map_all_distinct _ Hnd (signature_of_state labeled (HMM_STATE r))).
  rewrite analyze_unsorted. apply in_map_iff.
  exists (HMM_STATE r, flows_in_state labeled (HMM_STATE r)).
  split; [reflexivity|].
  unfold Pandas.groupby. apply in_map_iff. exists (HMM_STATE r).
  split; [reflexivity|].
  apply (in_group_keys Z.eqb Z.leb HMM_STATE Z.eqb_eq). exists r. auto.
Qed.


(** X17. Every row [label_flows] writes has a confidence in [0, 1]. *)
Theorem label_flows_confidence_in_unit_interval (model : HMM.AttackPhaseHMM)
    (extractor : Extractor.FlowFeatureExtractor) (flows : list Flow) :
  match label_flows model extractor flows with
  | Raised _ => True
  | Returned rows =>
      Forall (fun row =>
                PrimFloat.leb 0%float (out_HMM_CONFIDENCE row) = true
                /\ PrimFloat.leb (out_HMM_CONFIDENCE row) 1%float = true)
             rows
  end.
Proof.
  destruct (default_sessions flows) as [|s sessions] eqn:Hs.
  - unfold label_flows. cbn zeta. fold (default_sessions flows). rewrite Hs.
    rewrite Forall_map. apply Forall_forall. intros f _.
    cbn [out_HMM_CONFIDENCE]. split; vm_compute; reflexivity.
  - unfold label_flows. cbn zeta. fold (default_sessions flows). rewrite Hs.
    destruct (label_sessions model extractor (s :: sessions) []) as [out|e];
      cbn [obind]; [|exact I].
    rewrite Forall_map. apply Forall_forall. intros r Hr.
    apply list_elem_of_In in Hr.
    cbn [out_HMM_CONFIDENCE]. rewrite (mapping_of_state _ r Hr). cbn [default].
    apply ranked_unit_interval, map_spec.
Qed.

(** X18. With an untrained model [label_flows] still succeeds when the
    table has no session (every flow gets the sentinel columns), and
    raises as soon as there is one. *)
Theorem label_flows_with_untrained_model (model : HMM.AttackPhaseHMM)
    (extractor : Extractor.FlowFeatureExtractor) (flows : list Flow) :
  HMM.model model = None ->
  match default_sessions flows with
  | [] => label_flows model extractor flows
          = Returned (List.map sentinel_row flows)
  | _ :: _ => raises (label_flows model extractor flows)
  end.
Proof.
  intros Hnone. unfold label_flows. cbn zeta. fold (default_sessions flows).
  destruct (default_sessions flows) as [|s sessions]; [reflexivity|].
  cbn [label_sessions]. unfold label_session at 1.
  destruct (Extractor.transform _ _ _) as [features|e]; cbn [obind]; [|exact I].
  unfold HMM.predict_states. rewrite Hnone. cbn [fst obind]. exact I.
Qed.

End WithLibraries.


Lemma label_flows_untrained_witness :
  raises (@label_flows sample_numlib constant_hmmlearn untrained_model
            Extractor.__init__ mixed_flows)
  /\ @label_flows sample_numlib constant_hmmlearn untrained_model
       Extractor.__init__ [lone_flow]
     = Returned [sentinel_row lone_flow].
Proof.
  split.
  - apply (@label_flows_with_untrained_model sample_numlib constant_hmmlearn
             untrained_model Extractor.__init__ mixed_flows).
    reflexivity.
  - apply (@label_flows_with_untrained_model sample_numlib constant_hmmlearn
             untrained_model Extractor.__init__ [lone_flow]).
    reflexivity.
Defined.

End LabelFacts.

(** ** Training runs *)

Module TrainFacts.
Import SessionBuilderPy Train SessionSpec SessionFacts.

(** ['old' in s] *)
Fixpoint contains (old s : string) : bool :=
  match s with
  | EmptyString => String.prefix old s
  | String _ rest => String.prefix old s || contains old rest
  end.

Lemma replace_absent (old new s : string) :
  contains old s = false -> str_replace s old new = s.
Proof.
  unfold str_replace. induction s as [|c rest IH]; [reflexivity|].
  cbn [contains]. intros H. apply orb_false_iff in H as [Hp Hrest].
  cbn [replace_from]. rewrite Hp, (IH Hrest). reflexivity.
Qed.

Lemma length_append (s t : string) :
  String.length (s +:+ t) = (String.length s + String.length t)%nat.
Proof.
  induction s as [|c s IH]; [reflexivity|].
  change (String c s +:+ t) with (String c (s +:+ t)).
  cbn [String.length]. rewrite IH. reflexivity.
Qed.

Lemma replace_from_length (old new : string) :
  (1 <= String.length old <= String.length new)%nat ->
  forall (s : string) (k : nat),
    (String.length s
     <= String.length (replace_from old new k s) + Nat.min k (String.length s))%nat.
Proof.
  intros Hlen. induction s as [|c rest IH]; intros k; [cbn; lia|].
  cbn [replace_from]. destruct k as [|k].
  - destruct (String.prefix old (String c rest)).
    + rewrite length_append.
      specialize (IH (String.length old - 1)%nat). cbn [String.length]. lia.
    + specialize (IH 0%nat). cbn [String.length]. lia.
  - specialize (IH k). cbn [String.length]. lia.
Qed.

Lemma replace_present (old new s : string) :
  (1 <= String.length old < String.length new)%nat ->
  contains old s = true -> str_replace s old new <> s.
Proof.
  intros Hlen Hin.
  assert (Hlt : (String.length s < String.length (str_replace s old new))%nat).
  { unfold str_replace. induction s as [|c rest IH].
    - cbn in Hin. destruct old; [cbn in Hlen; lia | discriminate].
    - cbn [contains] in Hin. cbn [replace_from].
      destruct (String.prefix old (String c rest)).
      + rewrite length_append.
        pose proof (replace_from_length old new ltac:(lia) rest
                      (String.length old - 1)%nat).
        cbn [String.length]. lia.
      + cbn [orb] in Hin. specialize (IH Hin). cbn [String.length]. lia. }
  intros E. rewrite E in Hlt. lia.
Qed.


Lemma fold_add_shift (l : list Z) (a : Z) :
  fold_left Z.add l a = (a + fold_left Z.add l 0)%Z.
Proof.
  revert a. induction l as [|x l IH]; intros a; cbn [fold_left]; [lia|].
  rewrite (IH (a + x)%Z), (IH (0 + x)%Z). lia.
Qed.

Lemma pysum_cons (x : Z) (l : list Z) : pysum (x :: l) = (x + pysum l)%Z.
Proof. unfold pysum. cbn [fold_left]. rewrite fold_add_shift. lia. Qed.

Lemma pysum_lengths {A : Type} (ls : list (list A)) :
  pysum (List.map (fun l => Z.of_nat (length l)) ls)
  = Z.of_nat (length (concat ls)).
Proof.
  induction ls as [|l ls IH]; [reflexivity|].
  cbn [List.map concat]. rewrite pysum_cons, IH, length_app. lia.
Qed.

Lemma pysum_le (f g : SessionBuilderPy.Session -> Z)
    (l : list SessionBuilderPy.Session) :
  (forall s, f s <= g s)%Z ->
  (pysum (List.map f l) <= pysum (List.map g l))%Z.
Proof.
  intros H. induction l as [|s l IH]; [reflexivity|].
  cbn [List.map]. rewrite !pysum_cons. specialize (H s). lia.
Qed.

(** The rows of a session that [train_model] hands to the extractor. *)
Definition capped (max_session_size : Z) (rows : list Flow) : list Flow :=
  if (max_session_size <? Z.of_nat (length rows))%Z
  then head rows max_session_size
  else rows.

Lemma capped_length_le (cap : Z) (rows : list Flow) :
  (length (capped cap rows) <= length rows)%nat.
Proof.
  unfold capped, head.
  destruct (cap <? Z.of_nat (length rows))%Z; [|lia].
  destruct (0 <=? cap)%Z; rewrite length_firstn; lia.
Qed.

Lemma capped_length_min (cap : Z) (rows : list Flow) :
  (0 <= cap)%Z ->
  Z.of_nat (length (capped cap rows)) = Z.min (Z.of_nat (length rows)) cap.
Proof.
  intros Hcap. unfold capped, head.
  destruct (Z.ltb_spec cap (Z.of_nat (length rows))); [|lia].
  destruct (Z.leb_spec 0 cap); [|lia].
  rewrite length_firstn. lia.
Qed.

(** Every source address of the table has fewer than
    [MIN_SESSION_LENGTH] flows. *)
Definition every_source_is_short (flows : list Flow) : bool :=
  forallb
    (fun f =>
       (Z.of_nat (length (List.filter
                            (fun r => String.eqb (IPV4_SRC_ADDR r)
                                                 (IPV4_SRC_ADDR f)) flows))
        <? Config.MIN_SESSION_LENGTH)%Z)
    flows.

Lemma short_sources_no_session (flows : list Flow) :
  every_source_is_short flows = true -> LabelFacts.default_sessions flows = [].
Proof.
  intros Hshort. unfold LabelFacts.default_sessions.
  destruct (build_sessions (__init__ None None) flows) as [|s rest] eqn:E;
    [reflexivity|exfalso].
  assert (Hs : In s (build_sessions (__init__ None None) flows))
    by (rewrite E; left; reflexivity).
  destruct (session_origin _ flows s Hs) as (g & run & Hg & Hrun & Hcreate).
  destruct (create_session_some _ run (fst g) s Hcreate) as (_ & Hlen & _).
  destruct (run_facts _ flows g run Hg Hrun) as (Hne & Hall & _ & _ & Hle).
  destruct (in_by_source flows g Hg) as [Hgroup _].
  destruct run as [|r run]; [contradiction|].
  apply Forall_cons in Hall as [[Hsrc Hin] _].
  unfold every_source_is_short in Hshort.
  rewrite forallb_forall in Hshort.
  specialize (Hshort r Hin). cbn beta in Hshort. apply Z.ltb_lt in Hshort.
  rewrite Hsrc, <- Hgroup in Hshort. cbn [min_length __init__ default] in Hlen.
  lia.
Qed.

Lemma concat_capped_length (cap : Z) (sessions : list Session) :
  (length (concat (List.map (fun s => capped cap (session_rows s)) sessions))
   <= length (concat (List.map session_rows sessions)))%nat.
Proof.
  induction sessions as [|s rest IH]; [reflexivity|].
  cbn [List.map concat]. rewrite !length_app.
  pose proof (capped_length_le cap (session_rows s)). lia.
Qed.

Lemma session_length_le (flows : list Flow) (s : Session) :
  In s (LabelFacts.default_sessions flows) ->
  (length (session_rows s) <= length flows)%nat.
Proof.
  intros Hs.
  pose proof (session_flows_submseteq (__init__ None None) flows) as Hsub.
  apply submseteq_length in Hsub. unfold session_flows in Hsub.
  assert (Hin : In (session_rows s)
                   (List.map session_rows
                             (build_sessions (__init__ None None) flows)))
    by (apply in_map; exact Hs).
  pose proof (in_concat_length _ _ Hin). lia.
Qed.

Section WithLibraries.
Context {nl : NumLib} {sk : SkLearn} {hl : HmmLearn}.

Lemma extract_sessions_returns (extractor : Extractor.FlowFeatureExtractor)
    (cap : Z) (sessions : list SessionBuilderPy.Session)
    (all_features : list matrix) (lengths : list Z) :
  extract_sessions extractor cap sessions all_features lengths
  = Returned
      (all_features
         ++ List.map (fun s => Extractor._extract_features
                                 (capped cap (session_rows s))) sessions,
       lengths
         ++ List.map (fun s => Z.of_nat (length (capped cap (session_rows s))))
                     sessions).
Proof.
  revert all_features lengths.
  induction sessions as [|s rest IH]; intros all_features lengths;
    cbn [extract_sessions List.map].
  - rewrite !app_nil_r. reflexivity.
  - unfold session_features, Extractor.transform. cbn [andb obind].
    fold (capped cap (session_rows s)).
    rewrite IH, ExtractorFacts.extract_length, <- !app_assoc. reflexivity.
Qed.

(** The stacked feature matrix and the sequence lengths of a training
    run. *)
Definition training_rows (cap : Z) (flows : list Flow) : list (list Flow) :=
  List.map (fun s => capped cap (session_rows s))
           (LabelFacts.default_sessions flows).

Definition training_lengths (cap : Z) (flows : list Flow) : list Z :=
  List.map (fun rows => Z.of_nat (length rows)) (training_rows cap flows).

Definition training_matrix (cap : Z) (flows : list Flow) : matrix :=
  concat (List.map Extractor._extract_features (training_rows cap flows)).

(** The files after a run that got as far as writing them. *)
Definition written (output_path : string) (p : ScalerParams)
    (model : HMM.AttackPhaseHMM) (fs : gmap string pyobj) : gmap string pyobj :=
  <[str_replace output_path ".pkl" "_extractor.pkl"
    := PyExtractor {| Extractor.scaler := Some p; Extractor._is_fitted := true |}]>
    ((PyDict <$> HMM.save model output_path ∅) ∪ fs).

Lemma train_model_returned (flows : list Flow) (output_path : string)
    (n : Z) (select_k : bool) (min_states max_states cap : Z)
    (fs : gmap string pyobj) (summary : Summary) :
  fst (train_model flows output_path n select_k min_states max_states cap fs)
  = Returned summary ->
  exists p Xn model,
    LabelFacts.default_sessions flows <> []
    /\ scaler_fit (training_matrix cap flows) = Returned p
    /\ Extractor.scaler_transform (Some p) (training_matrix cap flows) = Returned Xn
    /\ (if select_k
        then HMM.select_n_states Xn (training_lengths cap flows)
                                 min_states max_states 50 Config.RANDOM_STATE
        else Returned n) = Returned (n_states summary)
    /\ HMM.fit (HMM.__init__ (n_states summary) Config.N_ITER None)
               Xn (training_lengths cap flows) = (Returned tt, model)
    /\ fst (HMM.score model Xn (training_lengths cap flows))
       = Returned (log_likelihood summary)
    /\ n_sessions summary = Z.of_nat (length (LabelFacts.default_sessions flows))
    /\ n_flows summary = pysum (training_lengths cap flows)
    /\ snd (train_model flows output_path n select_k min_states max_states cap fs)
       = written output_path p model fs.
Proof.
  unfold train_model. cbn zeta. fold (LabelFacts.default_sessions flows).
  unfold training_matrix, training_lengths, training_rows.
  destruct (LabelFacts.default_sessions flows) as [|s sessions] eqn:Hs;
    [discriminate|].
  rewrite extract_sessions_returns. cbn [app].
  rewrite !List.map_map.
  destruct (scaler_fit _) as [p|e] eqn:Hp; cbn [obind]; [|discriminate].
  destruct (Extractor.scaler_transform (Some p) _) as [Xn|e] eqn:HXn; cbn [obind];
    [|discriminate].
  destruct (if select_k then _ else _) as [k|e] eqn:Hk; [|discriminate].
  destruct (HMM.fit _ _ _) as [fitted model] eqn:Hfit.
  destruct fitted as [[]|e]; [|discriminate].
  destruct (fst (HMM.score _ _ _)) as [ll|e] eqn:Hscore; [|discriminate].
  cbn [fst snd]. intros [= <-]. cbn [n_states n_sessions n_flows log_likelihood].
  exists p, Xn, model. repeat split; try reflexivity; try assumption.
  discriminate.
Qed.

Lemma train_model_files (flows : list Flow) (output_path : string)
    (n : Z) (select_k : bool) (min_states max_states cap : Z)
    (fs : gmap string pyobj) :
  snd (train_model flows output_path n select_k min_states max_states cap fs) = fs
  \/ exists p model,
       snd (train_model flows output_path n select_k min_states max_states cap fs)
       = written output_path p model fs.
Proof.
  unfold train_model. cbn zeta.
  destruct (build_sessions _ flows) as [|s sessions]; [left; reflexivity|].
  destruct (extract_sessions _ _ _ _ _) as [[all_features lengths]|e];
    [|left; reflexivity].
  destruct (scaler_fit _) as [p|e]; cbn [obind]; [|left; reflexivity].
  destruct (Extractor.scaler_transform (Some p) _) as [Xn|e]; cbn [obind];
    [|left; reflexivity].
  destruct (if select_k then _ else _) as [k|e]; [|left; reflexivity].
  destruct (HMM.fit _ _ _) as [fitted model].
  destruct fitted as [[]|e]; [|left; reflexivity].
  right. exists p, model.
  destruct (fst (HMM.score _ _ _)); reflexivity.
Qed.

Lemma load_saved (model : HMM.AttackPhaseHMM) (path : string)
    (fs : gmap string (gmap string HMM.pyval)) :
  HMM.load path (HMM.save model path fs) = Returned model.
Proof.
  unfold HMM.load, HMM.save, HMM.joblib_load, HMM.joblib_dump.
  rewrite lookup_insert_eq. cbn [obind].
  unfold HMM.dict_item.
  rewrite lookup_insert_eq. cbn [obind].
  rewrite lookup_insert_ne, lookup_insert_eq by discriminate. cbn [obind].
  rewrite !lookup_insert_ne, lookup_insert_eq by discriminate.
  cbn [obind HMM.as_int].
  rewrite !lookup_insert_ne, lookup_insert_eq by discriminate. cbn [obind].
  destruct model as [n i r [g|]]; reflexivity.
Qed.

Lemma has_infinity_concat (Xs : list matrix) (X : matrix) :
  Extractor.has_infinity (concat Xs) = false -> In X Xs ->
  Extractor.has_infinity X = false.
Proof.
  unfold Extractor.has_infinity.
  induction Xs as [|X' Xs IH]; [intros _ []|].
  cbn [concat]. rewrite existsb_app. intros H.
  apply orb_false_iff in H as [H1 H2].
  intros [<- | Hin]; [exact H1 | exact (IH H2 Hin)].
Qed.

(** X20. A table in which every source address has fewer than three flows
    cannot be trained on: [train_model] raises [ValueError] and writes no
    file. *)
Theorem train_model_needs_a_session (flows : list Flow) (output_path : string)
    (n : Z) (select_k : bool) (min_states max_states cap : Z)
    (fs : gmap string pyobj) :
  every_source_is_short flows = true ->
  train_model flows output_path n select_k min_states max_states cap fs
  = (Raised (ValueError "No valid sessions found in data"), fs).
Proof.
  intros Hshort. apply short_sources_no_session in Hshort.
  unfold train_model. cbn zeta. fold (LabelFacts.default_sessions flows).
  rewrite Hshort. reflexivity.
Qed.

(** X21. The counts of the summary: [n_sessions] is the number of
    sessions the default builder finds (at least one); [n_flows] counts
    the observations trained on, which never exceeds the size of the table,
    is the sum of [min(len(session), max_session_size)] for a non-negative
    cap, and is the number of session flows when the cap is at least the
    size of the table. *)
Theorem train_summary_counts (flows : list Flow) (output_path : string)
    (n : Z) (select_k : bool) (min_states max_states cap : Z)
    (fs : gmap string pyobj) (summary : Summary) :
  fst (train_model flows output_path n select_k min_states max_states cap fs)
  = Returned summary ->
  let sessions := LabelFacts.default_sessions flows in
  n_sessions summary = Z.of_nat (length sessions)
  /\ (1 <= n_sessions summary)%Z
  /\ (0 <= n_flows summary <= Z.of_nat (length flows))%Z
  /\ ((0 <= cap)%Z ->
      n_flows summary
      = pysum (List.map (fun s => Z.min (Z.of_nat (length (session_rows s))) cap)
                        sessions))
  /\ ((Z.of_nat (length flows) <= cap)%Z ->
      n_flows summary
      = Z.of_nat (length (session_flows (__init__ None None) flows))).
Proof.
  intros Hret. cbn zeta.
  destruct (train_model_returned _ _ _ _ _ _ _ _ _ Hret)
    as (p & Xn & model & Hne & _ & _ & _ & _ & _ & Hsessions & Hflows & _).
  rewrite Hsessions, Hflows. unfold training_lengths, training_rows.
  rewrite List.map_map.
  split; [reflexivity|]. split.
  { destruct (LabelFacts.default_sessions flows); [contradiction|].
    cbn [length]. lia. }
  split.
  { rewrite <- (List.map_map (fun s => capped cap (session_rows s))
                             (fun rows => Z.of_nat (length rows))).
    rewrite pysum_lengths.
    pose proof (concat_capped_length cap (LabelFacts.default_sessions flows)).
    pose proof (session_flows_submseteq (__init__ None None) flows) as Hsub.
    apply submseteq_length in Hsub. unfold session_flows in Hsub.
    unfold LabelFacts.default_sessions in *. lia. }
  split.
  { intros Hcap. f_equal. apply map_ext. intros s.
    apply capped_length_min, Hcap. }
  intros Hcap. unfold session_flows. rewrite <- pysum_lengths, List.map_map.
  fold (LabelFacts.default_sessions flows).
  f_equal. apply map_ext_in. intros s Hs.
  pose proof (session_length_le flows s Hs).
  unfold capped. destruct (Z.ltb_spec cap (Z.of_nat (length (session_rows s))));
    [lia|reflexivity].
Qed.

(** X22. [train_model] changes at most two paths, [output_path] and the
    extractor path derived from it; every other file is as before,
    whatever the outcome. *)
Theorem train_model_touches_two_paths (flows : list Flow) (output_path : string)
    (n : Z) (select_k : bool) (min_states max_states cap : Z)
    (fs : gmap string pyobj) (path : string) :
  path <> output_path ->
  path <> str_replace output_path ".pkl" "_extractor.pkl" ->
  snd (train_model flows output_path n select_k min_states max_states cap fs)
    !! path
  = fs !! path.
Proof.
  intros Hout Hext.
  destruct (train_model_files flows output_path n select_k min_states
              max_states cap fs) as [-> | (p & model & ->)]; [reflexivity|].
  unfold written. rewrite lookup_insert_ne by congruence.
  rewrite lookup_union_r; [reflexivity|].
  rewrite lookup_fmap. unfold HMM.save, HMM.joblib_dump.
  rewrite lookup_insert_ne by congruence. reflexivity.
Qed.

(** X23. An [output_path] that does not contain ['.pkl'] loses the model:
    the extractor path is then [output_path] itself, so after a
    successful run that file holds the fitted extractor, the model
    dictionary is stored nowhere, and no other file has changed. *)
Theorem output_without_pkl_loses_the_model (flows : list Flow)
    (output_path : string) (n : Z) (select_k : bool)
    (min_states max_states cap : Z) (fs : gmap string pyobj)
    (summary : Summary) :
  contains ".pkl" output_path = false ->
  fst (train_model flows output_path n select_k min_states max_states cap fs)
  = Returned summary ->
  exists p,
    snd (train_model flows output_path n select_k min_states max_states cap fs)
    = <[output_path
        := PyExtractor {| Extractor.scaler := Some p;
                          Extractor._is_fitted := true |}]> fs.
Proof.
  intros Habsent Hret.
  destruct (train_model_returned _ _ _ _ _ _ _ _ _ Hret)
    as (p & Xn & model & _ & _ & _ & _ & _ & _ & _ & _ & ->).
  exists p. unfold written.
  rewrite (replace_absent _ _ _ Habsent).
  unfold HMM.save, HMM.joblib_dump.
  rewrite fmap_insert, fmap_empty, <- insert_union_l, (left_id_L ∅ (∪)).
  apply insert_insert_eq.
Qed.

(** X24. With an [output_path] that contains ['.pkl'], a successful run
    leaves two files: under [output_path] the dictionary from which
    [AttackPhaseHMM.load] rebuilds a fitted model with the [n_states] of
    the summary, and under the extractor path the fitted extractor.  The
    [n_states] of the summary is the argument, or with [select_k] a value
    of the search range (or [min_states]). *)
Theorem output_with_pkl_stores_model_and_extractor (flows : list Flow)
    (output_path : string) (n : Z) (select_k : bool)
    (min_states max_states cap : Z) (fs : gmap string pyobj)
    (summary : Summary) :
  contains ".pkl" output_path = true ->
  fst (train_model flows output_path n select_k min_states max_states cap fs)
  = Returned summary ->
  let after :=
    snd (train_model flows output_path n select_k min_states max_states cap fs) in
  exists data model p,
    after !! output_path = Some (PyDict data)
    /\ HMM.load output_path {[output_path := data]} = Returned model
    /\ HMM.n_states model = n_states summary
    /\ HMM.n_iter model = Config.N_ITER
    /\ HMM.model model <> None
    /\ after !! str_replace output_path ".pkl" "_extractor.pkl"
       = Some (PyExtractor {| Extractor.scaler := Some p;
                              Extractor._is_fitted := true |})
    /\ (if select_k
        then n_states summary = min_states
             \/ (min_states <= n_states summary <= max_states)%Z
        else n_states summary = n).
Proof.
  intros Hpresent Hret. cbn zeta.
  destruct (train_model_returned _ _ _ _ _ _ _ _ _ Hret)
    as (p & Xn & model & _ & _ & _ & Hk & Hfit & _ & _ & _ & ->).
  assert (Hne : str_replace output_path ".pkl" "_extractor.pkl" <> output_path).
  { apply replace_present; [cbn; lia | exact Hpresent]. }
  unfold HMM.fit in Hfit.
  destruct (hmm_fit _ _ _) as [r g'] in Hfit. injection Hfit as _ <-.
  eexists _, _, p. unfold written.
  split.
  { rewrite lookup_insert_ne by exact Hne.
    apply lookup_union_Some_l. rewrite lookup_fmap.
    unfold HMM.save, HMM.joblib_dump. rewrite lookup_insert_eq. reflexivity. }
  split; [apply (load_saved _ output_path ∅)|].
  split; [reflexivity|]. split; [reflexivity|]. split; [discriminate|].
  split; [apply lookup_insert_eq|].
  destruct select_k.
  - unfold HMM.select_n_states in Hk. cbn zeta in Hk. injection Hk as Hk.
    rewrite <- Hk.
    destruct (HMMSpec.select_loop_choice Xn (training_lengths cap flows) 50
                Config.RANDOM_STATE
                (HMM.pyrange min_states (max_states + 1))
                (PrimFloat.infinity, min_states)) as [E | Hin].
    + left. exact E.
    + right. apply HMMSpec.in_pyrange in Hin. lia.
  - injection Hk as Hk. symmetry. exact Hk.
Qed.

(** X25. The saved extractor reproduces the training matrix: normalising
    each non-empty training session with the extractor that [train_model]
    stores gives, session after session, exactly the rows the model was
    fitted on.  A session capped to no rows at all (a cap of zero or
    below) contributes no row, and the stored extractor raises on it. *)
Theorem saved_extractor_reproduces_training_matrix (flows : list Flow)
    (output_path : string) (n : Z) (select_k : bool)
    (min_states max_states cap : Z) (fs : gmap string pyobj)
    (summary : Summary) :
  fst (train_model flows output_path n select_k min_states max_states cap fs)
  = Returned summary ->
  exists extractor X_normalized model,
    snd (train_model flows output_path n select_k min_states max_states cap fs)
      !! str_replace output_path ".pkl" "_extractor.pkl"
    = Some (PyExtractor extractor)
    /\ HMM.fit (HMM.__init__ (n_states summary) Config.N_ITER None)
               X_normalized (training_lengths cap flows)
       = (Returned tt, model)
    /\ exists per_session,
         Forall2 (fun rows features =>
                    match rows with
                    | [] =>
                        features = []
                        /\ raises (Extractor.transform extractor rows true)
                    | _ :: _ =>
                        Extractor.transform extractor rows true
                        = Returned features
                    end)
                 (training_rows cap flows) per_session
         /\ concat per_session = X_normalized.
Proof.
  intros Hret.
  destruct (train_model_returned _ _ _ _ _ _ _ _ _ Hret)
    as (p & Xn & model & _ & _ & HXn & _ & Hfit & _ & _ & _ & ->).
  exists {| Extractor.scaler := Some p; Extractor._is_fitted := true |}, Xn, model.
  split; [apply lookup_insert_eq|]. split; [exact Hfit|].
  apply ExtractorSpec.scaler_transform_returned in HXn
    as (-> & Hrows & Hfinite & Hne).
  exists (List.map (fun rows => List.map (Extractor.standardize_row p)
                                         (Extractor._extract_features rows))
                   (training_rows cap flows)).
  unfold training_matrix in *.
  assert (Hwidth : length (mean_ p) <> 0%nat).
  { destruct (concat _) as [|row X] eqn:E; [contradiction|].
    apply Forall_inv in Hrows. rewrite <- Hrows.
    assert (Hrow : In row (concat (List.map Extractor._extract_features
                                            (training_rows cap flows))))
      by (rewrite E; left; reflexivity).
    apply in_concat in Hrow as (X' & HX' & Hrow).
    apply in_map_iff in HX' as (rows & <- & _).
    pose proof (ExtractorSpec.extract_row_length rows) as Hall.
    rewrite Forall_forall in Hall.
    rewrite (Hall row) by (apply list_elem_of_In, Hrow). discriminate. }
  split.
  - apply Forall2_fmap_r, Forall_Forall2_diag, Forall_forall.
    intros rows Hin. apply list_elem_of_In in Hin.
    unfold Extractor.transform.
    cbn [andb Extractor._is_fitted Extractor.scaler].
    destruct rows as [|r rows]; [split; [reflexivity | exact I]|].
    apply ExtractorSpec.scaler_transform_fitted.
    + apply (has_infinity_concat _ _ Hfinite). apply in_map, Hin.
    + intros E. apply (f_equal (@length (list float))) in E.
      rewrite ExtractorFacts.extract_length in E. discriminate E.
    + exact Hwidth.
    + apply Forall_forall. intros row Hrow.
      rewrite Forall_forall in Hrows. apply Hrows.
      apply list_elem_of_In, in_concat.
      exists (Extractor._extract_features (r :: rows)). split.
      * apply in_map, Hin.
      * apply list_elem_of_In, Hrow.
  - rewrite <- (List.map_map Extractor._extract_features
                             (List.map (Extractor.standardize_row p))).
    symmetry. apply concat_map.
Qed.

End WithLibraries.

(** A run over [LabelSpec.mixed_flows] with the sample libraries. *)
Definition sample_summary : Summary :=
  {| n_states := 10; n_sessions := 1; n_flows := 3; log_likelihood := 0%float |}.

Definition sample_run (output_path : string)
    : outcome Summary * gmap string (@pyobj constant_hmmlearn) :=
  @train_model sample_numlib identity_sklearn constant_hmmlearn
    LabelSpec.mixed_flows output_path 10 false 4 15 1000 ∅.

Lemma train_model_needs_a_session_witness :
  @train_model sample_numlib identity_sklearn constant_hmmlearn
    [LabelSpec.lone_flow; LabelSpec.session_flow 1000; LabelSpec.session_flow 2000]
    "model.pkl" 10 false 4 15 1000 ∅
  = (Raised (ValueError "No valid sessions found in data"), ∅).
Proof.
  apply (@train_model_needs_a_session sample_numlib identity_sklearn
           constant_hmmlearn).
  vm_compute. reflexivity.
Defined.

Lemma train_summary_counts_witness :
  let sessions := LabelFacts.default_sessions LabelSpec.mixed_flows in
  n_sessions sample_summary = Z.of_nat (length sessions)
  /\ (1 <= n_sessions sample_summary)%Z
  /\ (0 <= n_flows sample_summary <= Z.of_nat (length LabelSpec.mixed_flows))%Z
  /\ ((0 <= 1000)%Z ->
      n_flows sample_summary
      = pysum (List.map (fun s => Z.min (Z.of_nat (length (session_rows s))) 1000)
                        sessions))
  /\ ((Z.of_nat (length LabelSpec.mixed_flows) <= 1000)%Z ->
      n_flows sample_summary
      = Z.of_nat (length (session_flows (__init__ None None)
                                        LabelSpec.mixed_flows))).
Proof.
  apply (@train_summary_counts sample_numlib identity_sklearn constant_hmmlearn
           LabelSpec.mixed_flows "model.pkl" 10 false 4 15 1000 ∅ sample_summary).
  vm_compute. reflexivity.
Defined.

Lemma train_model_touches_two_paths_witness :
  snd (sample_run "model.pkl") !! "other.pkl"
  = (∅ : gmap string (@pyobj constant_hmmlearn)) !! "other.pkl".
Proof.
  apply (@train_model_touches_two_paths sample_numlib identity_sklearn
           constant_hmmlearn LabelSpec.mixed_flows "model.pkl" 10 false 4 15
           1000 ∅ "other.pkl").
  - vm_compute. discriminate.
  - vm_compute. discriminate.
Defined.

Lemma output_without_pkl_witness :
  exists p,
    snd (sample_run "model.joblib")
    = <["model.joblib"
        := PyExtractor {| Extractor.scaler := Some p;
                          Extractor._is_fitted := true |}]> ∅.
Proof.
  apply (@output_without_pkl_loses_the_model sample_numlib identity_sklearn
           constant_hmmlearn LabelSpec.mixed_flows "model.joblib" 10 false 4 15
           1000 ∅ sample_summary).
  - vm_compute. reflexivity.
  - vm_compute. reflexivity.
Defined.

Lemma output_with_pkl_witness :
  exists data model p,
    snd (sample_run "model.pkl") !! "model.pkl" = Some (PyDict data)
    /\ HMM.load "model.pkl" {["model.pkl" := data]} = Returned model
    /\ HMM.n_states model = n_states sample_summary
    /\ HMM.n_iter model = Config.N_ITER
    /\ HMM.model model <> None
    /\ snd (sample_run "model.pkl")
         !! str_replace "model.pkl" ".pkl" "_extractor.pkl"
       = Some (PyExtractor {| Extractor.scaler := Some p;
                              Extractor._is_fitted := true |})
    /\ n_states sample_summary = 10%Z.
Proof.
  apply (@output_with_pkl_stores_model_and_extractor sample_numlib
           identity_sklearn constant_hmmlearn LabelSpec.mixed_flows "model.pkl"
           10 false 4 15 1000 ∅ sample_summary).
  - vm_compute. reflexivity.
  - vm_compute. reflexivity.
Defined.

Lemma saved_extractor_witness :
  exists extractor X_normalized model,
    snd (sample_run "model.pkl")
      !! str_replace "model.pkl" ".pkl" "_extractor.pkl"
    = Some (PyExtractor extractor)
    /\ @HMM.fit constant_hmmlearn
         (HMM.__init__ (n_states sample_summary) Config.N_ITER None)
         X_normalized (training_lengths 1000 LabelSpec.mixed_flows)
       = (Returned tt, model)
    /\ exists per_session,
         Forall2 (fun rows features =>
                    match rows with
                    | [] =>
                        features = []
                        /\ raises (@Extractor.transform sample_numlib extractor
                                     rows true)
                    | _ :: _ =>
                        @Extractor.transform sample_numlib extractor rows true
                        = Returned features
                    end)
                 (training_rows 1000 LabelSpec.mixed_flows) per_session
         /\ concat per_session = X_normalized.
Proof.
  apply (@saved_extractor_reproduces_training_matrix sample_numlib
           identity_sklearn constant_hmmlearn LabelSpec.mixed_flows "model.pkl"
           10 false 4 15 1000 ∅ sample_summary).
  vm_compute. reflexivity.
Defined.

End TrainFacts.

(** ** Evaluation metrics *)

Module EvaluateFacts.
Import SessionBuilderPy Label Evaluate SessionFacts AnalyzerFacts MapperFacts
       LabelFacts.

(** The sum of the counts of a distribution. *)
Definition total (counts : gmap Z Z) : Z :=
  map_fold (fun _ c acc => (c + acc)%Z) 0%Z counts.

Lemma total_insert_fresh (counts : gmap Z Z) (k c : Z) :
  counts !! k = None -> total (<[k := c]> counts) = (c + total counts)%Z.
Proof.
  intros Hk. unfold total. apply map_fold_insert_L; [|exact Hk].
  intros. lia.
Qed.

Lemma total_insert (counts : gmap Z Z) (k c : Z) :
  total (<[k := c]> counts)
  = (c + total counts - default 0 (counts !! k))%Z.
Proof.
  destruct (counts !! k) as [old|] eqn:Hk; cbn [default].
  - assert (Hold : total counts = (old + total (delete k counts))%Z).
    { rewrite <- (insert_delete_id counts k old Hk) at 1.
      apply total_insert_fresh, lookup_delete_eq. }
    rewrite <- (insert_delete_eq counts k c).
    rewrite total_insert_fresh by apply lookup_delete_eq. unfold id. lia.
  - rewrite total_insert_fresh by exact Hk. lia.
Qed.

Definition count_step (counts : gmap Z Z) (v : Z) : gmap Z Z :=
  <[v := (default 0 (counts !! v) + 1)%Z]> counts.

Lemma count_fold_total (values : list Z) (counts : gmap Z Z) :
  total (fold_left count_step values counts)
  = (total counts + Z.of_nat (length values))%Z.
Proof.
  revert counts. induction values as [|v values IH]; intros counts;
    cbn [fold_left length]; [lia|].
  rewrite IH. unfold count_step. rewrite total_insert. lia.
Qed.

Lemma value_counts_total (values : list Z) :
  total (value_counts values) = Z.of_nat (length values).
Proof.
  unfold value_counts. fold count_step. rewrite count_fold_total.
  unfold total. rewrite map_fold_empty. lia.
Qed.

Lemma count_fold_lookup (values : list Z) (counts : gmap Z Z) (v : Z) :
  fold_left count_step values counts !! v
  = match length (List.filter (fun x => (x =? v)%Z) values) with
    | O => counts !! v
    | S n => Some (default 0 (counts !! v) + Z.of_nat (S n))%Z
    end.
Proof.
  revert counts. induction values as [|x values IH]; intros counts;
    cbn [fold_left List.filter length]; [reflexivity|].
  rewrite IH. unfold count_step.
  destruct (Z.eqb_spec x v) as [->|Hne].
  - rewrite lookup_insert_eq. cbn [length default].
    destruct (length (List.filter _ values)); f_equal; unfold id; lia.
  - rewrite lookup_insert_ne by exact Hne. reflexivity.
Qed.




Section WithLibraries.
Context {nl : NumLib} {hl : HmmLearn}.

Lemma transform_length (extractor : Extractor.FlowFeatureExtractor)
    (rows : list Flow) (normalize : bool) (features : matrix) :
  Extractor.transform extractor rows normalize = Returned features ->
  length features = length rows.
Proof.
  unfold Extractor.transform.
  destruct (normalize && Extractor._is_fitted extractor).
  - destruct (Extractor.scaler extractor) as [p|]; [|discriminate].
    intros H. apply ExtractorSpec.scaler_transform_returned in H as [-> _].
    rewrite length_map. apply ExtractorFacts.extract_length.
  - intros [= <-]. apply ExtractorFacts.extract_length.
Qed.

Lemma evaluate_session_returned (model : HMM.AttackPhaseHMM)
    (extractor : Extractor.FlowFeatureExtractor) (session : Session)
    (r : matrix * list LabeledFlow) :
  evaluate_session model extractor session = Returned r ->
  label_session model extractor session = Returned (snd r)
  /\ length (fst r) = length (session_rows session).
Proof.
  unfold evaluate_session, label_session.
  destruct (Extractor.transform _ _ _) as [features|e] eqn:Hf; cbn [obind];
    [|discriminate].
  destruct (fst (HMM.predict_states _ _ _)) as [states|e]; cbn [obind];
    [|discriminate].
  destruct (Nat.eqb _ _); [|discriminate].
  intros [= <-]. cbn [fst snd]. split; [reflexivity|].
  exact (transform_length _ _ _ _ Hf).
Qed.

Lemma evaluate_sessions_returned (model : HMM.AttackPhaseHMM)
    (extractor : Extractor.FlowFeatureExtractor) (sessions : list Session)
    (all_features : list matrix) (lengths : list Z)
    (all_labeled : list (list LabeledFlow))
    (r : list matrix * list Z * list (list LabeledFlow)) :
  evaluate_sessions model extractor sessions all_features lengths all_labeled
  = Returned r ->
  label_sessions model extractor sessions all_labeled = Returned (snd r)
  /\ Train.pysum (snd (fst r))
     = (Train.pysum lengths
        + Z.of_nat (length (concat (List.map session_rows sessions))))%Z.
Proof.
  revert all_features lengths all_labeled.
  induction sessions as [|s sessions IH]; intros all_features lengths all_labeled;
    cbn [evaluate_sessions label_sessions].
  - intros [= <-]. cbn [fst snd List.map concat length]. split; [reflexivity|].
    lia.
  - destruct (evaluate_session model extractor s) as [rs|e] eqn:Hs;
      cbn [obind]; [|discriminate].
    destruct (evaluate_session_returned _ _ _ _ Hs) as [-> Hlen].
    cbn [obind]. intros Hr. destruct (IH _ _ _ Hr) as [-> ->].
    split; [reflexivity|].
    cbn [List.map concat]. rewrite length_app, Hlen.
    unfold Train.pysum. rewrite fold_left_app. cbn [fold_left]. lia.
Qed.

(** The seven entries of the metrics dictionary of a table with
    sessions. *)
Definition evaluated (model : HMM.AttackPhaseHMM) (sessions : list Session)
    (labeled : list LabeledFlow) (log_likelihood : float)
    (transition_matrix : matrix) : gmap string metric :=
  <["n_states" := MInt (HMM.n_states model)]>
    (<["n_sessions" := MInt (Z.of_nat (length sessions))]>
       (<["n_flows" := MInt (Z.of_nat (length labeled))]>
          (<["log_likelihood" := MFloat log_likelihood]>
             (<["state_distribution"
                := MCounts (value_counts (List.map HMM_STATE labeled))]>
                (<["tactic_mappings"
                   := MTactics
                        ((fun m : string * float => mkTacticEntry (fst m) (snd m))
                           <$> MitreMapper.map_all (Analyzer.analyze labeled))]>
                   (<["transition_matrix" := MMatrix transition_matrix]>
                      ∅)))))).

Lemma evaluate_model_returned (model : HMM.AttackPhaseHMM)
    (extractor : Extractor.FlowFeatureExtractor) (flows : list Flow)
    (metrics : gmap string metric) :
  default_sessions flows <> [] ->
  evaluate_model model extractor flows = Returned metrics ->
  exists labeled log_likelihood transition_matrix,
    labeled_table model extractor flows = Returned labeled
    /\ List.map lf_flow labeled = session_flows (__init__ None None) flows
    /\ metrics = evaluated model (default_sessions flows) labeled
                           log_likelihood transition_matrix.
Proof.
  intros Hne. unfold evaluate_model, labeled_table. cbn zeta.
  fold (default_sessions flows).
  destruct (default_sessions flows) as [|s sessions] eqn:Hs; [contradiction|].
  destruct (evaluate_sessions model extractor (s :: sessions) [] [] [])
    as [[[all_features lengths] all_labeled]|e] eqn:Hr; cbn [obind];
    [|discriminate].
  destruct (evaluate_sessions_returned _ _ _ _ _ _ _ Hr) as [Hlabel Hsum].
  cbn [fst snd] in Hlabel, Hsum. rewrite Hlabel. cbn [obind].
  destruct (fst (HMM.get_transition_matrix model)) as [T|e]; cbn [obind];
    [|discriminate].
  destruct (fst (HMM.score model _ _)) as [ll|e]; cbn [obind]; [|discriminate].
  intros [= <-]. exists (concat all_labeled), ll, T.
  assert (Hrows : List.map lf_flow (concat all_labeled)
                  = session_flows (__init__ None None) flows).
  { unfold session_flows. fold (default_sessions flows). rewrite Hs.
    pose proof (LabelSpec.label_sessions_rows _ _ _ _ _ Hlabel) as Hmap.
    rewrite concat_map, Hmap. reflexivity. }
  split; [reflexivity|]. split; [exact Hrows|].
  unfold evaluated. rewrite Hsum.
  replace (length (concat (List.map session_rows (s :: sessions))))
    with (length (concat all_labeled)); [reflexivity|].
  rewrite <- (length_map lf_flow), Hrows. unfold session_flows.
  fold (default_sessions flows). rewrite Hs. reflexivity.
Qed.


(** X26. For a table in which every source address has fewer than three
    flows, [evaluate_model] returns (for any model, trained or not) the
    error dictionary: ['error'], ['n_flows'] counting every flow of the
    table and ['n_sessions'] 0, and none of the keys ['n_states'],
    ['log_likelihood'], ['state_distribution'], ['tactic_mappings'],
    ['transition_matrix']. *)
Theorem evaluate_without_sessions (model : HMM.AttackPhaseHMM)
    (extractor : Extractor.FlowFeatureExtractor) (flows : list Flow) :
  TrainFacts.every_source_is_short flows = true ->
  exists metrics,
    evaluate_model model extractor flows = Returned metrics
    /\ metrics !! "error" = Some (MStr "No valid sessions found")
    /\ metrics !! "n_flows" = Some (MInt (Z.of_nat (length flows)))
    /\ metrics !! "n_sessions" = Some (MInt 0)
    /\ metrics !! "n_states" = None
    /\ metrics !! "log_likelihood" = None
    /\ metrics !! "state_distribution" = None
    /\ metrics !! "tactic_mappings" = None
    /\ metrics !! "transition_matrix" = None.
Proof.
  intros Hshort. apply TrainFacts.short_sources_no_session in Hshort.
  unfold evaluate_model. cbn zeta. fold (default_sessions flows).
  rewrite Hshort. eexists. split; [reflexivity|].
  repeat split; reflexivity.
Qed.

(** X27. For a table with sessions, the metrics [evaluate_model] returns
    count the labeled flows: [state_distribution] gives every state the
    number of labeled flows decoded to it and has no entry for any other
    state, [n_flows] is the sum of these counts, which is the number of
    flows inside sessions (not the size of the table); [n_sessions] is
    the number of sessions, [n_states] the model's, and there is no
    ['error'] key. *)
Theorem evaluate_counts (model : HMM.AttackPhaseHMM)
    (extractor : Extractor.FlowFeatureExtractor) (flows : list Flow)
    (metrics : gmap string metric) :
  default_sessions flows <> [] ->
  evaluate_model model extractor flows = Returned metrics ->
  exists labeled distribution,
    labeled_table model extractor flows = Returned labeled
    /\ metrics !! "state_distribution" = Some (MCounts distribution)
    /\ (forall state,
          distribution !! state
          = match length (flows_in_state labeled state) with
            | O => None
            | S n => Some (Z.of_nat (S n))
            end)
    /\ metrics !! "n_flows" = Some (MInt (total distribution))
    /\ total distribution
       = Z.of_nat (length (session_flows (__init__ None None) flows))
    /\ (total distribution <= Z.of_nat (length flows))%Z
    /\ metrics !! "n_sessions"
       = Some (MInt (Z.of_nat (length (default_sessions flows))))
    /\ metrics !! "n_states" = Some (MInt (HMM.n_states model))
    /\ metrics !! "error" = None.
Proof.
  intros Hne Hret.
  destruct (evaluate_model_returned _ _ _ _ Hne Hret)
    as (labeled & ll & T & Hlabeled & Hrows & ->).
  exists labeled, (value_counts (List.map HMM_STATE labeled)).
  assert (Htotal : total (value_counts (List.map HMM_STATE labeled))
                   = Z.of_nat (length labeled))
    by (rewrite value_counts_total, length_map; reflexivity).
  assert (Hlen : length labeled
                 = length (session_flows (__init__ None None) flows))
    by (rewrite <- Hrows, length_map; reflexivity).
  split; [exact Hlabeled|]. split; [reflexivity|]. split.
  { intros state. unfold value_counts. fold count_step.
    rewrite count_fold_lookup, lookup_empty. cbn [default].
    unfold flows_in_state.
    replace (length (List.filter (fun x => (x =? state)%Z)
                                 (List.map HMM_STATE labeled)))
      with (length (List.filter (fun r => (HMM_STATE r =? state)%Z) labeled)).
    - destruct (length _); reflexivity.
    - clear. induction labeled as [|r labeled IH]; [reflexivity|].
      cbn [List.map List.filter].
      destruct (HMM_STATE r =? state)%Z; cbn [length]; rewrite IH; reflexivity. }
  split; [rewrite Htotal; reflexivity|].
  split; [rewrite Htotal, Hlen; reflexivity|]. split.
  { rewrite Htotal, Hlen.
    pose proof (session_flows_submseteq (__init__ None None) flows) as Hsub.
    apply submseteq_length in Hsub. lia. }
  repeat split; reflexivity.
Qed.


End WithLibraries.

(** The metrics of [LabelSpec.mixed_flows] under the constant decoder. *)
Definition sample_metrics : gmap string metric :=
  match @evaluate_model sample_numlib constant_hmmlearn LabelSpec.decoding_model
          Extractor.__init__ LabelSpec.mixed_flows with
  | Returned metrics => metrics
  | Raised _ => ∅
  end.

Lemma evaluate_without_sessions_witness :
  exists metrics,
    @evaluate_model sample_numlib constant_hmmlearn untrained_model
      Extractor.__init__
      [LabelSpec.lone_flow; LabelSpec.session_flow 1000;
       LabelSpec.session_flow 2000]
    = Returned metrics
    /\ metrics !! "error" = Some (MStr "No valid sessions found")
    /\ metrics !! "n_flows" = Some (MInt 3)
    /\ metrics !! "n_sessions" = Some (MInt 0)
    /\ metrics !! "n_states" = None
    /\ metrics !! "log_likelihood" = None
    /\ metrics !! "state_distribution" = None
    /\ metrics !! "tactic_mappings" = None
    /\ metrics !! "transition_matrix" = None.
Proof.
  apply (@evaluate_without_sessions sample_numlib constant_hmmlearn
           untrained_model Extractor.__init__
           [LabelSpec.lone_flow; LabelSpec.session_flow 1000;
            LabelSpec.session_flow 2000]).
  vm_compute. reflexivity.
Defined.

Lemma evaluate_counts_witness :
  exists labeled distribution,
    @labeled_table sample_numlib constant_hmmlearn LabelSpec.decoding_model
      Extractor.__init__ LabelSpec.mixed_flows = Returned labeled
    /\ sample_metrics !! "state_distribution" = Some (MCounts distribution)
    /\ (forall state,
          distribution !! state
          = match length (flows_in_state labeled state) with
            | O => None
            | S n => Some (Z.of_nat (S n))
            end)
    /\ sample_metrics !! "n_flows" = Some (MInt (total distribution))
    /\ total distribution
       = Z.of_nat (length (session_flows (__init__ None None)
                                         LabelSpec.mixed_flows))
    /\ (total distribution <= Z.of_nat (length LabelSpec.mixed_flows))%Z
    /\ sample_metrics !! "n_sessions"
       = Some (MInt (Z.of_nat (length (default_sessions LabelSpec.mixed_flows))))
    /\ sample_metrics !! "n_states"
       = Some (MInt (HMM.n_states LabelSpec.decoding_model))
    /\ sample_metrics !! "error" = None.
Proof.
  apply (@evaluate_counts sample_numlib constant_hmmlearn
           LabelSpec.decoding_model Extractor.__init__ LabelSpec.mixed_flows
           sample_metrics).
  - vm_compute. discriminate.
  - vm_compute. reflexivity.
Defined.


End EvaluateFacts.
